(** * FLUX API client ([flux_trainer/api.py]): a shallow embedding

    The client is a thin layer over [requests]: it formats a request, decodes
    the JSON answer, normalises failures into [FluxAPIError] and, for image
    generation, polls the service in a bounded loop.

    The embedding keeps the shape of the Python code:
    - decoded JSON and the other Python values the client handles are the
      inductive [value]; a [dict] is a finite map from strings to values;
    - the network and the clock are the only effects: every operation is a
      function from the trace of events so far to an outcome and the extended
      trace (a state-and-exception monad [M]);
    - the remote service is a parameter of the development: an arbitrary
      function from the history and the request to what [requests.request]
      yields (a response, or a [RequestException]);
    - [logger] calls have no influence on results and are left out, except
      where evaluating their argument can raise.

    What the embedding takes for granted of the world outside the client:
    - every call of [requests.request] comes back, with a response or with a
      [RequestException]. The client passes no timeout, so a service that
      never answers would block it; such runs are outside the model, and the
      statements about the end of a call are about runs in which every
      request comes back;
    - [response.json()] either decodes the body or raises [JSONDecodeError];
    - the [json] keyword of a request, when there is one, is an object, as in
      every request the client builds. *)

From Stdlib Require Import ZArith String Ascii List Bool Lia.
From Stdlib Require Import SpecFloat.
From stdpp Require Import base option gmap strings list fin_maps.

Set Warnings "-register-all".
Set Default Proof Using "Type".

(** ** Python values *)

(** What [json.loads] can produce, which is also all the client ever puts in
    a payload: [None], [bool], [int], [float] (an IEEE-754 double), [str],
    [list] and [dict] with string keys. *)
Inductive value : Type :=
| VNone
| VBool (b : bool)
| VInt (n : Z)
| VFloat (x : spec_float)
| VStr (s : string)
| VList (items : list value)
| VDict (fields : gmap string value).

Abbreviation dict := (gmap string value).

(** [bool(v)]: the truth value Python gives [v] in [if v], [not v], [a or b]. *)
Definition truthy (v : value) : bool :=
  match v with
  | VNone => false
  | VBool b => b
  | VInt n => negb (n =? 0)%Z
  | VFloat x => match x with S754_zero _ => false | _ => true end
  | VStr s => negb (String.eqb s "")
  | VList items => match items with [] => false | _ :: _ => true end
  | VDict fields => negb (size fields =? 0)%nat
  end.

(** [v == s] for a string literal [s]: only a [str] equals a [str]. *)
Definition eq_str (v : value) (s : string) : bool :=
  match v with
  | VStr s' => String.eqb s' s
  | _ => false
  end.

(** [v in [s1, s2, ...]] for a list of string literals. *)
Definition in_strs (v : value) (l : list string) : bool := existsb (eq_str v) l.

(** [needle in haystack] on two [str]: the substring test. *)
Fixpoint is_substring (needle haystack : string) : bool :=
  String.prefix needle haystack ||
  match haystack with
  | EmptyString => false
  | String _ rest => is_substring needle rest
  end.

(** The line break written [\n] in a Python string literal. *)
Definition newline : string := String (ascii_of_nat 10) EmptyString.

(** ** The transport: [requests] *)

(** What [response.json()] does: decode the body, or raise [JSONDecodeError]. *)
Inductive json_result : Type :=
| Decoded (v : value)
| JSONDecodeError (msg : string).

(** The attributes of [requests.Response] the client reads: [status_code],
    [text], [ok] (which [requests] derives from the status: false for a
    client or server error) and the behaviour of [json()]. *)
Record Response : Type := {
  status_code : Z;
  ok : bool;
  text : string;
  json : json_result
}.

(** [response.json() if response.text else {}]. *)
Definition parse_response (r : Response) : json_result :=
  if negb (String.eqb (text r) "") then json r else Decoded (VDict ∅).

(** A [requests.exceptions.RequestException]: [str(e)] and [e.response]. *)
Record RequestException : Type := {
  exc_str : string;
  exc_response : option Response
}.

(** One call of [requests.request(method, url, headers=headers, **kwargs)]. *)
Record Request : Type := {
  method : string;
  url : string;
  headers : gmap string string;
  kwargs : dict
}.

(** What the outside world sees of a run. *)
Inductive event : Type :=
| Sent (req : Request)
| Slept (seconds : Z).

(** ** Exceptions *)

(** The built-in exceptions the client's own code can provoke. A [TypeError]
    is told apart by the operation that was refused. *)
Inductive type_error : Type :=
| not_iterable      (* argument of type ... is not iterable *)
| no_len            (* object of type ... has no len() *)
| bad_subscript.    (* ... is not subscriptable / indices must be integers *)

Inductive builtin_exn : Type :=
| AttributeError (obj : value) (attr : string)
| TypeError (why : type_error) (obj : value)
| KeyError (key : string)
| ValueError (msg : string).

(** The pieces of an f-string. Rendering of values ([str], [type]) and of
    exceptions is kept symbolic. *)
Inductive fragment : Type :=
| Lit (s : string)
| Str (v : value)
| TypeOf (v : value)
| ExcStr (e : builtin_exn).

(** [FluxAPIError(message, response)] is the only exception class the module
    defines; everything else is a built-in. *)
Inductive exn : Type :=
| FluxAPIError (message : list fragment) (response : option Response)
| Builtin (e : builtin_exn).

(** ** The monad of client code *)

Inductive outcome (A : Type) : Type :=
| Return (a : A)
| Raise (e : exn)
| OutOfFuel.
Arguments Return {A} a.
Arguments Raise {A} e.
Arguments OutOfFuel {A}.

Definition M (A : Type) : Type := list event -> outcome A * list event.

#[global] Instance M_ret : MRet M := fun A a t => (Return a, t).

#[global] Instance M_bind : MBind M := fun A B f m t =>
  match m t with
  | (Return a, t') => f a t'
  | (Raise e, t') => (Raise e, t')
  | (OutOfFuel, t') => (OutOfFuel, t')
  end.

Definition raise {A : Type} (e : exn) : M A := fun t => (Raise e, t).

Definition out_of_fuel {A : Type} : M A := fun t => (OutOfFuel, t).

(** [try: body / except FluxAPIError: raise / except Exception as e:
    raise FluxAPIError(f"{prefix}{str(e)}")]. *)
Definition reraise_as_flux {A : Type} (prefix : string) (body : M A) : M A :=
  fun t =>
    match body t with
    | (Raise (Builtin e), t') => (Raise (FluxAPIError [Lit prefix; ExcStr e] None), t')
    | r => r
    end.

(** [time.sleep(seconds)]. *)
Definition time_sleep (seconds : Z) : M unit :=
  fun t => (Return tt, t ++ [Slept seconds]).

(** ** Operations on values that can raise *)

(** [obj.get(key, default)]: only a [dict] has [get]. *)
Definition py_get (obj : value) (key : string) (dflt : value) : M value :=
  match obj with
  | VDict fields => mret (default dflt (fields !! key))
  | _ => raise (Builtin (AttributeError obj "get"))
  end.

(** [key in container]. *)
Definition py_in (key : string) (container : value) : M bool :=
  match container with
  | VDict fields => mret (bool_decide (is_Some (fields !! key)))
  | VList items => mret (existsb (fun v => eq_str v key) items)
  | VStr s => mret (is_substring key s)
  | _ => raise (Builtin (TypeError not_iterable container))
  end.

(** [obj[key]] for a string [key]. *)
Definition py_getitem (obj : value) (key : string) : M value :=
  match obj with
  | VDict fields =>
      match fields !! key with
      | Some v => mret v
      | None => raise (Builtin (KeyError key))
      end
  | _ => raise (Builtin (TypeError bad_subscript obj))
  end.

(** [len(v)]. *)
Definition py_len (v : value) : M nat :=
  match v with
  | VStr s => mret (String.length s)
  | VList items => mret (length items)
  | VDict fields => mret (size fields)
  | _ => raise (Builtin (TypeError no_len v))
  end.

(** ** The client *)

Record FluxAPI : Type := { api_key : string }.

Definition BASE_URL : string := "https://api.us1.bfl.ai/v1".

Definition max_attempts : Z := 30.

Definition no_api_key : string :=
  "API key must be provided or set in BFL_API_KEY environment variable".

Section Client.

(** The remote service and the network between: what [requests.request]
    gives for a request, possibly depending on everything that happened
    before. *)
Variable transport : list event -> Request -> Response + RequestException.

(** [os.environ]. *)
Variable environ : gmap string string.

Definition os_getenv (name : string) : option string := environ !! name.

Definition requests_request (method url : string) (headers : gmap string string)
    (kwargs : dict) : M (Response + RequestException) :=
  fun t =>
    let req := {| method := method; url := url; headers := headers; kwargs := kwargs |} in
    (Return (transport t req), t ++ [Sent req]).

(** [FluxAPI.__init__]: [self.api_key = api_key or os.getenv("BFL_API_KEY")],
    then [if not self.api_key: raise ValueError(...)]. Both operands are an
    optional [str]; [None] and the empty string are the falsy ones. *)
Definition __init__ (api_key : option string) : M FluxAPI :=
  let self_api_key :=
    match api_key with
    | Some k => if String.eqb k "" then os_getenv "BFL_API_KEY" else api_key
    | None => os_getenv "BFL_API_KEY"
    end in
  match self_api_key with
  | Some k =>
      if String.eqb k "" then raise (Builtin (ValueError no_api_key))
      else mret {| api_key := k |}
  | None => raise (Builtin (ValueError no_api_key))
  end.

(** The "log request details" block of [_make_request]: nothing observable,
    but [len(safe_payload['file_data'])] is evaluated and can raise. *)
Definition log_request_details (kwargs : dict) : M unit :=
  match kwargs !! "json" with
  | Some (VDict payload) =>
      if truthy (VDict payload) then
        match payload !! "file_data" with
        | Some file_data => _ ← py_len file_data; mret tt
        | None => mret tt
        end
      else mret tt
  | _ => mret tt
  end.

Definition _make_request (self : FluxAPI) (method endpoint : string)
    (kwargs : dict) : M value :=
  let headers : gmap string string :=
    {[ "Content-Type" := "application/json"; "X-Key" := api_key self ]} in
  let url := BASE_URL +:+ "/" +:+ endpoint in
  r ← requests_request method url headers kwargs;
  match r with
  | inl response =>
      _ ← log_request_details kwargs;
      (* Parse response *)
      match parse_response response with
      | JSONDecodeError e =>
          raise (FluxAPIError
                   [Lit "Invalid JSON response: "; Lit e;
                    Lit (newline +:+ "Response text: "); Lit (text response)]
                   (Some response))
      | Decoded response_json =>
          (* Check for error responses *)
          if negb (ok response) then
            error ← py_get response_json "error" (VDict ∅);
            error_msg ← py_get error "message" (VStr (text response));
            raise (FluxAPIError [Lit "API error: "; Str error_msg] (Some response))
          else mret response_json
      end
  | inr e =>
      (* except requests.exceptions.RequestException as e *)
      let error_msg := [Lit "Request failed: "; Lit (exc_str e)] ++
        match exc_response e with
        | Some r => [Lit (newline +:+ "Response: "); Lit (text r)]
        | None => []
        end in
      raise (FluxAPIError error_msg (exc_response e))
  end.

Definition get_progress (self : FluxAPI) (finetune_id : value) : M value :=
  _make_request self "GET" "get_result" {[ "params" := VDict {[ "id" := finetune_id ]} ]}.

Definition list_finetunes (self : FluxAPI) : M value :=
  _make_request self "GET" "my_finetunes" ∅.

Definition get_finetune_details (self : FluxAPI) (finetune_id : string) : M value :=
  response ← _make_request self "GET" "finetune_details"
               {[ "params" := VDict {[ "finetune_id" := VStr finetune_id ]} ]};
  (* Handle different response formats *)
  match response with
  | VDict _ => mret response
  | VStr _ =>
      mret (VDict {[ "finetune_comment" := VStr "N/A";
                     "status" := (if truthy response then response else VStr "Unknown");
                     "created_at" := VStr "N/A" ]})
  | _ =>
      mret (VDict {[ "finetune_comment" := VStr "Error: Invalid response format";
                     "status" := VStr "Unknown";
                     "created_at" := VStr "N/A" ]})
  end.

Definition delete_finetune (self : FluxAPI) (finetune_id : string) : M value :=
  _make_request self "POST" "delete_finetune"
    {[ "json" := VDict {[ "finetune_id" := VStr finetune_id ]} ]}.

(** The [payload] dictionary [request_finetuning] builds from its arguments. *)
Definition finetune_payload
    (file_data finetune_comment trigger_word mode : string) (iterations : Z)
    (learning_rate : spec_float) (captioning : bool)
    (priority finetune_type : string) (lora_rank : Z) : dict :=
  {[ "finetune_comment" := VStr finetune_comment;
     "trigger_word" := VStr trigger_word;
     "file_data" := VStr file_data;
     "iterations" := VInt iterations;
     "mode" := VStr mode;
     "learning_rate" := VFloat learning_rate;
     "captioning" := VBool captioning;
     "priority" := VStr priority;
     "lora_rank" := VInt lora_rank;
     "finetune_type" := VStr finetune_type ]}.

Definition request_finetuning (self : FluxAPI)
    (file_data finetune_comment trigger_word mode : string) (iterations : Z)
    (learning_rate : spec_float) (captioning : bool)
    (priority finetune_type : string) (lora_rank : Z) : M value :=
  let payload : dict :=
    finetune_payload file_data finetune_comment trigger_word mode iterations
      learning_rate captioning priority finetune_type lora_rank in
  reraise_as_flux "Failed to start finetuning job: " (
    response ← _make_request self "POST" "finetune" {[ "json" := VDict payload ]};
    (* Validate response *)
    match response with
    | VDict fields =>
        (* Check for finetune ID in both possible fields *)
        id ← py_get response "id" VNone;
        finetune_id ← (if truthy id then mret id else py_get response "finetune_id" VNone);
        if negb (truthy finetune_id) then
          raise (FluxAPIError [Lit "No finetune ID in response: "; Str response] None)
        else
          (* Normalize response to use 'id' field *)
          mret (VDict (<["id" := finetune_id]> fields))
    | _ => raise (FluxAPIError [Lit "Invalid response type: "; TypeOf response] None)
    end).

(** The [while attempt < max_attempts] loop of [generate_image]. [fuel]
    bounds the number of times the loop test is evaluated. *)
Fixpoint poll_for_results (fuel : nat) (self : FluxAPI) (inference_id : value)
    (attempt : Z) : M value :=
  match fuel with
  | O => out_of_fuel
  | S fuel' =>
      if (attempt <? max_attempts)%Z then
        result ← get_progress self inference_id;
        status ← py_get result "status" VNone;
        if eq_str status "Ready" then
          has_result ← py_in "result" result;
          has_sample ← (if has_result : bool
                        then nested ← py_getitem result "result"; py_in "sample" nested
                        else mret false);
          if has_sample : bool then py_getitem result "result"
          else raise (FluxAPIError [Lit "Invalid result format: "; Str result] None)
        else
          status ← py_get result "status" VNone;
          if in_strs status ["Failed"; "Error"] then
            error ← py_get result "error" (VStr "Unknown error");
            raise (FluxAPIError [Lit "Image generation failed: "; Str error] None)
          else
            _ ← time_sleep 2;  (* Wait 2 seconds between checks *)
            poll_for_results fuel' self inference_id (attempt + 1)
      else raise (FluxAPIError [Lit "Image generation timed out"] None)
  end.

(** The [payload] dictionary of [generate_image]: the three named fields,
    then the extra keyword arguments (whose entries win). *)
Definition generation_payload (finetune_id prompt : string)
    (finetune_strength : spec_float) (kwargs : dict) : dict :=
  kwargs ∪ {[ "finetune_id" := VStr finetune_id;
              "prompt" := VStr prompt;
              "finetune_strength" := VFloat finetune_strength ]}.

(** [generate_image(finetune_id, prompt, finetune_strength, endpoint,
    **kwargs)]. The loop test runs at most [max_attempts + 1] times. *)
Definition generate_image (self : FluxAPI) (finetune_id prompt : string)
    (finetune_strength : spec_float) (endpoint : string) (kwargs : dict) : M value :=
  let payload : dict := generation_payload finetune_id prompt finetune_strength kwargs in
  reraise_as_flux "Failed to generate image: " (
    (* Step 1: Request image generation *)
    inference_response ← _make_request self "POST" endpoint {[ "json" := VDict payload ]};
    inference_id ← py_get inference_response "id" VNone;
    if negb (truthy inference_id) then
      raise (FluxAPIError [Lit "No inference ID in response: "; Str inference_response] None)
    else
      (* Step 2: Poll for results *)
      poll_for_results (S (Z.to_nat max_attempts)) self inference_id 0).

End Client.

Arguments _make_request transport self method endpoint kwargs t : simpl never.

(** ** The requests the client sends *)

(** The request [_make_request] sends. *)
Definition request_for (self : FluxAPI) (method endpoint : string) (kwargs : dict) : Request :=
  {| method := method;
     url := BASE_URL +:+ "/" +:+ endpoint;
     headers := {[ "Content-Type" := "application/json"; "X-Key" := api_key self ]};
     kwargs := kwargs |}.

(** The request [get_finetune_details] sends. *)
Definition details_request (self : FluxAPI) (finetune_id : string) : Request :=
  request_for self "GET" "finetune_details"
    {[ "params" := VDict {[ "finetune_id" := VStr finetune_id ]} ]}.

(** The request [request_finetuning] sends. *)
Definition finetune_post (self : FluxAPI)
    (file_data finetune_comment trigger_word mode : string) (iterations : Z)
    (learning_rate : spec_float) (captioning : bool)
    (priority finetune_type : string) (lora_rank : Z) : Request :=
  request_for self "POST" "finetune"
    {[ "json" := VDict (finetune_payload file_data finetune_comment trigger_word
                          mode iterations learning_rate captioning priority
                          finetune_type lora_rank) ]}.

(** The request of step 1. *)
Definition submit_request (self : FluxAPI) (finetune_id prompt : string)
    (finetune_strength : spec_float) (endpoint : string) (kwargs : dict) : Request :=
  request_for self "POST" endpoint
    {[ "json" := VDict (generation_payload finetune_id prompt finetune_strength kwargs) ]}.

(** The request of each poll. *)
Definition poll_request (self : FluxAPI) (inference_id : value) : Request :=
  request_for self "GET" "get_result" {[ "params" := VDict {[ "id" := inference_id ]} ]}.

(** ** Reading a trace *)

(** [k] rounds of "poll, then sleep two seconds". *)
Definition waiting_rounds (poll : Request) (k : nat) : list event :=
  concat (replicate k [Sent poll; Slept 2]).

(** The number of polls of [get_result] in a trace. *)
Definition is_poll (e : event) : bool :=
  match e with
  | Sent req => String.eqb (method req) "GET" && String.eqb (url req) (BASE_URL +:+ "/get_result")
  | Slept _ => false
  end.
Definition polls (tr : list event) : nat := length (List.filter is_poll tr).

(** The seconds slept in a trace. *)
Definition sleeps (tr : list event) : list Z :=
  flat_map (fun e => match e with Slept s => [s] | Sent _ => [] end) tr.

(** The number of requests in a trace, and the seconds slept in all. *)
Definition requests_sent (tr : list event) : nat :=
  length (List.filter (fun e => match e with Sent _ => true | Slept _ => false end) tr).
Definition total_slept (tr : list event) : Z := fold_right Z.add 0%Z (sleeps tr).

(** The error that ends the polling loop when the attempts are spent. *)
Definition timed_out : exn := FluxAPIError [Lit "Image generation timed out"] None.

(** ** The vocabulary of the statements *)

(** The values the docstring of [request_finetuning] lists for its
    enumerated parameters. *)
Definition valid_mode (mode : string) : Prop :=
  mode ∈ ["character"; "product"; "style"; "general"].
Definition valid_priority (priority : string) : Prop :=
  priority ∈ ["speed"; "quality"].
Definition valid_finetune_type (finetune_type : string) : Prop :=
  finetune_type ∈ ["full"; "lora"].
Definition valid_lora_rank (lora_rank : Z) : Prop :=
  lora_rank ∈ [16%Z; 32%Z].

(** ["status"] as the loop reads it, and the statuses that end the loop. *)
Definition status_of (d : dict) : value := default VNone (d !! "status").
Definition terminal (status : value) : bool :=
  eq_str status "Ready" || in_strs status ["Failed"; "Error"].

(** Step 1 returned an object holding the job id [inference_id]. *)
Definition submission_returns
    (transport : list event -> Request -> Response + RequestException)
    (self : FluxAPI) (finetune_id prompt : string) (finetune_strength : spec_float)
    (endpoint : string) (kwargs : dict) (t : list event) (inference_id : value) : Prop :=
  exists fields : dict,
    _make_request transport self "POST" endpoint
      {[ "json" := VDict (generation_payload finetune_id prompt finetune_strength kwargs) ]} t
    = (Return (VDict fields),
       t ++ [Sent (submit_request self finetune_id prompt finetune_strength endpoint kwargs)]) /\
    fields !! "id" = Some inference_id /\
    truthy inference_id = true.

(** At history [h] the service answers a poll with an [ok] response that
    decodes to the object [d]. *)
Definition poll_answers
    (transport : list event -> Request -> Response + RequestException)
    (self : FluxAPI) (inference_id : value) (h : list event) (d : dict) : Prop :=
  exists r : Response,
    transport h (poll_request self inference_id) = inl r /\
    ok r = true /\
    parse_response r = Decoded (VDict d).

(** After the submission at history [t], the first [k] polls find the job
    neither ready nor failed. *)
Definition still_waiting
    (transport : list event -> Request -> Response + RequestException)
    (self : FluxAPI) (finetune_id prompt : string) (finetune_strength : spec_float)
    (endpoint : string) (kwargs : dict) (t : list event) (inference_id : value)
    (k : nat) : Prop :=
  forall j : nat, (j < k)%nat ->
    exists d : dict,
      poll_answers transport self inference_id
        (t ++ Sent (submit_request self finetune_id prompt finetune_strength endpoint kwargs)
           :: waiting_rounds (poll_request self inference_id) j) d /\
      terminal (status_of d) = false.

(** "The status field of the structured result is the raw string [s]". *)
Definition status_is_raw_string
    (transport : list event -> Request -> Response + RequestException)
    (self : FluxAPI) (finetune_id : string) (t : list event) (s : string) : Prop :=
  exists (d : dict) (t' : list event),
    get_finetune_details transport self finetune_id t = (Return (VDict d), t') /\
    d !! "status" = Some (VStr s).

(** [terminates m]: [m] never runs out of fuel. *)
Definition terminates {A : Type} (m : M A) : Prop :=
  forall t, fst (m t) <> OutOfFuel.

(** [extends m]: [m] only adds events at the end of the trace. *)
Definition extends {A : Type} (m : M A) : Prop :=
  forall t, exists rest, snd (m t) = t ++ rest.


(** ** The user interface ([flux_trainer/ui.py]): the handlers behind the buttons

    The Gradio widgets carry no logic and are not modelled. The handlers are:
    they hold the cached client in [self.api], call the client, and turn every
    outcome into what the page shows. They run in a monad [UM] that adds the
    state of the [FluxTrainerUI] object to the trace of events. *)

Definition REFRESH_INTERVAL : Z := 5.

(** The set [AUTO_REFRESH_STATES]. *)
Definition AUTO_REFRESH_STATES : list string := ["Pending"; "Running"; "Processing"].

(** The notes [check_progress_with_state] adds after the status, as the
    source file spells them. *)
Definition STATUS_READY_NOTE : string :=
  "âœ… Training complete! You can now use the Generate tab.".
Definition STATUS_REFRESH_NOTE_1 : string :=
  "ðŸ”„ Auto-refreshing every ".
Definition STATUS_FAILED_NOTE : string :=
  "âŒ Training failed. Please check your parameters and try again.".

(** A file as Gradio hands it over: the handlers read its [name]. *)
Record UploadedFile : Type := { file_name : string }.

(** The attributes of a [FluxTrainerUI] the handlers use. *)
Record FluxTrainerUI : Type := {
  api : option FluxAPI;
  default_api_key : string;
  default_description : string
}.

(** What can be raised inside a handler: what the client raises, the
    [TypeError] of hashing a [list] or a [dict], and the [OSError] of the file
    system. *)
Inductive ui_exn : Type :=
| Client (e : exn)
| Unhashable (type_name : string)
| OSError (msg : string).

(** [str(e)]. *)
Definition str_of (e : ui_exn) : list fragment :=
  match e with
  | Client (FluxAPIError message _) => message
  | Client (Builtin b) => [ExcStr b]
  | Unhashable type_name => [Lit ("unhashable type: '" +:+ type_name +:+ "'")]
  | OSError msg => [Lit msg]
  end.

(** What a handler gives to an output widget: a text put together by an
    f-string, or a value passed on as it is. *)
Inductive shown : Type :=
| Text (pieces : list fragment)
| Plain (v : value).

Inductive ui_outcome (A : Type) : Type :=
| Done (a : A)
| Failed (e : ui_exn)
| Stuck.
Arguments Done {A} a.
Arguments Failed {A} e.
Arguments Stuck {A}.

Definition UM (A : Type) : Type :=
  FluxTrainerUI -> list event -> ui_outcome A * FluxTrainerUI * list event.

#[global] Instance UM_ret : MRet UM := fun A a ui t => (Done a, ui, t).

#[global] Instance UM_bind : MBind UM := fun A B f m ui t =>
  match m ui t with
  | (Done a, ui', t') => f a ui' t'
  | (Failed e, ui', t') => (Failed e, ui', t')
  | (Stuck, ui', t') => (Stuck, ui', t')
  end.

Definition fail {A : Type} (e : ui_exn) : UM A := fun ui t => (Failed e, ui, t).

(** Client code run from a handler. *)
Definition lift {A : Type} (m : M A) : UM A := fun ui t =>
  match m t with
  | (Return a, t') => (Done a, ui, t')
  | (Raise e, t') => (Failed (Client e), ui, t')
  | (OutOfFuel, t') => (Stuck, ui, t')
  end.

Definition get_self : UM FluxTrainerUI := fun ui t => (Done ui, ui, t).

(** [self.api = a]. *)
Definition set_api (a : FluxAPI) : UM unit := fun ui t =>
  (Done tt,
   {| api := Some a;
      default_api_key := default_api_key ui;
      default_description := default_description ui |},
   t).

(** [try: body / except FluxAPIError as e: on_flux(str(e)) /
    except Exception as e: on_exception(str(e))]. *)
Definition try_except {A : Type} (body : UM A)
    (on_flux on_exception : list fragment -> UM A) : UM A :=
  fun ui t =>
    match body ui t with
    | (Failed (Client (FluxAPIError message response)), ui', t') =>
        on_flux (str_of (Client (FluxAPIError message response))) ui' t'
    | (Failed e, ui', t') => on_exception (str_of e) ui' t'
    | r => r
    end.

(** [try: body / except Exception as e: on_exception(str(e))]. *)
Definition try_except_any {A : Type} (body : UM A)
    (on_exception : list fragment -> UM A) : UM A :=
  fun ui t =>
    match body ui t with
    | (Failed e, ui', t') => on_exception (str_of e) ui' t'
    | r => r
    end.

(** [status in AUTO_REFRESH_STATES]: membership in a set hashes [status]. *)
Definition in_auto_refresh_states (status : value) : UM bool :=
  match status with
  | VList _ => fail (Unhashable "list")
  | VDict _ => fail (Unhashable "dict")
  | _ => mret (in_strs status AUTO_REFRESH_STATES)
  end.

(** [clear_on_error(error_msg)]: an error text is shown for three seconds
    and then cleared. *)
Definition clear_on_error (error_msg : string) : M string :=
  if negb (String.eqb error_msg "") && String.prefix "Error:" error_msg then
    _ ← time_sleep 3;  (* Show error for 3 seconds *)
    mret EmptyString
  else mret error_msg.

(** The characters of a [str], each as a [str] of its own: what iterating
    over it yields. A string is held as its UTF-8 bytes; a byte [10xxxxxx]
    continues the character before it. *)
Definition is_continuation_byte (c : ascii) : bool :=
  (128 <=? nat_of_ascii c)%nat && (nat_of_ascii c <? 192)%nat.

Fixpoint utf8_chars (s : string) : list string :=
  match s with
  | EmptyString => []
  | String c rest =>
      match utf8_chars rest with
      | [] => [String c EmptyString]
      | next :: others =>
          match rest with
          | String c' _ =>
              if is_continuation_byte c' then (String c next) :: others
              else String c EmptyString :: next :: others
          | EmptyString => [String c EmptyString]
          end
      end
  end.

Section UI.

Variable transport : list event -> Request -> Response + RequestException.
Variable environ : gmap string string.

(** [os.path.getsize(path)]: the size in bytes, or the text of the
    [OSError]. *)
Variable getsize : string -> Z + string.

(** The archive of the files, written to a temporary file, read back and
    encoded in base64 (lines 40 to 49 of [create_zip_from_files]): the
    encoded text, or the text of the [OSError] of the step that failed. *)
Variable zip_base64 : list UploadedFile -> string + string.

(** The order in which Python goes through the keys of a [dict] (the order of
    insertion), which a finite map does not record. *)
Variable keys_in_order : dict -> list string.

(** [sum(os.path.getsize(f.name) for f in files)]. *)
Fixpoint sum_sizes (files : list UploadedFile) : UM Z :=
  match files with
  | [] => mret 0%Z
  | f :: rest =>
      match getsize (file_name f) with
      | inl size => total ← sum_sizes rest; mret (size + total)%Z
      | inr msg => fail (OSError msg)
      end
  end.

Definition create_zip_from_files (files : option (list UploadedFile)) : UM (string * Z) :=
  match files with
  | None | Some [] => fail (Client (Builtin (ValueError "No files provided")))
  | Some files =>
      total_size ← sum_sizes files;
      if (total_size >? 100 * 1024 * 1024)%Z then
        fail (Client (Builtin (ValueError "Total file size exceeds 100MB limit")))
      else
        match zip_base64 files with
        | inl zip_data => mret (zip_data, total_size)
        | inr msg => fail (OSError msg)
        end
  end.

(** [FluxTrainerUI._get_api]: the cached client is kept when it holds the
    same key, and replaced otherwise. A [FluxAPI] object is always true. *)
Definition _get_api (api_key : string) : UM FluxAPI :=
  self ← get_self;
  let renew : UM FluxAPI :=
    a ← lift (__init__ environ (Some api_key));
    _ ← set_api a;
    mret a in
  match api self with
  | Some (Build_FluxAPI cached_key as a) =>
      if negb (String.eqb cached_key api_key) then renew else mret a
  | None => renew
  end.

(** [get_api_key(ui_key)]. *)
Definition get_api_key (ui_key : string) : UM string :=
  self ← get_self;
  mret (if negb (String.eqb ui_key "") then ui_key else default_api_key self).

Definition check_progress_with_state (finetune_id api_key : string)
    (auto_refresh : bool) (last_status : value) : UM (shown * bool * value) :=
  try_except (
    if String.eqb finetune_id "" then
      mret (Text [Lit "Error: Please enter a Finetune ID"], false, VStr EmptyString)
    else
      api ← _get_api api_key;
      result ← lift (get_progress transport api (VStr finetune_id));
      status ← lift (py_getitem result "status");
      progress ← lift (py_get result "progress" (VStr "N/A"));
      (* Determine if we should continue auto-refresh *)
      should_refresh ← in_auto_refresh_states status;
      (* Format the output message *)
      let output :=
        [Lit "Status: "; Str status; Lit (newline +:+ "Progress: "); Str progress;
         Lit newline] in
      output ← (if eq_str status "Ready" then
                  mret (output ++ [Lit STATUS_READY_NOTE])
                else
                  refreshing ← in_auto_refresh_states status;
                  if refreshing : bool then
                    mret (output ++ [Lit STATUS_REFRESH_NOTE_1; Str (VInt REFRESH_INTERVAL);
                                     Lit " seconds..."])
                  else if eq_str status "Failed" then
                    mret (output ++ [Lit STATUS_FAILED_NOTE])
                  else mret output);
      mret (Text output, should_refresh, status))
    (fun msg => mret (Text (Lit "API Error: " :: msg), false, VStr EmptyString))
    (fun msg => mret (Text (Lit "Error: " :: msg), false, VStr EmptyString)).

(** The handler [delete_finetune] of the Manage tab. *)
Definition ui_delete_finetune (finetune_id api_key : string) : UM shown :=
  try_except (
    if String.eqb finetune_id "" then
      mret (Text [Lit "Error: Please enter a Finetune ID"])
    else
      api ← _get_api api_key;
      _ ← lift (delete_finetune transport api finetune_id);
      mret (Text [Lit "Successfully deleted finetune: "; Str (VStr finetune_id)]))
    (fun msg => mret (Text (Lit "API Error: " :: msg)))
    (fun msg => mret (Text (Lit "Error: " :: msg))).

Definition _handle_generation (finetune_id prompt : string)
    (finetune_strength : spec_float) (endpoint api_key : string) : UM shown :=
  try_except (
    (* Validate inputs *)
    if String.eqb finetune_id "" then
      mret (Text [Lit "Error: Please enter a Finetune ID"])
    else if String.eqb prompt "" then
      mret (Text [Lit "Error: Please enter a prompt"])
    else
      api ← _get_api api_key;
      result ← lift (generate_image transport api finetune_id prompt finetune_strength
                       endpoint ∅);
      sample ← lift (py_getitem result "sample");
      mret (Plain sample))
    (fun msg => mret (Text (Lit "API Error: " :: msg)))
    (fun msg => mret (Text (Lit "Error: " :: msg))).

Definition _handle_training (files : option (list UploadedFile))
    (finetune_comment trigger_word mode : string) (iterations : Z)
    (learning_rate : spec_float) (captioning : bool)
    (priority finetune_type : string) (lora_rank : Z) (api_key : string) : UM shown :=
  try_except (
    (* Validate inputs *)
    match files with
    | None | Some [] => mret (Text [Lit "Error: Please upload at least one image"])
    | Some uploaded =>
        if (20 <? length uploaded)%nat then
          mret (Text [Lit "Error: Maximum 20 images allowed"])
        else if String.eqb finetune_comment "" then
          mret (Text [Lit "Error: Please provide a description"])
        else
          (* Create API client *)
          api ← _get_api api_key;
          (* Create ZIP file *)
          zipped ← try_except_any
                     (z ← create_zip_from_files files; mret (inl z))
                     (fun msg => mret (inr (Text (Lit "Error preparing files: " :: msg))));
          match zipped with
          | inr early => mret early
          | inl (zip_data, total_size) =>
              (* Start training *)
              response ← lift (request_finetuning transport api zip_data finetune_comment
                                 trigger_word mode iterations learning_rate captioning
                                 priority finetune_type lora_rank);
              id ← lift (py_getitem response "id");
              mret (Text [Lit ("Training started!" +:+ newline +:+ "Finetune ID: ");
                          Str id;
                          Lit (newline +:+ "Switch to the Progress tab to monitor status.")])
          end
    end)
    (fun msg => mret (Text (Lit "API Error: " :: msg)))
    (fun msg => mret (Text (Lit "Error: " :: msg))).

(** [FluxAPI.get_finetune_details] as the listing calls it: with the id found
    in the listing, which need not be a [str]. *)
Definition get_finetune_details_of (self : FluxAPI) (finetune_id : value) : M value :=
  response ← _make_request transport self "GET" "finetune_details"
               {[ "params" := VDict {[ "finetune_id" := finetune_id ]} ]};
  match response with
  | VDict _ => mret response
  | VStr _ =>
      mret (VDict {[ "finetune_comment" := VStr "N/A";
                     "status" := (if truthy response then response else VStr "Unknown");
                     "created_at" := VStr "N/A" ]})
  | _ =>
      mret (VDict {[ "finetune_comment" := VStr "Error: Invalid response format";
                     "status" := VStr "Unknown";
                     "created_at" := VStr "N/A" ]})
  end.

(** [for ft in finetunes]: the items of a [list], the characters of a [str],
    the keys of a [dict]. *)
Definition py_iter (v : value) : M (list value) :=
  match v with
  | VList items => mret items
  | VStr s => mret (VStr <$> utf8_chars s)
  | VDict fields => mret (VStr <$> keys_in_order fields)
  | _ => raise (Builtin (TypeError not_iterable v))
  end.

(** [ft if isinstance(ft, str) else ft.get('id', default)]. *)
Definition finetune_id_of (ft : value) (dflt : value) : M value :=
  match ft with
  | VStr _ => mret ft
  | _ => py_get ft "id" dflt
  end.

(** The body of [for ft in finetunes] in the handler [list_finetunes], run
    over the items in turn; [rows] is the list built so far. *)
Fixpoint list_rows (api : FluxAPI) (finetunes : list value) (rows : list (list shown))
    : UM (list (list shown)) :=
  match finetunes with
  | [] => mret rows
  | ft :: rest =>
      rows ← try_except_any (
                (* Get details for each finetune *)
                ft_id ← lift (finetune_id_of ft VNone);
                if negb (truthy ft_id) then mret rows  (* continue *)
                else
                  details ← lift (get_finetune_details_of api ft_id);
                  match details with
                  | VDict _ =>
                      comment ← lift (py_get details "finetune_comment" (VStr "N/A"));
                      status ← lift (py_get details "status" (VStr "N/A"));
                      created ← lift (py_get details "created_at" (VStr "N/A"));
                      mret (rows ++ [[Plain ft_id; Plain comment; Plain status;
                                      Plain created]])
                  | _ =>
                      mret (rows ++ [[Plain ft_id;
                                      Plain (VStr "Error: Invalid details format");
                                      Plain (VStr "N/A"); Plain (VStr "N/A")]])
                  end)
              (fun _ =>
                ft_id ← lift (finetune_id_of ft (VStr "Unknown"));
                mret (rows ++ [[Plain ft_id; Plain (VStr "Error getting details");
                                Plain (VStr "N/A"); Plain (VStr "N/A")]]));
      list_rows api rest rows
  end.

(** A table of one row that holds a message. *)
Definition message_row (message : shown) : list (list shown) :=
  [[message; Plain (VStr EmptyString); Plain (VStr EmptyString);
    Plain (VStr EmptyString)]].

(** The handler [list_finetunes] of the Manage tab. *)
Definition ui_list_finetunes (api_key : string) : UM (list (list shown)) :=
  try_except (
    api ← _get_api api_key;
    response ← lift (list_finetunes transport api);
    (* Extract finetunes list from response *)
    finetunes ← lift (py_get response "finetunes" (VList []));
    _ ← lift (py_len finetunes);
    items ← lift (py_iter finetunes);
    (* Format the data for display *)
    rows ← list_rows api items [];
    match rows with
    | [] => mret (message_row (Plain (VStr "No finetunes found")))
    | _ :: _ => mret rows
    end)
    (fun msg => mret (message_row (Text (Lit "API Error: " :: msg))))
    (fun msg => mret (message_row (Text (Lit "Error: " :: msg)))).

(** [auto_refresh_list(api_key)]. *)
Definition auto_refresh_list (api_key : string) : UM (list (list shown)) :=
  self ← get_self;
  try_except_any
    (ui_list_finetunes (if negb (String.eqb api_key "") then api_key
                        else default_api_key self))
    (fun _ => mret []).

(** The handlers as wired to the buttons: the key typed in the page, or the
    default one when the field is empty. *)
Definition handle_progress_with_key (finetune_id api_key : string)
    (auto_refresh : bool) (last_status : value) : UM (shown * bool * value) :=
  key ← get_api_key api_key;
  check_progress_with_state finetune_id key auto_refresh last_status.

Definition handle_list_finetunes (api_key : string) : UM (list (list shown)) :=
  key ← get_api_key api_key;
  ui_list_finetunes key.

Definition handle_delete_finetune (finetune_id api_key : string) : UM shown :=
  key ← get_api_key api_key;
  ui_delete_finetune finetune_id key.

Definition handle_generation_with_key (finetune_id prompt : string)
    (finetune_strength : spec_float) (endpoint api_key : string) : UM shown :=
  key ← get_api_key api_key;
  _handle_generation finetune_id prompt finetune_strength endpoint key.

Definition handle_training_with_key (files : option (list UploadedFile))
    (finetune_comment trigger_word mode : string) (iterations : Z)
    (learning_rate : spec_float) (captioning : bool)
    (priority finetune_type : string) (lora_rank : Z) (api_key : string) : UM shown :=
  key ← get_api_key api_key;
  _handle_training files finetune_comment trigger_word mode iterations learning_rate
    captioning priority finetune_type lora_rank key.

End UI.

(** [settles m]: the handler code [m] never runs out of fuel. *)
Definition settles {A : Type} (m : UM A) : Prop :=
  forall ui t, fst (fst (m ui t)) <> Stuck.

(** [always_done m]: [m] returns, whatever the state and the history; it
    neither raises nor runs out of fuel. *)
Definition always_done {A : Type} (m : UM A) : Prop :=
  forall ui t, exists a ui' t', m ui t = (Done a, ui', t').

(** ["sample" in v], where it is defined: what [generate_image] checks
    before it returns [v]. *)
Definition has_sample (v : value) : bool :=
  match v with
  | VDict fields => bool_decide (is_Some (fields !! "sample"))
  | VList items => existsb (fun item => eq_str item "sample") items
  | VStr s => is_substring "sample" s
  | _ => false
  end.

(** A [str], a [list] or a [dict]: the values on which [in] and [len] are
    defined. *)
Definition is_container (v : value) : bool :=
  match v with
  | VStr _ | VList _ | VDict _ => true
  | _ => false
  end.

(** The test ["result" in result and "sample" in result["result"]] is false:
    there is no ['result'], or ["sample"] is not found in it (as a key of an
    object, an item of a list, a part of a string). *)
Definition sample_test_fails (d : dict) : Prop :=
  d !! "result" = None \/
  exists v : value,
    d !! "result" = Some v /\ is_container v = true /\ has_sample v = false.

(** The call of [generate_image] fails: it raises. *)
Definition generation_fails
    (transport : list event -> Request -> Response + RequestException)
    (self : FluxAPI) (finetune_id prompt : string) (finetune_strength : spec_float)
    (endpoint : string) (kwargs : dict) (t : list event) : Prop :=
  exists (e : exn) (t' : list event),
    generate_image transport self finetune_id prompt finetune_strength endpoint kwargs t
    = (Raise e, t').

(** [never_raises m]: no exception leaves the handler code [m]. *)
Definition never_raises {A : Type} (m : UM A) : Prop :=
  forall ui t e, fst (fst (m ui t)) <> Failed e.

(** The client held by a [FluxTrainerUI]. *)
Definition with_api (ui : FluxTrainerUI) (a : FluxAPI) : FluxTrainerUI :=
  {| api := Some a;
     default_api_key := default_api_key ui;
     default_description := default_description ui |}.

(** The cached client, if there is one, holds a key: what [FluxAPI.__init__]
    guarantees of every client it builds. *)
Definition cache_ok (ui : FluxTrainerUI) : Prop :=
  match api ui with
  | Some a => api_key a <> ""
  | None => True
  end.

(** No credential in the environment. *)
Definition no_credential (environ : gmap string string) : Prop :=
  environ !! "BFL_API_KEY" = None \/ environ !! "BFL_API_KEY" = Some "".

(** The job id the listing reads from an item: the item itself when it is a
    [str], its ['id'] when it is an object. *)
Definition listed_id (ft : value) : value :=
  match ft with
  | VStr _ => ft
  | VDict fields => default VNone (fields !! "id")
  | _ => VNone
  end.

Definition is_job_item (ft : value) : bool :=
  match ft with
  | VStr _ | VDict _ => true
  | _ => false
  end.

(** The ids the listing asks details for: the ones Python takes as true. *)
Definition listed_ids (items : list value) : list value :=
  List.filter truthy (listed_id <$> items).

(** The request for the details of one job. *)
Definition details_request_of (self : FluxAPI) (finetune_id : value) : Request :=
  request_for self "GET" "finetune_details"
    {[ "params" := VDict {[ "finetune_id" := finetune_id ]} ]}.

(** A row of the table has the four cells of its headers. *)
Definition is_table (rows : list (list shown)) : Prop :=
  rows <> [] /\ Forall (fun row => length row = 4%nat) rows.

(** The event is a request that carries the key [key], or is no request. *)
Definition carries (key : string) (e : event) : Prop :=
  match e with
  | Sent req => headers req !! "X-Key" = Some key
  | Slept _ => True
  end.

(** [sends_with key m]: [m] only adds events at the end of the trace, and
    every request among them carries [key]. *)
Definition sends_with (key : string) {A : Type} (m : M A) : Prop :=
  forall t, exists new, snd (m t) = t ++ new /\ Forall (carries key) new.

Definition ui_sends_with (key : string) {A : Type} (m : UM A) : Prop :=
  forall ui t, exists new, snd (m ui t) = t ++ new /\ Forall (carries key) new.

(** ** Mock services, for running the client on concrete inputs *)

Module Mock.

Definition self : FluxAPI := {| api_key := "secret" |}.

(** The JSON text of a string without special characters. *)
Definition json_text_of (s : string) : string :=
  String (ascii_of_nat 34) (s +:+ String (ascii_of_nat 34) EmptyString).

Definition replies (r : Response) : list event -> Request -> Response + RequestException :=
  fun _ _ => inl r.

Definition unreachable : list event -> Request -> Response + RequestException :=
  fun _ _ => inr {| exc_str := "Connection refused"; exc_response := None |}.

(** HTTP 200 with a bare JSON string as body. *)
Definition bare_string (s : string) : Response :=
  {| status_code := 200; ok := true; text := json_text_of s; json := Decoded (VStr s) |}.

(** HTTP 200 with the JSON list [[1, 2]] as body. *)
Definition bare_list : Response :=
  {| status_code := 200; ok := true; text := "[1, 2]"; json := Decoded (VList [VInt 1; VInt 2]) |}.

(** HTTP 500 with the JSON body [{error: boom}]: the error is a string. *)
Definition error_500_flat : Response :=
  {| status_code := 500; ok := false;
     text := "{" +:+ json_text_of "error" +:+ ": " +:+ json_text_of "boom" +:+ "}";
     json := Decoded (VDict {[ "error" := VStr "boom" ]}) |}.

(** HTTP 500 with the JSON body [{error: {message: boom}}]. *)
Definition error_500_nested : Response :=
  {| status_code := 500; ok := false;
     text := "{" +:+ json_text_of "error" +:+ ": {" +:+ json_text_of "message" +:+ ": "
             +:+ json_text_of "boom" +:+ "}}";
     json := Decoded (VDict {[ "error" := VDict {[ "message" := VStr "boom" ]} ]}) |}.

End Mock.

(** Scripted services, for runs of [generate_image] and [request_finetuning]. *)
Module Script.

(** The double [1.2] (the default strength) and the double [0.00001] (the
    default learning rate). *)
Definition strength_1_2 : spec_float := S754_finite false 5404319552844595 (-52).
Definition learning_rate_1e_5 : spec_float := S754_finite false 5902958103587057 (-69).

(** The JSON text of an object whose values are given as JSON text. *)
Fixpoint json_members (members : list (string * string)) : string :=
  match members with
  | [] => EmptyString
  | [(k, v)] => Mock.json_text_of k +:+ ": " +:+ v
  | (k, v) :: rest => Mock.json_text_of k +:+ ": " +:+ v +:+ ", " +:+ json_members rest
  end.
Definition json_object (members : list (string * string)) : string :=
  "{" +:+ json_members members +:+ "}".

(** HTTP 200 with the body [{key: id}]. *)
Definition created (key id : string) : Response :=
  {| status_code := 200; ok := true;
     text := json_object [(key, Mock.json_text_of id)];
     json := Decoded (VDict {[ key := VStr id ]}) |}.

(** HTTP 200 with the body [{}]. *)
Definition empty_object : Response :=
  {| status_code := 200; ok := true; text := "{}"; json := Decoded (VDict ∅) |}.

(** HTTP 200 with the body [{status: s}]. *)
Definition status_reply (s : string) : Response :=
  {| status_code := 200; ok := true;
     text := json_object [("status", Mock.json_text_of s)];
     json := Decoded (VDict {[ "status" := VStr s ]}) |}.

(** HTTP 200 with the body [{status: Ready, result: {sample: url}}]. *)
Definition ready_reply (sample_url : string) : Response :=
  {| status_code := 200; ok := true;
     text := json_object [("status", Mock.json_text_of "Ready");
                          ("result", json_object [("sample", Mock.json_text_of sample_url)])];
     json := Decoded (VDict {[ "status" := VStr "Ready";
                               "result" := VDict {[ "sample" := VStr sample_url ]} ]}) |}.

(** HTTP 200 with the body [{status: Failed, error: detail}]. *)
Definition failed_reply (detail : string) : Response :=
  {| status_code := 200; ok := true;
     text := json_object [("status", Mock.json_text_of "Failed");
                          ("error", Mock.json_text_of detail)];
     json := Decoded (VDict {[ "status" := VStr "Failed"; "error" := VStr detail ]}) |}.

(** A service that answers every POST with [first], and the [n]-th poll it
    sees with the [n]-th entry of [poll_replies] ([otherwise] once the script
    is over). *)
Definition scripted (first : Response) (poll_replies : list Response)
    (otherwise : Response) : list event -> Request -> Response + RequestException :=
  fun h req =>
    if String.eqb (method req) "POST" then inl first
    else inl (nth (polls h) poll_replies otherwise).

Definition endpoint : string := "flux-pro-1.1-ultra-finetuned".

(** HTTP 502 with an HTML page as body: [json()] raises. *)
Definition bad_gateway : Response :=
  {| status_code := 502; ok := false;
     text := "<html>Bad Gateway</html>";
     json := JSONDecodeError "Expecting value: line 1 column 1 (char 0)" |}.

(** HTTP 200 with an empty body (on which [json()] would raise). *)
Definition empty_body : Response :=
  {| status_code := 200; ok := true;
     text := EmptyString;
     json := JSONDecodeError "Expecting value: line 1 column 1 (char 0)" |}.

(** A transport-level failure that carries no response. *)
Definition connection_reset : RequestException :=
  {| exc_str := "Connection reset by peer"; exc_response := None |}.

(** Like [scripted], but once the script of polls is over the network fails
    with [e]. *)
Definition scripted_then_failing (first : Response) (poll_replies : list Response)
    (e : RequestException) : list event -> Request -> Response + RequestException :=
  fun h req =>
    if String.eqb (method req) "POST" then inl first
    else match nth_error poll_replies (polls h) with
         | Some r => inl r
         | None => inr e
         end.

End Script.

Module Desk.

Definition fresh : FluxTrainerUI :=
  {| api := None; default_api_key := ""; default_description := "" |}.

Definition stale : FluxTrainerUI :=
  {| api := Some {| api_key := "old-key" |}; default_api_key := "";
     default_description := "" |}.

(** One uploaded photograph of 1 KiB, and the archive made of the upload. *)
Definition photo : UploadedFile := {| file_name := "/tmp/gradio/dog-1.jpg" |}.
Definition getsize : string -> Z + string := fun _ => inl 1024%Z.
Definition zip_base64 : list UploadedFile -> string + string :=
  fun _ => inl "UEsDBBQAAAAIAA==".

(** HTTP 200 with a listing of three items: an id, an object with an id,
    and an object without one. *)
Definition jobs : Response :=
  {| status_code := 200; ok := true;
     text := Script.json_object
               [("finetunes",
                 "[" +:+ Mock.json_text_of "ft-1" +:+ ", "
                 +:+ Script.json_object [("id", Mock.json_text_of "ft-2")] +:+ ", {}]")];
     json := Decoded (VDict {[ "finetunes" :=
                                 VList [VStr "ft-1"; VDict {[ "id" := VStr "ft-2" ]};
                                        VDict ∅] ]}) |}.

(** A service that answers the listing and loses every other request. *)
Definition listing_only : list event -> Request -> Response + RequestException :=
  fun _ req =>
    if String.eqb (url req) (BASE_URL +:+ "/my_finetunes") then inl jobs
    else inr Script.connection_reset.

End Desk.

(** Answers that say "Ready" with a ['result'] that is not an object. *)
Module Malformed.

(** HTTP 200 with the body [{status: Ready, result: resampled}]: the result
    is a string. *)
Definition ready_with_string : Response :=
  {| status_code := 200; ok := true;
     text := Script.json_object [("status", Mock.json_text_of "Ready");
                                 ("result", Mock.json_text_of "resampled")];
     json := Decoded (VDict {[ "status" := VStr "Ready";
                               "result" := VStr "resampled" ]}) |}.

(** HTTP 200 with the body [{status: Ready, result: null}]. *)
Definition ready_with_null : Response :=
  {| status_code := 200; ok := true;
     text := Script.json_object [("status", Mock.json_text_of "Ready");
                                 ("result", "null")];
     json := Decoded (VDict {[ "status" := VStr "Ready"; "result" := VNone ]}) |}.

End Malformed.

(** ** Facts about the monad and the request layer *)

Section Facts.

Variable transport : list event -> Request -> Response + RequestException.
Variable environ : gmap string string.

Lemma bind_Return {A B : Type} (m : M A) (f : A -> M B) t a t' :
  m t = (Return a, t') -> (m ≫= f) t = f a t'.
Proof. intros H. unfold mbind, M_bind. now rewrite H. Qed.

Lemma bind_Raise {A B : Type} (m : M A) (f : A -> M B) t e t' :
  m t = (Raise e, t') -> (m ≫= f) t = (Raise e, t').
Proof. intros H. unfold mbind, M_bind. now rewrite H. Qed.

(** A request that carries no [json] keyword logs nothing that can raise. *)
Lemma log_request_details_no_json (kwargs : dict) t :
  kwargs !! "json" = None -> log_request_details kwargs t = (Return tt, t).
Proof. intros H. unfold log_request_details. now rewrite H. Qed.

(** A 2xx (more exactly: [ok]) response that decodes is returned as decoded,
    after exactly one request. *)
Lemma make_request_returns self method endpoint kwargs t r v :
  transport t (request_for self method endpoint kwargs) = inl r ->
  (forall t', log_request_details kwargs t' = (Return tt, t')) ->
  parse_response r = Decoded v ->
  ok r = true ->
  _make_request transport self method endpoint kwargs t
  = (Return v, t ++ [Sent (request_for self method endpoint kwargs)]).
Proof.
  intros Ht Hlog Hparse Hok.
  unfold _make_request, requests_request, mbind, M_bind.
  fold (request_for self method endpoint kwargs). rewrite Ht, Hlog, Hparse, Hok.
  reflexivity.
Qed.

(** [_make_request] sends exactly one request, whatever comes back. *)
Lemma make_request_sends_once self method endpoint kwargs t :
  snd (_make_request transport self method endpoint kwargs t)
  = t ++ [Sent (request_for self method endpoint kwargs)].
Proof.
  unfold _make_request, requests_request, mbind, M_bind.
  fold (request_for self method endpoint kwargs).
  destruct (transport t _) as [r | e]; [| reflexivity].
  destruct (log_request_details kwargs _) as [[[] | e | ] t'] eqn:Hlog.
  - assert (t' = t ++ [Sent (request_for self method endpoint kwargs)]) as ->.
    { revert Hlog. unfold log_request_details.
      repeat case_match; unfold mbind, M_bind, py_len, mret, M_ret, raise;
        repeat case_match; congruence. }
    destruct (parse_response r) as [v | msg]; [| reflexivity].
    destruct (negb (ok r)); [| reflexivity].
    unfold py_get, raise, mret, M_ret.
    destruct v; try reflexivity. simpl.
    destruct (default _ _); reflexivity.
  - revert Hlog. unfold log_request_details.
    repeat case_match; unfold mbind, M_bind, py_len, mret, M_ret, raise;
      repeat case_match; simpl; congruence.
  - revert Hlog. unfold log_request_details.
    repeat case_match; unfold mbind, M_bind, py_len, mret, M_ret, raise;
      repeat case_match; simpl; congruence.
Qed.

End Facts.

(** ** Construction of the client *)

Section Construction.

Variable environ : gmap string string.

(** C6. Constructing the client with no credential argument and no
    [BFL_API_KEY] in the environment raises [ValueError] (the configuration
    error) and sends nothing: the trace is untouched. With a non-empty
    credential, passed as argument or, when the argument is missing or empty,
    found in the environment, construction succeeds and the client holds that
    credential; again nothing is sent. *)
Theorem init_requires_credential (arg : option string) (t : list event) :
  (arg = None /\ environ !! "BFL_API_KEY" = None ->
     __init__ environ arg t = (Raise (Builtin (ValueError no_api_key)), t)) /\
  (forall k : string, k <> "" ->
     arg = Some k \/
     ((arg = None \/ arg = Some "") /\ environ !! "BFL_API_KEY" = Some k) ->
     __init__ environ arg t = (Return {| api_key := k |}, t)).
Proof.
  split.
  - intros [-> Henv]. unfold __init__, os_getenv. now rewrite Henv.
  - intros k Hk Hsrc. apply String.eqb_neq in Hk.
    unfold __init__, os_getenv.
    destruct Hsrc as [-> | [[-> | ->] Henv]].
    + rewrite Hk. simpl. now rewrite Hk.
    + now rewrite Henv, Hk.
    + simpl. now rewrite Henv, Hk.
Qed.

(** An empty credential counts as none, from either source. *)
Lemma init_rejects_empty (arg : option string) (t : list event) :
  (arg = None \/ arg = Some "") ->
  (environ !! "BFL_API_KEY" = None \/ environ !! "BFL_API_KEY" = Some "") ->
  __init__ environ arg t = (Raise (Builtin (ValueError no_api_key)), t).
Proof.
  intros [-> | ->] [Henv | Henv]; unfold __init__, os_getenv; simpl;
    now rewrite Henv.
Qed.

End Construction.

Lemma init_requires_credential_witness :
  __init__ ∅ None [] = (Raise (Builtin (ValueError no_api_key)), []) /\
  __init__ ∅ (Some "secret") [] = (Return {| api_key := "secret" |}, []) /\
  __init__ {[ "BFL_API_KEY" := "from-env" ]} None []
  = (Return {| api_key := "from-env" |}, []).
Proof.
  split; [| split].
  - apply (proj1 (init_requires_credential ∅ None [])). split; reflexivity.
  - apply (proj2 (init_requires_credential ∅ (Some "secret") []) "secret").
    + discriminate.
    + left. reflexivity.
  - apply (proj2 (init_requires_credential {[ "BFL_API_KEY" := "from-env" ]} None [])
             "from-env").
    + discriminate.
    + right. split; [left; reflexivity | reflexivity].
Defined.

(** ** The request layer: how failures are normalised *)

Section RequestLayer.

Variable transport : list event -> Request -> Response + RequestException.

(** A transport-level failure becomes a [FluxAPIError] whose message holds the
    failure's text (and the body of the response it carries, if any) and whose
    [response] is the one the failure carries. *)
Lemma make_request_transport_failure self method endpoint kwargs t e :
  transport t (request_for self method endpoint kwargs) = inr e ->
  fst (_make_request transport self method endpoint kwargs t)
  = Raise (FluxAPIError
             ([Lit "Request failed: "; Lit (exc_str e)] ++
              match exc_response e with
              | Some r => [Lit (newline +:+ "Response: "); Lit (text r)]
              | None => []
              end)
             (exc_response e)).
Proof.
  intros Ht. unfold _make_request, requests_request, mbind, M_bind.
  fold (request_for self method endpoint kwargs). now rewrite Ht.
Qed.

(** A body that does not decode becomes a [FluxAPIError] carrying the
    response, whatever the HTTP status. *)
Lemma make_request_invalid_json self method endpoint kwargs t r msg :
  transport t (request_for self method endpoint kwargs) = inl r ->
  (forall t', log_request_details kwargs t' = (Return tt, t')) ->
  parse_response r = JSONDecodeError msg ->
  fst (_make_request transport self method endpoint kwargs t)
  = Raise (FluxAPIError
             [Lit "Invalid JSON response: "; Lit msg;
              Lit (newline +:+ "Response text: "); Lit (text r)]
             (Some r)).
Proof.
  intros Ht Hlog Hparse. unfold _make_request, requests_request, mbind, M_bind.
  fold (request_for self method endpoint kwargs). now rewrite Ht, Hlog, Hparse.
Qed.

(** An error status whose body is an object, with [error] absent or itself an
    object, becomes a [FluxAPIError] carrying the response; the message is
    [error.message] when present and the raw body otherwise. *)
Lemma make_request_http_error self method endpoint kwargs t r body :
  transport t (request_for self method endpoint kwargs) = inl r ->
  (forall t', log_request_details kwargs t' = (Return tt, t')) ->
  parse_response r = Decoded (VDict body) ->
  ok r = false ->
  forall error : dict,
  default (VDict ∅) (body !! "error") = VDict error ->
  fst (_make_request transport self method endpoint kwargs t)
  = Raise (FluxAPIError
             [Lit "API error: "; Str (default (VStr (text r)) (error !! "message"))]
             (Some r)).
Proof.
  intros Ht Hlog Hparse Hok error Herr.
  unfold _make_request, requests_request, mbind, M_bind.
  fold (request_for self method endpoint kwargs).
  rewrite Ht, Hlog, Hparse, Hok. simpl. now rewrite Herr.
Qed.

End RequestLayer.

(** HTTP 500 whose JSON body nests the message under [error.message]: the
    error raised carries the response (status 500) and the message. *)
Example http_500_nested_error_body :
  fst (get_progress (Mock.replies Mock.error_500_nested) Mock.self (VStr "job") [])
  = Raise (FluxAPIError [Lit "API error: "; Str (VStr "boom")]
             (Some Mock.error_500_nested))
  /\ status_code Mock.error_500_nested = 500%Z.
Proof. split; reflexivity. Qed.

(** C8. HTTP 500 with the JSON error body [{error: boom}], where the error is
    a string and not an object: [_make_request] evaluates [.get('message', ...)]
    on that string, and what leaves [get_progress] is the [AttributeError], not
    a [FluxAPIError]; neither the status nor the body travels with it. *)
Theorem http_500_flat_error_body_escapes :
  get_progress (Mock.replies Mock.error_500_flat) Mock.self (VStr "job") []
  = (Raise (Builtin (AttributeError (VStr "boom") "get")),
     [Sent (request_for Mock.self "GET" "get_result"
              {[ "params" := VDict {[ "id" := VStr "job" ]} ]})]).
Proof. reflexivity. Qed.

(** ** [get_finetune_details]: tolerance to the shape of the answer *)

Section Details.

Variable transport : list event -> Request -> Response + RequestException.

Lemma get_finetune_details_decoded self finetune_id t r v :
  transport t (details_request self finetune_id) = inl r ->
  ok r = true ->
  parse_response r = Decoded v ->
  get_finetune_details transport self finetune_id t
  = (match v with
     | VDict _ => Return v
     | VStr _ =>
         Return (VDict {[ "finetune_comment" := VStr "N/A";
                          "status" := (if truthy v then v else VStr "Unknown");
                          "created_at" := VStr "N/A" ]})
     | _ =>
         Return (VDict {[ "finetune_comment" := VStr "Error: Invalid response format";
                          "status" := VStr "Unknown";
                          "created_at" := VStr "N/A" ]})
     end,
     t ++ [Sent (details_request self finetune_id)]).
Proof.
  intros Ht Hok Hparse. unfold get_finetune_details.
  erewrite bind_Return.
  2:{ apply (make_request_returns transport self _ _ _ t r v);
        [exact Ht | | exact Hparse | exact Hok].
      intros t'. now apply log_request_details_no_json. }
  destruct v; reflexivity.
Qed.

(** C7, as the code has it. When the service answers [get_finetune_details]
    with a bare string, no error is raised: the result is an object whose
    status is that string if it is not empty and ["Unknown"] if it is empty,
    and whose comment and creation date are the placeholder ["N/A"]. *)
Theorem details_of_bare_string self finetune_id t r (s : string) :
  transport t (details_request self finetune_id) = inl r ->
  ok r = true ->
  parse_response r = Decoded (VStr s) ->
  get_finetune_details transport self finetune_id t
  = (Return (VDict {[ "finetune_comment" := VStr "N/A";
                      "status" := VStr (if String.eqb s "" then "Unknown" else s);
                      "created_at" := VStr "N/A" ]}),
     t ++ [Sent (details_request self finetune_id)]).
Proof.
  intros Ht Hok Hparse.
  rewrite (get_finetune_details_decoded _ _ _ _ _ Ht Hok Hparse).
  simpl. now destruct (String.eqb s "").
Qed.

(** C10. [get_finetune_details] returns an object for every answer that is
    [ok] and decodes, whatever the decoded value is; when that value is
    neither an object nor a string the object has status ["Unknown"], the
    comment ["Error: Invalid response format"] and the date ["N/A"]. *)
Theorem details_total_on_decoded self finetune_id t r (v : value) :
  transport t (details_request self finetune_id) = inl r ->
  ok r = true ->
  parse_response r = Decoded v ->
  exists d : dict,
    get_finetune_details transport self finetune_id t
    = (Return (VDict d), t ++ [Sent (details_request self finetune_id)]) /\
    ((forall fields, v <> VDict fields) -> (forall s, v <> VStr s) ->
     d = {[ "finetune_comment" := VStr "Error: Invalid response format";
            "status" := VStr "Unknown";
            "created_at" := VStr "N/A" ]}).
Proof.
  intros Ht Hok Hparse.
  rewrite (get_finetune_details_decoded _ _ _ _ _ Ht Hok Hparse).
  destruct v; eexists; (split; [reflexivity |]); intros Hd Hs;
    solve [reflexivity | now destruct (Hd fields) | now destruct (Hs s)].
Qed.

End Details.

(** C7, as stated, fails on the empty string: the service answers with the
    bare string of length zero, and the status of the result is ["Unknown"]. *)
Lemma empty_bare_string_status_not_raw :
  ~ status_is_raw_string (Mock.replies (Mock.bare_string "")) Mock.self "job" [] "".
Proof.
  intros (d & t' & Hrun & Hstatus).
  vm_compute in Hrun. injection Hrun as <- _.
  vm_compute in Hstatus. discriminate.
Qed.

Lemma details_of_bare_string_witness :
  get_finetune_details (Mock.replies (Mock.bare_string "Pending")) Mock.self "job" []
  = (Return (VDict {[ "finetune_comment" := VStr "N/A";
                      "status" := VStr "Pending";
                      "created_at" := VStr "N/A" ]}),
     [Sent (details_request Mock.self "job")]).
Proof.
  apply (details_of_bare_string (Mock.replies (Mock.bare_string "Pending"))
           Mock.self "job" [] (Mock.bare_string "Pending") "Pending");
    reflexivity.
Defined.

Lemma details_total_on_decoded_witness :
  get_finetune_details (Mock.replies Mock.bare_list) Mock.self "job" []
  = (Return (VDict {[ "finetune_comment" := VStr "Error: Invalid response format";
                      "status" := VStr "Unknown";
                      "created_at" := VStr "N/A" ]}),
     [Sent (details_request Mock.self "job")]).
Proof.
  destruct (details_total_on_decoded (Mock.replies Mock.bare_list)
              Mock.self "job" [] Mock.bare_list (VList [VInt 1; VInt 2]))
    as (d & Hrun & Hshape); [reflexivity | reflexivity | reflexivity |].
  rewrite Hrun, Hshape; [reflexivity | discriminate | discriminate].
Defined.

(** ** [request_finetuning] *)

Lemma reraise_as_flux_snd {A : Type} prefix (body : M A) t :
  snd (reraise_as_flux prefix body t) = snd (body t).
Proof.
  unfold reraise_as_flux. destruct (body t) as [[a | [msg r | e] |] t']; reflexivity.
Qed.

Lemma reraise_as_flux_Return {A : Type} prefix (body : M A) t a t' :
  body t = (Return a, t') -> reraise_as_flux prefix body t = (Return a, t').
Proof. intros H. unfold reraise_as_flux. now rewrite H. Qed.

Lemma reraise_as_flux_FluxAPIError {A : Type} prefix (body : M A) t msg r t' :
  body t = (Raise (FluxAPIError msg r), t') ->
  reraise_as_flux prefix body t = (Raise (FluxAPIError msg r), t').
Proof. intros H. unfold reraise_as_flux. now rewrite H. Qed.

(** What follows a bind leaves the trace alone when the continuation does. *)
Lemma bind_snd_pure {A B : Type} (m : M A) (k : A -> M B) t :
  (forall a t', snd (k a t') = t') -> snd ((m ≫= k) t) = snd (m t).
Proof.
  intros Hk. unfold mbind, M_bind.
  destruct (m t) as [[a | e |] t']; simpl; auto.
Qed.

Lemma py_get_dict (fields : dict) key dflt t :
  py_get (VDict fields) key dflt t = (Return (default dflt (fields !! key)), t).
Proof. reflexivity. Qed.

Lemma py_get_snd obj key dflt t : snd (py_get obj key dflt t) = t.
Proof. destruct obj; reflexivity. Qed.

Section Finetuning.

Variable transport : list event -> Request -> Response + RequestException.
Variable self : FluxAPI.
Variables file_data finetune_comment trigger_word mode : string.
Variable iterations : Z.
Variable learning_rate : spec_float.
Variable captioning : bool.
Variables priority finetune_type : string.
Variable lora_rank : Z.

Local Abbreviation payload :=
  (finetune_payload file_data finetune_comment trigger_word mode iterations
     learning_rate captioning priority finetune_type lora_rank).

Local Abbreviation post :=
  (finetune_post self file_data finetune_comment trigger_word mode iterations
     learning_rate captioning priority finetune_type lora_rank).

Local Abbreviation run :=
  (request_finetuning transport self file_data finetune_comment trigger_word mode
     iterations learning_rate captioning priority finetune_type lora_rank).

Lemma finetune_payload_logs t :
  log_request_details {[ "json" := VDict payload ]} t = (Return tt, t).
Proof. reflexivity. Qed.

(** The ten fields of the body, and no other. *)
Lemma finetune_payload_fields :
  payload !! "finetune_comment" = Some (VStr finetune_comment) /\
  payload !! "trigger_word" = Some (VStr trigger_word) /\
  payload !! "file_data" = Some (VStr file_data) /\
  payload !! "iterations" = Some (VInt iterations) /\
  payload !! "mode" = Some (VStr mode) /\
  payload !! "learning_rate" = Some (VFloat learning_rate) /\
  payload !! "captioning" = Some (VBool captioning) /\
  payload !! "priority" = Some (VStr priority) /\
  payload !! "lora_rank" = Some (VInt lora_rank) /\
  payload !! "finetune_type" = Some (VStr finetune_type) /\
  size payload = 10%nat.
Proof. repeat split; reflexivity. Qed.

(** One request is sent, whatever the outcome. *)
Lemma request_finetuning_sends_once t :
  snd (run t) = t ++ [Sent post].
Proof.
  unfold run, request_finetuning. rewrite reraise_as_flux_snd.
  rewrite bind_snd_pure.
  - apply make_request_sends_once.
  - intros v t'. destruct v; try reflexivity.
    unfold mbind, M_bind. simpl.
    destruct (truthy (default VNone (fields !! "id"))); simpl.
    + destruct (negb _); reflexivity.
    + destruct (negb _); reflexivity.
Qed.

(** The result for an [ok] answer that decodes to an object. *)
Lemma request_finetuning_on_object t r (fields : dict) :
  transport t post = inl r ->
  ok r = true ->
  parse_response r = Decoded (VDict fields) ->
  run t =
    (let id := default VNone (fields !! "id") in
     let finetune_id :=
       if truthy id then id else default VNone (fields !! "finetune_id") in
     if truthy finetune_id then Return (VDict (<["id" := finetune_id]> fields))
     else Raise (FluxAPIError
                   [Lit "No finetune ID in response: "; Str (VDict fields)] None),
     t ++ [Sent post]).
Proof.
  intros Ht Hok Hparse. unfold run, request_finetuning.
  assert (_make_request transport self "POST" "finetune" {[ "json" := VDict payload ]} t
          = (Return (VDict fields), t ++ [Sent post])) as Hreq.
  { apply (make_request_returns transport self _ _ _ t r);
      [exact Ht | exact finetune_payload_logs | exact Hparse | exact Hok]. }
  unfold reraise_as_flux.
  erewrite bind_Return by exact Hreq.
  unfold mbind, M_bind. simpl.
  destruct (truthy (default VNone (fields !! "id"))) eqn:Hid; simpl.
  - rewrite Hid. reflexivity.
  - destruct (truthy (default VNone (fields !! "finetune_id"))); reflexivity.
Qed.

(** The result for an [ok] answer that decodes to something else. *)
Lemma request_finetuning_on_non_object t r (v : value) :
  transport t post = inl r ->
  ok r = true ->
  parse_response r = Decoded v ->
  (forall fields, v <> VDict fields) ->
  run t = (Raise (FluxAPIError [Lit "Invalid response type: "; TypeOf v] None),
           t ++ [Sent post]).
Proof.
  intros Ht Hok Hparse Hv. unfold run, request_finetuning.
  assert (_make_request transport self "POST" "finetune" {[ "json" := VDict payload ]} t
          = (Return v, t ++ [Sent post])) as Hreq.
  { apply (make_request_returns transport self _ _ _ t r);
      [exact Ht | exact finetune_payload_logs | exact Hparse | exact Hok]. }
  unfold reraise_as_flux.
  erewrite bind_Return by exact Hreq.
  destruct v; try reflexivity. now destruct (Hv fields).
Qed.

(** C5. For an [ok] answer to the finetuning POST that decodes to an object:
    if a job identifier (a value Python takes as true: a non-empty string, a
    non-zero number) sits under ['id'], or under ['finetune_id'] while ['id']
    holds none, the call returns the object with ['id'] set to that
    identifier and every other field as received; if neither field is
    present the call raises [FluxAPIError] "No finetune ID in response". For
    an answer that decodes to anything but an object it raises [FluxAPIError]
    "Invalid response type". *)
Theorem request_finetuning_normalises_id t r :
  transport t post = inl r ->
  ok r = true ->
  (forall (fields : dict) (v : value),
     parse_response r = Decoded (VDict fields) ->
     truthy v = true ->
     fields !! "id" = Some v \/
     (truthy (default VNone (fields !! "id")) = false /\
      fields !! "finetune_id" = Some v) ->
     exists result : dict,
       run t = (Return (VDict result), t ++ [Sent post]) /\
       result !! "id" = Some v /\
       (forall k, k <> "id" -> result !! k = fields !! k)) /\
  (forall fields : dict,
     parse_response r = Decoded (VDict fields) ->
     fields !! "id" = None ->
     fields !! "finetune_id" = None ->
     run t = (Raise (FluxAPIError
                       [Lit "No finetune ID in response: "; Str (VDict fields)] None),
              t ++ [Sent post])) /\
  (forall v : value,
     parse_response r = Decoded v ->
     (forall fields, v <> VDict fields) ->
     run t = (Raise (FluxAPIError [Lit "Invalid response type: "; TypeOf v] None),
              t ++ [Sent post])).
Proof.
  intros Ht Hok. split; [| split].
  - intros fields v Hparse Hv Hid.
    rewrite (request_finetuning_on_object t r fields Ht Hok Hparse).
    exists (<["id" := v]> fields). cbv zeta.
    destruct Hid as [Hid | [Hnone Hft]].
    + rewrite Hid. simpl. rewrite Hv, Hv.
      split; [reflexivity |]. split; [apply lookup_insert_eq |].
      intros k Hk. now apply lookup_insert_ne.
    + rewrite Hnone, Hft. simpl. rewrite Hv.
      split; [reflexivity |]. split; [apply lookup_insert_eq |].
      intros k Hk. now apply lookup_insert_ne.
  - intros fields Hparse Hid Hft.
    rewrite (request_finetuning_on_object t r fields Ht Hok Hparse).
    now rewrite Hid, Hft.
  - intros v Hparse Hv.
    now apply (request_finetuning_on_non_object t r v).
Qed.

(** C9. For every valid combination of the enumerated parameters, with any
    other arguments, [request_finetuning] sends exactly one request: a POST
    to [finetune] whose JSON body has exactly the ten fields of the call,
    each holding the value supplied. When the answer is [ok] and decodes to
    an object with a job identifier under ['id'] or under ['finetune_id'],
    the call returns an object. *)
Theorem request_finetuning_posts_supplied_values t :
  valid_mode mode ->
  valid_priority priority ->
  valid_finetune_type finetune_type ->
  valid_lora_rank lora_rank ->
  snd (run t) = t ++ [Sent post] /\
  method post = "POST" /\
  url post = BASE_URL +:+ "/finetune" /\
  kwargs post = {[ "json" := VDict payload ]} /\
  (payload !! "finetune_comment" = Some (VStr finetune_comment) /\
   payload !! "trigger_word" = Some (VStr trigger_word) /\
   payload !! "file_data" = Some (VStr file_data) /\
   payload !! "iterations" = Some (VInt iterations) /\
   payload !! "mode" = Some (VStr mode) /\
   payload !! "learning_rate" = Some (VFloat learning_rate) /\
   payload !! "captioning" = Some (VBool captioning) /\
   payload !! "priority" = Some (VStr priority) /\
   payload !! "lora_rank" = Some (VInt lora_rank) /\
   payload !! "finetune_type" = Some (VStr finetune_type) /\
   size payload = 10%nat) /\
  (forall r (fields : dict) (v : value),
     transport t post = inl r ->
     ok r = true ->
     parse_response r = Decoded (VDict fields) ->
     truthy v = true ->
     fields !! "id" = Some v \/ fields !! "finetune_id" = Some v ->
     exists result : dict, fst (run t) = Return (VDict result)).
Proof.
  intros _ _ _ _.
  split; [apply request_finetuning_sends_once |].
  do 3 (split; [reflexivity |]).
  split; [apply finetune_payload_fields |].
  intros r fields v Ht Hok Hparse Hv Hid.
  rewrite (request_finetuning_on_object t r fields Ht Hok Hparse). cbv zeta.
  destruct (truthy (default VNone (fields !! "id"))) eqn:Hfirst.
  - rewrite Hfirst. eexists. reflexivity.
  - destruct Hid as [Hid | Hft].
    + rewrite Hid in Hfirst. simpl in Hfirst. congruence.
    + rewrite Hft. simpl. rewrite Hv. eexists. reflexivity.
Qed.

End Finetuning.

(** ** [generate_image]: submission, then the bounded polling loop *)

Section Polling.

Variable transport : list event -> Request -> Response + RequestException.
Variable self : FluxAPI.
Variable inference_id : value.

Local Abbreviation poll := (poll_request self inference_id).
Local Abbreviation loop := (poll_for_results transport).

Lemma get_progress_answers h d :
  poll_answers transport self inference_id h d ->
  get_progress transport self inference_id h = (Return (VDict d), h ++ [Sent poll]).
Proof.
  intros (r & Ht & Hok & Hparse). unfold get_progress.
  apply (make_request_returns transport self _ _ _ h r); try assumption.
  intros t'. now apply log_request_details_no_json.
Qed.

(** One turn of the loop on a status that does not end it: sleep, count,
    and go round again. *)
Lemma poll_step_continue fuel attempt h d :
  (attempt < max_attempts)%Z ->
  poll_answers transport self inference_id h d ->
  terminal (status_of d) = false ->
  loop (S fuel) self inference_id attempt h
  = loop fuel self inference_id (attempt + 1)%Z (h ++ [Sent poll; Slept 2]).
Proof.
  intros Hlt Hans Hterm. apply orb_false_elim in Hterm as [Hready Hfailed].
  cbn [poll_for_results]. rewrite (proj2 (Z.ltb_lt _ _) Hlt).
  erewrite bind_Return by (apply get_progress_answers; exact Hans).
  erewrite bind_Return by apply py_get_dict.
  fold (status_of d). rewrite Hready.
  erewrite bind_Return by apply py_get_dict.
  fold (status_of d). rewrite Hfailed.
  unfold mbind, M_bind, time_sleep. now rewrite <- app_assoc.
Qed.

(** One turn on [Ready] with the image reference in place. *)
Lemma poll_step_ready fuel attempt h d (nested : dict) :
  (attempt < max_attempts)%Z ->
  poll_answers transport self inference_id h d ->
  eq_str (status_of d) "Ready" = true ->
  d !! "result" = Some (VDict nested) ->
  is_Some (nested !! "sample") ->
  loop (S fuel) self inference_id attempt h = (Return (VDict nested), h ++ [Sent poll]).
Proof.
  intros Hlt Hans Hready Hres Hsample.
  cbn [poll_for_results]. rewrite (proj2 (Z.ltb_lt _ _) Hlt).
  erewrite bind_Return by (apply get_progress_answers; exact Hans).
  erewrite bind_Return by apply py_get_dict.
  fold (status_of d). rewrite Hready.
  unfold mbind, M_bind, py_in, py_getitem, mret, M_ret.
  rewrite Hres. simpl.
  rewrite (bool_decide_eq_true_2 _ Hsample). reflexivity.
Qed.

(** One turn on [Ready], whatever ['result'] is. *)
Lemma poll_step_on_ready fuel attempt h d :
  (attempt < max_attempts)%Z ->
  poll_answers transport self inference_id h d ->
  eq_str (status_of d) "Ready" = true ->
  loop (S fuel) self inference_id attempt h
  = (match d !! "result" with
     | Some v =>
         if is_container v then
           if has_sample v then Return v
           else Raise (FluxAPIError [Lit "Invalid result format: "; Str (VDict d)] None)
         else Raise (Builtin (TypeError not_iterable v))
     | None => Raise (FluxAPIError [Lit "Invalid result format: "; Str (VDict d)] None)
     end,
     h ++ [Sent poll]).
Proof.
  intros Hlt Hans Hready.
  cbn [poll_for_results]. rewrite (proj2 (Z.ltb_lt _ _) Hlt).
  erewrite bind_Return by (apply get_progress_answers; exact Hans).
  erewrite bind_Return by apply py_get_dict.
  fold (status_of d). rewrite Hready.
  unfold mbind, M_bind, py_in, py_getitem, mret, M_ret, raise.
  destruct (d !! "result") as [v |]; simpl; [| reflexivity].
  destruct v as [| b | n | x | s | items | nested]; simpl; try reflexivity.
  - now destruct (is_substring "sample" s).
  - now destruct (existsb _ items).
  - now destruct (bool_decide (is_Some (nested !! "sample"))).
Qed.

(** One turn on [Failed] or [Error]. *)
Lemma poll_step_failed fuel attempt h d :
  (attempt < max_attempts)%Z ->
  poll_answers transport self inference_id h d ->
  in_strs (status_of d) ["Failed"; "Error"] = true ->
  loop (S fuel) self inference_id attempt h
  = (Raise (FluxAPIError
              [Lit "Image generation failed: ";
               Str (default (VStr "Unknown error") (d !! "error"))] None),
     h ++ [Sent poll]).
Proof.
  intros Hlt Hans Hfailed.
  assert (eq_str (status_of d) "Ready" = false) as Hready.
  { destruct (status_of d) as [| | | | s | |]; try reflexivity.
    simpl in *. destruct (String.eqb_spec s "Ready") as [-> |]; [discriminate | reflexivity]. }
  cbn [poll_for_results]. rewrite (proj2 (Z.ltb_lt _ _) Hlt).
  erewrite bind_Return by (apply get_progress_answers; exact Hans).
  erewrite bind_Return by apply py_get_dict.
  fold (status_of d). rewrite Hready.
  erewrite bind_Return by apply py_get_dict.
  fold (status_of d). rewrite Hfailed.
  reflexivity.
Qed.

(** The attempt budget is spent: the loop test fails and the call times out
    without another poll. *)
Lemma poll_budget_spent fuel attempt h :
  (max_attempts <= attempt)%Z ->
  loop (S fuel) self inference_id attempt h
  = (Raise (FluxAPIError [Lit "Image generation timed out"] None), h).
Proof.
  intros Hge. cbn [poll_for_results].
  now rewrite (proj2 (Z.ltb_ge _ _) Hge).
Qed.

End Polling.

(** ** Two properties of client code, proved operation by operation *)

Create HintDb client discriminated.

Lemma terminates_ret {A : Type} (a : A) : terminates (mret a).
Proof. intros t. discriminate. Qed.

Lemma terminates_raise {A : Type} e : terminates (@raise A e).
Proof. intros t. discriminate. Qed.

Lemma terminates_bind {A B : Type} (m : M A) (k : A -> M B) :
  terminates m -> (forall a, terminates (k a)) -> terminates (m ≫= k).
Proof.
  intros Hm Hk t. unfold mbind, M_bind. specialize (Hm t).
  destruct (m t) as [[a | e |] t']; simpl in *; [apply Hk | discriminate | congruence].
Qed.

Lemma terminates_reraise {A : Type} prefix (m : M A) :
  terminates m -> terminates (reraise_as_flux prefix m).
Proof.
  intros Hm t. unfold reraise_as_flux. specialize (Hm t).
  destruct (m t) as [[a | [msg r | e] |] t']; simpl in *; congruence.
Qed.

Lemma terminates_py_get obj key dflt : terminates (py_get obj key dflt).
Proof. intros t. destruct obj; discriminate. Qed.

Lemma terminates_py_in key container : terminates (py_in key container).
Proof. intros t. destruct container; discriminate. Qed.

Lemma terminates_py_getitem obj key : terminates (py_getitem obj key).
Proof. intros t. destruct obj; try discriminate. simpl. destruct (fields !! key); discriminate. Qed.

Lemma terminates_py_len v : terminates (py_len v).
Proof. intros t. destruct v; discriminate. Qed.

Lemma terminates_time_sleep s : terminates (time_sleep s).
Proof. intros t. discriminate. Qed.

Lemma terminates_if {A : Type} (b : bool) (m1 m2 : M A) :
  terminates m1 -> terminates m2 -> terminates (if b then m1 else m2).
Proof. now destruct b. Qed.

#[local] Hint Resolve terminates_ret terminates_raise terminates_bind
  terminates_reraise terminates_py_get terminates_py_in terminates_py_getitem
  terminates_py_len terminates_time_sleep terminates_if : client.

Lemma extends_ret {A : Type} (a : A) : extends (mret a).
Proof. intros t. exists []. simpl. now rewrite app_nil_r. Qed.

Lemma extends_raise {A : Type} e : extends (@raise A e).
Proof. intros t. exists []. simpl. now rewrite app_nil_r. Qed.

Lemma extends_bind {A B : Type} (m : M A) (k : A -> M B) :
  extends m -> (forall a, extends (k a)) -> extends (m ≫= k).
Proof.
  intros Hm Hk t. unfold mbind, M_bind. destruct (Hm t) as [rest Hrest].
  destruct (m t) as [[a | e |] t']; simpl in *; subst t'; try (now exists rest).
  destruct (Hk a (t ++ rest)) as [rest' Hrest']. exists (rest ++ rest').
  now rewrite Hrest', app_assoc.
Qed.

Lemma extends_py_get obj key dflt : extends (py_get obj key dflt).
Proof. destruct obj; solve [apply extends_ret | apply extends_raise]. Qed.

Lemma extends_py_in key container : extends (py_in key container).
Proof. destruct container; solve [apply extends_ret | apply extends_raise]. Qed.

Lemma extends_py_getitem obj key : extends (py_getitem obj key).
Proof.
  destruct obj; try apply extends_raise. simpl.
  destruct (fields !! key); [apply extends_ret | apply extends_raise].
Qed.

Lemma extends_time_sleep s : extends (time_sleep s).
Proof. intros t. now exists [Slept s]. Qed.

Lemma extends_if {A : Type} (b : bool) (m1 m2 : M A) :
  extends m1 -> extends m2 -> extends (if b then m1 else m2).
Proof. now destruct b. Qed.

#[local] Hint Resolve extends_ret extends_raise extends_bind extends_py_get
  extends_py_in extends_py_getitem extends_time_sleep extends_if : client.

Section Termination.

Variable transport : list event -> Request -> Response + RequestException.

Lemma terminates_log_request_details kwargs : terminates (log_request_details kwargs).
Proof.
  unfold log_request_details. repeat case_match; auto 6 with client.
Qed.

Lemma terminates_make_request self method endpoint kwargs :
  terminates (_make_request transport self method endpoint kwargs).
Proof.
  unfold _make_request. apply terminates_bind.
  - intros t. discriminate.
  - intros [r | e]; [| apply terminates_raise].
    apply terminates_bind; [apply terminates_log_request_details |].
    intros _. destruct (parse_response r); auto 8 with client.
Qed.

Lemma extends_make_request self method endpoint kwargs :
  extends (_make_request transport self method endpoint kwargs).
Proof.
  intros t. eexists. apply make_request_sends_once.
Qed.

(** The loop ends whenever the fuel exceeds the attempts that are left. *)
Lemma terminates_poll_for_results self inference_id fuel :
  forall attempt : Z,
    (max_attempts - attempt <= Z.of_nat fuel)%Z ->
    terminates (poll_for_results transport (S fuel) self inference_id attempt).
Proof.
  induction fuel as [| fuel IH]; intros attempt Hfuel; cbn [poll_for_results];
    (destruct (attempt <? max_attempts)%Z eqn:Hlt; [| apply terminates_raise]).
  - apply Z.ltb_lt in Hlt. simpl in Hfuel. lia.
  - apply Z.ltb_lt in Hlt.
    apply terminates_bind; [apply terminates_make_request |]. intros result.
    apply terminates_bind; [apply terminates_py_get |]. intros status.
    apply terminates_if.
    + auto 10 with client.
    + apply terminates_bind; [apply terminates_py_get |]. intros status'.
      apply terminates_if; [auto 6 with client |].
      apply terminates_bind; [apply terminates_time_sleep |]. intros _.
      apply IH. lia.
Qed.

Lemma extends_poll_for_results self inference_id fuel :
  forall attempt : Z, extends (poll_for_results transport fuel self inference_id attempt).
Proof.
  induction fuel as [| fuel IH]; intros attempt.
  - intros t. exists []. simpl. now rewrite app_nil_r.
  - cbn [poll_for_results].
    destruct (attempt <? max_attempts)%Z; [| apply extends_raise].
    apply extends_bind; [apply extends_make_request |]. intros result.
    apply extends_bind; [apply extends_py_get |]. intros status.
    apply extends_if.
    + auto 10 with client.
    + apply extends_bind; [apply extends_py_get |]. intros status'.
      apply extends_if; [auto 6 with client |].
      apply extends_bind; [apply extends_time_sleep |]. intros _. apply IH.
Qed.

(** While attempts are left, a turn of the loop starts with a poll. *)
Lemma poll_for_results_polls_first self inference_id fuel attempt h :
  (attempt < max_attempts)%Z ->
  exists rest,
    snd (poll_for_results transport (S fuel) self inference_id attempt h)
    = h ++ Sent (poll_request self inference_id) :: rest.
Proof.
  intros Hlt. cbn [poll_for_results]. rewrite (proj2 (Z.ltb_lt _ _) Hlt).
  unfold mbind at 1. unfold M_bind at 1.
  pose proof (make_request_sends_once transport self "GET" "get_result"
                {[ "params" := VDict {[ "id" := inference_id ]} ]} h) as Hsent.
  unfold get_progress.
  destruct (_make_request transport self "GET" "get_result" _ h) as [[result | e |] t'];
    simpl in Hsent; subst t'; try (now exists []).
  match goal with |- context [snd (?k (h ++ ?sent))] =>
    assert (extends k) as Hk end.
  { apply extends_bind; [apply extends_py_get |]. intros status.
    apply extends_if.
    - auto 10 with client.
    - apply extends_bind; [apply extends_py_get |]. intros status'.
      apply extends_if; [auto 6 with client |].
      apply extends_bind; [apply extends_time_sleep |]. intros _.
      apply extends_poll_for_results. }
  destruct (Hk (h ++ [Sent (poll_request self inference_id)])) as [rest Hrest].
  exists rest. unfold poll_request in *. rewrite Hrest. now rewrite <- app_assoc.
Qed.

(** The loop of [generate_image] is bounded. The embedding gives the loop
    fuel for [max_attempts + 1] evaluations of its test, and that fuel is
    never used up, whatever the service answers. So in every run in which
    each request comes back, with a response or with an exception,
    [generate_image] returns or raises. (A request that never comes back
    blocks the client, which passes no timeout; the statement says nothing
    of such a run.) *)
Lemma generate_image_terminates self finetune_id prompt finetune_strength endpoint kwargs :
  terminates (generate_image transport self finetune_id prompt finetune_strength
                endpoint kwargs).
Proof.
  unfold generate_image. apply terminates_reraise.
  apply terminates_bind; [apply terminates_make_request |]. intros response.
  apply terminates_bind; [apply terminates_py_get |]. intros inference_id.
  apply terminates_if; [apply terminates_raise |].
  apply terminates_poll_for_results.
  change (Z.of_nat (Z.to_nat max_attempts)) with max_attempts. lia.
Qed.

End Termination.

(** ** Counting polls and sleeps *)

Lemma polls_app tr1 tr2 : polls (tr1 ++ tr2) = (polls tr1 + polls tr2)%nat.
Proof. unfold polls. now rewrite List.filter_app, length_app. Qed.

Lemma polls_waiting_rounds self inference_id k :
  polls (waiting_rounds (poll_request self inference_id) k) = k.
Proof.
  induction k as [| k IH]; [reflexivity |].
  change (waiting_rounds (poll_request self inference_id) (S k))
    with ([Sent (poll_request self inference_id); Slept 2]
          ++ waiting_rounds (poll_request self inference_id) k).
  rewrite polls_app, IH. reflexivity.
Qed.

Lemma sleeps_waiting_rounds poll k :
  sleeps (waiting_rounds poll k) = replicate k 2%Z.
Proof.
  induction k as [| k IH]; [reflexivity |].
  change (sleeps (waiting_rounds poll (S k)))
    with (2%Z :: sleeps (waiting_rounds poll k)).
  now rewrite IH.
Qed.

Lemma waiting_rounds_S poll k :
  waiting_rounds poll (S k) = [Sent poll; Slept 2] ++ waiting_rounds poll k.
Proof. reflexivity. Qed.

Lemma waiting_rounds_snoc poll k :
  waiting_rounds poll (S k) = waiting_rounds poll k ++ [Sent poll; Slept 2].
Proof.
  induction k as [| k IH]; [reflexivity |].
  rewrite (waiting_rounds_S poll (S k)). rewrite IH at 1.
  rewrite (waiting_rounds_S poll k). now rewrite <- !app_assoc.
Qed.

(** ** [generate_image] against a service *)

Section Generation.

Variable transport : list event -> Request -> Response + RequestException.
Variable self : FluxAPI.
Variables finetune_id prompt : string.
Variable finetune_strength : spec_float.
Variable endpoint : string.
Variable kwargs : dict.
Variable t : list event.
Variable inference_id : value.

Local Abbreviation submit :=
  (submit_request self finetune_id prompt finetune_strength endpoint kwargs).
Local Abbreviation poll := (poll_request self inference_id).
Local Abbreviation run :=
  (generate_image transport self finetune_id prompt finetune_strength endpoint kwargs).
Local Abbreviation waiting :=
  (still_waiting transport self finetune_id prompt finetune_strength endpoint kwargs t
     inference_id).

(** [k] turns of the loop on statuses that do not end it. *)
Lemma loop_skips_waiting (k : nat) :
  forall (fuel : nat) (attempt : Z) (h : list event),
    (attempt + Z.of_nat k <= max_attempts)%Z ->
    (forall j : nat, (j < k)%nat ->
       exists d : dict,
         poll_answers transport self inference_id (h ++ waiting_rounds poll j) d /\
         terminal (status_of d) = false) ->
    poll_for_results transport (k + fuel) self inference_id attempt h
    = poll_for_results transport fuel self inference_id (attempt + Z.of_nat k)%Z
        (h ++ waiting_rounds poll k).
Proof.
  induction k as [| k IH]; intros fuel attempt h Hle Hwait.
  - simpl. now rewrite Z.add_0_r, app_nil_r.
  - destruct (Hwait 0%nat) as (d & Hans & Hterm); [lia |].
    simpl in Hans. rewrite app_nil_r in Hans.
    change (S k + fuel)%nat with (S (k + fuel)).
    rewrite (poll_step_continue transport self inference_id _ attempt h d);
      [| lia | exact Hans | exact Hterm].
    rewrite IH.
    + rewrite waiting_rounds_S, <- app_assoc. f_equal. lia.
    + lia.
    + intros j Hj. destruct (Hwait (S j)) as (d' & Hans' & Hterm'); [lia |].
      exists d'. split; [| exact Hterm'].
      now rewrite waiting_rounds_S, app_assoc in Hans'.
Qed.

(** Once step 1 has returned the job id, [generate_image] is the loop,
    started at attempt 0 after the submission, under the [try]. *)
Lemma generate_image_enters_loop :
  submission_returns transport self finetune_id prompt finetune_strength endpoint
    kwargs t inference_id ->
  run t
  = reraise_as_flux "Failed to generate image: "
      (fun _ => poll_for_results transport (S (Z.to_nat max_attempts)) self
                  inference_id 0 (t ++ [Sent submit]))
      t.
Proof.
  intros (fields & Hreq & Hid & Htruthy).
  unfold generate_image, reraise_as_flux.
  erewrite bind_Return by exact Hreq.
  erewrite bind_Return by apply py_get_dict.
  rewrite Hid. change (default VNone (Some inference_id)) with inference_id.
  rewrite Htruthy. reflexivity.
Qed.

(** After [k] polls that do not end it, [generate_image] is the loop at
    attempt [k]. *)
Lemma generate_image_after_waiting (k : nat) :
  (k <= 30)%nat ->
  submission_returns transport self finetune_id prompt finetune_strength endpoint
    kwargs t inference_id ->
  waiting k ->
  run t
  = reraise_as_flux "Failed to generate image: "
      (fun _ => poll_for_results transport (S (30 - k)) self inference_id
                  (Z.of_nat k) (t ++ Sent submit :: waiting_rounds poll k))
      t.
Proof.
  intros Hk Hsub Hwait. rewrite (generate_image_enters_loop Hsub).
  unfold reraise_as_flux.
  replace (S (Z.to_nat max_attempts)) with (k + S (30 - k))%nat
    by (change (Z.to_nat max_attempts) with 30%nat; lia).
  rewrite loop_skips_waiting.
  - rewrite <- app_assoc. reflexivity.
  - unfold max_attempts. lia.
  - intros j Hj. destruct (Hwait j Hj) as (d & Hans & Hterm).
    exists d. split; [| exact Hterm]. now rewrite <- app_assoc.
Qed.

Lemma pending_is_not_terminal (d : dict) :
  d !! "status" = Some (VStr "Pending") -> terminal (status_of d) = false.
Proof. intros H. unfold status_of. now rewrite H. Qed.

Lemma ready_status (d : dict) :
  d !! "status" = Some (VStr "Ready") -> eq_str (status_of d) "Ready" = true.
Proof. intros H. unfold status_of. now rewrite H. Qed.

Lemma polls_after_submit tr : polls (Sent submit :: tr) = polls tr.
Proof. reflexivity. Qed.

Lemma polls_rounds_then_poll k :
  polls (Sent submit :: waiting_rounds poll k ++ [Sent poll]) = S k.
Proof.
  rewrite polls_after_submit, polls_app, polls_waiting_rounds.
  change (polls [Sent poll]) with 1%nat. lia.
Qed.

(** C1. Step 1 has returned a job id, and no poll ever finds a status that
    ends the loop: whenever the client polls, the service answers with an
    object whose status is none of ['Ready'], ['Failed'], ['Error']. Then
    [generate_image] raises [FluxAPIError] "Image generation timed out"; what
    it did after the submission is exactly thirty times "poll, then sleep 2":
    thirty polls, no thirty-first, each followed by a sleep of 2. The call
    returns (it does not run out of fuel), so the loop ends. *)
Theorem generate_image_times_out_after_30_polls :
  submission_returns transport self finetune_id prompt finetune_strength endpoint
    kwargs t inference_id ->
  (forall j : nat,
     exists d : dict,
       poll_answers transport self inference_id
         (t ++ Sent submit :: waiting_rounds poll j) d /\
       terminal (status_of d) = false) ->
  run t = (Raise (FluxAPIError [Lit "Image generation timed out"] None),
           t ++ Sent submit :: waiting_rounds poll 30) /\
  polls (Sent submit :: waiting_rounds poll 30) = 30%nat /\
  sleeps (Sent submit :: waiting_rounds poll 30) = replicate 30 2%Z.
Proof.
  intros Hsub Hnever. split; [| split].
  - rewrite (generate_image_after_waiting (30)); [| lia | exact Hsub |].
    + unfold reraise_as_flux.
      change (S (30 - 30)) with 1%nat.
      rewrite poll_budget_spent; [reflexivity | unfold max_attempts; lia].
    + intros j _. apply Hnever.
  - rewrite polls_after_submit. apply polls_waiting_rounds.
  - change (sleeps (Sent submit :: waiting_rounds poll 30))
      with (sleeps (waiting_rounds poll 30)).
    apply sleeps_waiting_rounds.
Qed.

(** C2. Step 1 has returned a job id; the first two polls answer ['Pending'],
    the third answers ['Ready'] with a ['result'] object that has a ['sample']
    field. Then [generate_image] returns that ['result'] object, after exactly
    three polls (and two sleeps of 2 between them). *)
Theorem generate_image_ready_on_third_poll (d1 d2 d3 nested : dict) :
  submission_returns transport self finetune_id prompt finetune_strength endpoint
    kwargs t inference_id ->
  poll_answers transport self inference_id
    (t ++ Sent submit :: waiting_rounds poll 0) d1 ->
  d1 !! "status" = Some (VStr "Pending") ->
  poll_answers transport self inference_id
    (t ++ Sent submit :: waiting_rounds poll 1) d2 ->
  d2 !! "status" = Some (VStr "Pending") ->
  poll_answers transport self inference_id
    (t ++ Sent submit :: waiting_rounds poll 2) d3 ->
  d3 !! "status" = Some (VStr "Ready") ->
  d3 !! "result" = Some (VDict nested) ->
  is_Some (nested !! "sample") ->
  run t = (Return (VDict nested),
           t ++ Sent submit :: waiting_rounds poll 2 ++ [Sent poll]) /\
  polls (Sent submit :: waiting_rounds poll 2 ++ [Sent poll]) = 3%nat.
Proof.
  intros Hsub H1 Hs1 H2 Hs2 H3 Hs3 Hres Hsample.
  split; [| apply polls_rounds_then_poll].
  rewrite (generate_image_after_waiting (2)); [| lia | exact Hsub |].
  - unfold reraise_as_flux.
    rewrite (poll_step_ready transport self inference_id _ _ _ d3 nested);
      [| unfold max_attempts; lia | exact H3 | now apply ready_status
       | exact Hres | exact Hsample].
    now rewrite (app_comm_cons _ _ (Sent submit)), app_assoc.
  - intros j Hj.
    destruct j as [| [| j]]; [exists d1 | exists d2 | lia];
      (split; [assumption | now apply pending_is_not_terminal]).
Qed.


(** C4. Step 1 has returned a job id and the first [k] polls, [k < 30], did
    not end the loop. If the next poll answers ['Failed'] or ['Error'],
    [generate_image] raises [FluxAPIError] "Image generation failed: " followed
    by the ['error'] field of the answer when it has one and by "Unknown
    error" otherwise; that poll is the last event of the call, so [k + 1]
    polls were issued in all. *)
Theorem failed_status_fails_immediately (k : nat) (d : dict) :
  (k < 30)%nat ->
  submission_returns transport self finetune_id prompt finetune_strength endpoint
    kwargs t inference_id ->
  waiting k ->
  poll_answers transport self inference_id
    (t ++ Sent submit :: waiting_rounds poll k) d ->
  d !! "status" = Some (VStr "Failed") \/ d !! "status" = Some (VStr "Error") ->
  run t = (Raise (FluxAPIError
                    [Lit "Image generation failed: ";
                     Str (default (VStr "Unknown error") (d !! "error"))] None),
           t ++ Sent submit :: waiting_rounds poll k ++ [Sent poll]) /\
  polls (Sent submit :: waiting_rounds poll k ++ [Sent poll]) = S k.
Proof.
  intros Hk Hsub Hwait Hans Hstatus.
  split; [| apply polls_rounds_then_poll].
  rewrite (generate_image_after_waiting (k)); [| lia | exact Hsub | exact Hwait].
  unfold reraise_as_flux.
  rewrite (poll_step_failed transport self inference_id _ _ _ d);
    [| unfold max_attempts; lia | exact Hans
     | unfold status_of; destruct Hstatus as [-> | ->]; reflexivity].
  now rewrite (app_comm_cons _ _ (Sent submit)), app_assoc.
Qed.

End Generation.

(** ** Scripted services and runs of [generate_image] and [request_finetuning] *)

Lemma scripted_submission_returns poll_replies otherwise :
  submission_returns
    (Script.scripted (Script.created "id" "inf-1") poll_replies otherwise)
    Mock.self "ft-1" "a photo of TOK" Script.strength_1_2 Script.endpoint ∅ []
    (VStr "inf-1").
Proof.
  exists {[ "id" := VStr "inf-1" ]}. split; [reflexivity | split; reflexivity].
Defined.

Lemma generate_image_times_out_after_30_polls_witness :
  generate_image
    (Script.scripted (Script.created "id" "inf-1") [] (Script.status_reply "Pending"))
    Mock.self "ft-1" "a photo of TOK" Script.strength_1_2 Script.endpoint ∅ []
  = (Raise (FluxAPIError [Lit "Image generation timed out"] None),
     [] ++ Sent (submit_request Mock.self "ft-1" "a photo of TOK" Script.strength_1_2
                   Script.endpoint ∅)
        :: waiting_rounds (poll_request Mock.self (VStr "inf-1")) 30) /\
  polls (Sent (submit_request Mock.self "ft-1" "a photo of TOK" Script.strength_1_2
                 Script.endpoint ∅)
         :: waiting_rounds (poll_request Mock.self (VStr "inf-1")) 30) = 30%nat /\
  sleeps (Sent (submit_request Mock.self "ft-1" "a photo of TOK" Script.strength_1_2
                  Script.endpoint ∅)
          :: waiting_rounds (poll_request Mock.self (VStr "inf-1")) 30)
  = replicate 30 2%Z.
Proof.
  apply (generate_image_times_out_after_30_polls
           (Script.scripted (Script.created "id" "inf-1") [] (Script.status_reply "Pending"))
           Mock.self "ft-1" "a photo of TOK" Script.strength_1_2 Script.endpoint ∅ []
           (VStr "inf-1")).
  - apply scripted_submission_returns.
  - intros j. exists {[ "status" := VStr "Pending" ]}. split; [| reflexivity].
    exists (Script.status_reply "Pending"). split; [| split; reflexivity].
    unfold Script.scripted. simpl. now destruct (polls _).
Defined.

Lemma generate_image_ready_on_third_poll_witness :
  generate_image
    (Script.scripted (Script.created "id" "inf-1")
       [Script.status_reply "Pending"; Script.status_reply "Pending";
        Script.ready_reply "https://example.org/sample.jpg"]
       (Script.status_reply "Pending"))
    Mock.self "ft-1" "a photo of TOK" Script.strength_1_2 Script.endpoint ∅ []
  = (Return (VDict {[ "sample" := VStr "https://example.org/sample.jpg" ]}),
     [] ++ Sent (submit_request Mock.self "ft-1" "a photo of TOK" Script.strength_1_2
                   Script.endpoint ∅)
        :: waiting_rounds (poll_request Mock.self (VStr "inf-1")) 2
           ++ [Sent (poll_request Mock.self (VStr "inf-1"))]) /\
  polls (Sent (submit_request Mock.self "ft-1" "a photo of TOK" Script.strength_1_2
                 Script.endpoint ∅)
         :: waiting_rounds (poll_request Mock.self (VStr "inf-1")) 2
            ++ [Sent (poll_request Mock.self (VStr "inf-1"))]) = 3%nat.
Proof.
  apply (generate_image_ready_on_third_poll
           (Script.scripted (Script.created "id" "inf-1")
              [Script.status_reply "Pending"; Script.status_reply "Pending";
               Script.ready_reply "https://example.org/sample.jpg"]
              (Script.status_reply "Pending"))
           Mock.self "ft-1" "a photo of TOK" Script.strength_1_2 Script.endpoint ∅ []
           (VStr "inf-1")
           {[ "status" := VStr "Pending" ]} {[ "status" := VStr "Pending" ]}
           {[ "status" := VStr "Ready";
              "result" := VDict {[ "sample" := VStr "https://example.org/sample.jpg" ]} ]}).
  - apply scripted_submission_returns.
  - exists (Script.status_reply "Pending"). split; [reflexivity | split; reflexivity].
  - reflexivity.
  - exists (Script.status_reply "Pending"). split; [reflexivity | split; reflexivity].
  - reflexivity.
  - exists (Script.ready_reply "https://example.org/sample.jpg").
    split; [reflexivity | split; reflexivity].
  - reflexivity.
  - reflexivity.
  - eexists. reflexivity.
Defined.



Lemma failed_status_fails_immediately_witness :
  generate_image
    (Script.scripted (Script.created "id" "inf-1")
       [Script.failed_reply "out of memory"] (Script.status_reply "Pending"))
    Mock.self "ft-1" "a photo of TOK" Script.strength_1_2 Script.endpoint ∅ []
  = (Raise (FluxAPIError
              [Lit "Image generation failed: ";
               Str (default (VStr "Unknown error")
                      (({[ "status" := VStr "Failed"; "error" := VStr "out of memory" ]}
                        : dict) !! "error"))]
              None),
     [] ++ Sent (submit_request Mock.self "ft-1" "a photo of TOK" Script.strength_1_2
                   Script.endpoint ∅)
        :: waiting_rounds (poll_request Mock.self (VStr "inf-1")) 0
           ++ [Sent (poll_request Mock.self (VStr "inf-1"))]) /\
  polls (Sent (submit_request Mock.self "ft-1" "a photo of TOK" Script.strength_1_2
                 Script.endpoint ∅)
         :: waiting_rounds (poll_request Mock.self (VStr "inf-1")) 0
            ++ [Sent (poll_request Mock.self (VStr "inf-1"))]) = 1%nat.
Proof.
  apply (failed_status_fails_immediately
           (Script.scripted (Script.created "id" "inf-1")
              [Script.failed_reply "out of memory"] (Script.status_reply "Pending"))
           Mock.self "ft-1" "a photo of TOK" Script.strength_1_2 Script.endpoint ∅ []
           (VStr "inf-1") 0
           {[ "status" := VStr "Failed"; "error" := VStr "out of memory" ]}).
  - lia.
  - apply scripted_submission_returns.
  - intros j Hj. lia.
  - exists (Script.failed_reply "out of memory").
    split; [reflexivity | split; reflexivity].
  - left. reflexivity.
Defined.

Lemma request_finetuning_normalises_id_witness :
  exists result : dict,
    request_finetuning (Mock.replies (Script.created "finetune_id" "ft-2")) Mock.self
      "UEsDBBQAAAAIAA==" "my dog" "TOK" "character" 300 Script.learning_rate_1e_5 true
      "quality" "lora" 16 []
    = (Return (VDict result),
       [] ++ [Sent (finetune_post Mock.self "UEsDBBQAAAAIAA==" "my dog" "TOK" "character"
                      300 Script.learning_rate_1e_5 true "quality" "lora" 16)]) /\
    result !! "id" = Some (VStr "ft-2") /\
    (forall k, k <> "id" ->
       result !! k = ({[ "finetune_id" := VStr "ft-2" ]} : dict) !! k).
Proof.
  apply (proj1 (request_finetuning_normalises_id
                  (Mock.replies (Script.created "finetune_id" "ft-2")) Mock.self
                  "UEsDBBQAAAAIAA==" "my dog" "TOK" "character" 300
                  Script.learning_rate_1e_5 true "quality" "lora" 16 []
                  (Script.created "finetune_id" "ft-2") eq_refl eq_refl)
           {[ "finetune_id" := VStr "ft-2" ]} (VStr "ft-2")).
  - reflexivity.
  - reflexivity.
  - right. split; reflexivity.
Defined.

Lemma request_finetuning_posts_supplied_values_witness :
  snd (request_finetuning (Mock.replies (Script.created "id" "ft-1")) Mock.self
         "UEsDBBQAAAAIAA==" "my dog" "TOK" "character" 300 Script.learning_rate_1e_5
         true "speed" "lora" 16 [])
  = [] ++ [Sent (finetune_post Mock.self "UEsDBBQAAAAIAA==" "my dog" "TOK" "character"
                   300 Script.learning_rate_1e_5 true "speed" "lora" 16)] /\
  exists result : dict,
    fst (request_finetuning (Mock.replies (Script.created "id" "ft-1")) Mock.self
           "UEsDBBQAAAAIAA==" "my dog" "TOK" "character" 300 Script.learning_rate_1e_5
           true "speed" "lora" 16 [])
    = Return (VDict result).
Proof.
  destruct (request_finetuning_posts_supplied_values
              (Mock.replies (Script.created "id" "ft-1")) Mock.self
              "UEsDBBQAAAAIAA==" "my dog" "TOK" "character" 300
              Script.learning_rate_1e_5 true "speed" "lora" 16 [])
    as (Hsent & _ & _ & _ & _ & Hok).
  - unfold valid_mode. apply list_elem_of_In. simpl. tauto.
  - unfold valid_priority. apply list_elem_of_In. simpl. tauto.
  - unfold valid_finetune_type. apply list_elem_of_In. simpl. tauto.
  - unfold valid_lora_rank. apply list_elem_of_In. simpl. tauto.
  - split; [exact Hsent |].
    apply (Hok (Script.created "id" "ft-1") {[ "id" := VStr "ft-1" ]} (VStr "ft-1"));
      try reflexivity.
    left. reflexivity.
Defined.

(** ** The request layer, for every operation *)

Section EveryRequest.

Variable transport : list event -> Request -> Response + RequestException.
Variable self : FluxAPI.

(** Whatever the method, the endpoint and the outcome, [_make_request] sends
    one request and only one (nothing is retried); it goes to the endpoint
    under the base URL, with the JSON content type and with the client's key
    in the [X-Key] header. *)
Theorem every_request_carries_the_credential (meth endpoint : string) (kw : dict)
    (t : list event) :
  exists req : Request,
    snd (_make_request transport self meth endpoint kw t) = t ++ [Sent req] /\
    method req = meth /\
    url req = BASE_URL +:+ "/" +:+ endpoint /\
    headers req !! "X-Key" = Some (api_key self) /\
    headers req !! "Content-Type" = Some "application/json" /\
    size (headers req) = 2%nat /\
    kwargs req = kw.
Proof.
  exists (request_for self meth endpoint kw).
  split; [apply make_request_sends_once |].
  repeat split; reflexivity.
Qed.

(** An [ok] response with an empty body gives the empty object: [json()] is
    not consulted. With an error status the empty body gives the message
    "API error: " followed by nothing. *)
Theorem empty_body_is_the_empty_object (meth endpoint : string) (kw : dict)
    (t : list event) (r : Response) :
  transport t (request_for self meth endpoint kw) = inl r ->
  (forall t', log_request_details kw t' = (Return tt, t')) ->
  text r = EmptyString ->
  fst (_make_request transport self meth endpoint kw t)
  = if ok r then Return (VDict ∅)
    else Raise (FluxAPIError [Lit "API error: "; Str (VStr EmptyString)] (Some r)).
Proof.
  intros Ht Hlog Htext.
  assert (parse_response r = Decoded (VDict ∅)) as Hparse.
  { unfold parse_response. now rewrite Htext. }
  destruct (ok r) eqn:Hok.
  - now rewrite (make_request_returns transport self _ _ _ t r _ Ht Hlog Hparse Hok).
  - unfold _make_request, requests_request, mbind, M_bind.
    fold (request_for self meth endpoint kw).
    rewrite Ht, Hlog, Hparse, Hok. simpl. now rewrite Htext.
Qed.

(** [get_progress], [list_finetunes] and [delete_finetune] hand back what the
    service sent, as decoded and unchanged, whatever its shape. *)
Theorem operations_pass_the_body_through (t : list event) (r : Response) (v : value) :
  ok r = true ->
  parse_response r = Decoded v ->
  (forall id : value,
     transport t (poll_request self id) = inl r ->
     get_progress transport self id t = (Return v, t ++ [Sent (poll_request self id)])) /\
  (transport t (request_for self "GET" "my_finetunes" ∅) = inl r ->
   list_finetunes transport self t
   = (Return v, t ++ [Sent (request_for self "GET" "my_finetunes" ∅)])) /\
  (forall id : string,
     transport t (request_for self "POST" "delete_finetune"
                    {[ "json" := VDict {[ "finetune_id" := VStr id ]} ]}) = inl r ->
     delete_finetune transport self id t
     = (Return v, t ++ [Sent (request_for self "POST" "delete_finetune"
                                {[ "json" := VDict {[ "finetune_id" := VStr id ]} ]})])).
Proof.
  intros Hok Hparse. split; [| split].
  - intros id Ht. unfold get_progress.
    apply (make_request_returns transport self _ _ _ t r); try assumption.
    intros t'. now apply log_request_details_no_json.
  - intros Ht. unfold list_finetunes.
    apply (make_request_returns transport self _ _ _ t r); try assumption.
    intros t'. now apply log_request_details_no_json.
  - intros id Ht. unfold delete_finetune.
    apply (make_request_returns transport self _ _ _ t r); try assumption.
    intros t'. reflexivity.
Qed.

End EveryRequest.

Lemma empty_body_is_the_empty_object_witness :
  fst (_make_request (Mock.replies Script.empty_body) Mock.self "GET" "my_finetunes" ∅ [])
  = Return (VDict ∅).
Proof.
  apply (empty_body_is_the_empty_object (Mock.replies Script.empty_body) Mock.self
           "GET" "my_finetunes" ∅ [] Script.empty_body); reflexivity.
Defined.

Lemma operations_pass_the_body_through_witness :
  get_progress (Mock.replies Mock.bare_list) Mock.self (VStr "job") []
  = (Return (VList [VInt 1; VInt 2]), [] ++ [Sent (poll_request Mock.self (VStr "job"))]).
Proof.
  apply (proj1 (operations_pass_the_body_through (Mock.replies Mock.bare_list) Mock.self
                  [] Mock.bare_list (VList [VInt 1; VInt 2]) eq_refl eq_refl)).
  reflexivity.
Defined.

Lemma make_request_transport_failure_witness :
  fst (_make_request Mock.unreachable Mock.self "GET" "my_finetunes" ∅ [])
  = Raise (FluxAPIError [Lit "Request failed: "; Lit "Connection refused"] None).
Proof.
  apply (make_request_transport_failure Mock.unreachable Mock.self "GET" "my_finetunes" ∅ []
           {| exc_str := "Connection refused"; exc_response := None |}).
  reflexivity.
Defined.

Lemma make_request_invalid_json_witness :
  fst (_make_request (Mock.replies Script.bad_gateway) Mock.self "GET" "my_finetunes" ∅ [])
  = Raise (FluxAPIError
             [Lit "Invalid JSON response: ";
              Lit "Expecting value: line 1 column 1 (char 0)";
              Lit (newline +:+ "Response text: "); Lit (text Script.bad_gateway)]
             (Some Script.bad_gateway)).
Proof.
  apply (make_request_invalid_json (Mock.replies Script.bad_gateway) Mock.self
           "GET" "my_finetunes" ∅ [] Script.bad_gateway);
    reflexivity.
Defined.

Lemma make_request_http_error_witness :
  fst (_make_request (Mock.replies Mock.error_500_nested) Mock.self "GET" "my_finetunes" ∅ [])
  = Raise (FluxAPIError
             [Lit "API error: ";
              Str (default (VStr (text Mock.error_500_nested))
                     (({[ "message" := VStr "boom" ]} : dict) !! "message"))]
             (Some Mock.error_500_nested)).
Proof.
  apply (make_request_http_error (Mock.replies Mock.error_500_nested) Mock.self
           "GET" "my_finetunes" ∅ [] Mock.error_500_nested
           {[ "error" := VDict {[ "message" := VStr "boom" ]} ]});
    reflexivity.
Defined.

Lemma init_rejects_empty_witness :
  __init__ {[ "BFL_API_KEY" := EmptyString ]} (Some EmptyString) []
  = (Raise (Builtin (ValueError no_api_key)), []).
Proof.
  apply (init_rejects_empty {[ "BFL_API_KEY" := EmptyString ]} (Some EmptyString) []).
  - right. reflexivity.
  - right. reflexivity.
Defined.

(** ** [generate_image] against any service *)

Section AnyService.

Variable transport : list event -> Request -> Response + RequestException.
Variable self : FluxAPI.

(** The errors of the request layer have messages of two pieces or more: none
    of them is the time-out of the polling loop. *)
Lemma make_request_never_times_out meth endpoint kw t :
  fst (_make_request transport self meth endpoint kw t) <> Raise timed_out.
Proof.
  unfold _make_request, requests_request, mbind, M_bind, timed_out.
  destruct (transport t _) as [r | e]; [| simpl; congruence].
  unfold log_request_details, py_len, py_get, mbind, M_bind, mret, M_ret, raise.
  repeat case_match; simpl; congruence.
Qed.

(** One turn of the loop, whatever the service answers: either the client
    sleeps 2 and goes round again, or the call ends on this poll, and not by
    the time-out. *)
Lemma poll_turn inference_id fuel attempt h :
  (attempt < max_attempts)%Z ->
  poll_for_results transport (S fuel) self inference_id attempt h
  = poll_for_results transport fuel self inference_id (attempt + 1)%Z
      (h ++ [Sent (poll_request self inference_id); Slept 2])
  \/
  (snd (poll_for_results transport (S fuel) self inference_id attempt h)
   = h ++ [Sent (poll_request self inference_id)] /\
   fst (poll_for_results transport (S fuel) self inference_id attempt h) <> Raise timed_out /\
   fst (poll_for_results transport (S fuel) self inference_id attempt h) <> OutOfFuel).
Proof.
  intros Hlt. cbn [poll_for_results]. rewrite (proj2 (Z.ltb_lt _ _) Hlt).
  unfold get_progress.
  pose proof (make_request_sends_once transport self "GET" "get_result"
                {[ "params" := VDict {[ "id" := inference_id ]} ]} h) as Hsent.
  pose proof (make_request_never_times_out "GET" "get_result"
                {[ "params" := VDict {[ "id" := inference_id ]} ]} h) as Hnot.
  pose proof (terminates_make_request transport self "GET" "get_result"
                {[ "params" := VDict {[ "id" := inference_id ]} ]} h) as Hterm.
  fold (poll_request self inference_id) in Hsent.
  destruct (_make_request transport self "GET" "get_result" _ h) as [[result | e |] h1]
    eqn:Hreq; simpl in Hsent, Hnot, Hterm; subst h1.
  - erewrite bind_Return by exact Hreq.
    destruct result as [| b | n | x | s | items | d];
      try (right; unfold mbind, M_bind, py_get, raise, timed_out; simpl;
           repeat split; congruence).
    erewrite bind_Return by apply py_get_dict.
    destruct (eq_str (default VNone (d !! "status")) "Ready").
    + right. unfold mbind, M_bind, py_in, py_getitem, mret, M_ret, raise, timed_out.
      repeat case_match; simpl in *; repeat split; congruence.
    + erewrite bind_Return by apply py_get_dict.
      destruct (in_strs (default VNone (d !! "status")) ["Failed"; "Error"]).
      * right. unfold mbind, M_bind, py_get, mret, M_ret, raise, timed_out.
        simpl. repeat split; congruence.
      * left. unfold mbind, M_bind, time_sleep. now rewrite <- app_assoc.
  - erewrite bind_Raise by exact Hreq. right. simpl. repeat split; congruence.
  - congruence.
Qed.

(** The loop, whatever the service answers: either it spends every attempt
    that is left, in rounds of "poll, sleep 2", and times out; or it ends
    earlier, on a poll, and not by the time-out. *)
Lemma loop_shape inference_id fuel :
  forall (attempt : Z) (h : list event),
    (max_attempts - attempt <= Z.of_nat fuel)%Z ->
    poll_for_results transport (S fuel) self inference_id attempt h
    = (Raise timed_out,
       h ++ waiting_rounds (poll_request self inference_id)
              (Z.to_nat (max_attempts - attempt)))
    \/
    exists k : nat,
      (k < Z.to_nat (max_attempts - attempt))%nat /\
      snd (poll_for_results transport (S fuel) self inference_id attempt h)
      = h ++ waiting_rounds (poll_request self inference_id) k
          ++ [Sent (poll_request self inference_id)] /\
      fst (poll_for_results transport (S fuel) self inference_id attempt h)
      <> Raise timed_out /\
      fst (poll_for_results transport (S fuel) self inference_id attempt h)
      <> OutOfFuel.
Proof.
  induction fuel as [| fuel IH]; intros attempt h Hfuel.
  - left. rewrite poll_budget_spent by (simpl in Hfuel; lia).
    replace (Z.to_nat (max_attempts - attempt)) with 0%nat by (simpl in Hfuel; lia).
    simpl. now rewrite app_nil_r.
  - destruct (Z.lt_ge_cases attempt max_attempts) as [Hlt | Hge].
    + destruct (poll_turn inference_id (S fuel) attempt h Hlt) as [Hgo | (Hsnd & Hfst & Hfuel')].
      * rewrite Hgo.
        replace (Z.to_nat (max_attempts - attempt))
          with (S (Z.to_nat (max_attempts - (attempt + 1)))) by lia.
        destruct (IH (attempt + 1)%Z
                    (h ++ [Sent (poll_request self inference_id); Slept 2]))
          as [Hout | (k & Hk & Hsnd & Hfst & Hfuel')]; [lia | |].
        -- left. rewrite Hout, waiting_rounds_S. now rewrite <- !app_assoc.
        -- right. exists (S k). split; [lia |]. split; [| split; assumption].
           rewrite Hsnd, waiting_rounds_S. now rewrite <- !app_assoc.
      * right. exists 0%nat. split; [lia |]. split; [exact Hsnd | split; assumption].
    + left. rewrite poll_budget_spent by lia.
      replace (Z.to_nat (max_attempts - attempt)) with 0%nat by lia.
      simpl. now rewrite app_nil_r.
Qed.

End AnyService.

Lemma reraise_as_flux_timed_out {A : Type} prefix (body : M A) t :
  fst (reraise_as_flux prefix body t) = Raise timed_out <-> fst (body t) = Raise timed_out.
Proof.
  unfold reraise_as_flux, timed_out.
  destruct (body t) as [[a | [msg r | e] |] t']; simpl; split; congruence.
Qed.

Lemma sleeps_app tr1 tr2 : sleeps (tr1 ++ tr2) = sleeps tr1 ++ sleeps tr2.
Proof. unfold sleeps. apply flat_map_app. Qed.

Lemma requests_sent_app tr1 tr2 :
  requests_sent (tr1 ++ tr2) = (requests_sent tr1 + requests_sent tr2)%nat.
Proof. unfold requests_sent. now rewrite List.filter_app, length_app. Qed.

Lemma requests_sent_waiting_rounds poll k : requests_sent (waiting_rounds poll k) = k.
Proof.
  induction k as [| k IH]; [reflexivity |].
  rewrite waiting_rounds_S, requests_sent_app, IH. reflexivity.
Qed.

Lemma total_slept_waiting_rounds poll k :
  total_slept (waiting_rounds poll k) = (2 * Z.of_nat k)%Z.
Proof.
  unfold total_slept. rewrite sleeps_waiting_rounds.
  induction k as [| k IH]; [reflexivity |].
  change (replicate (S k) 2%Z) with (2%Z :: replicate k 2%Z).
  cbn [fold_right]. rewrite IH. lia.
Qed.

Lemma total_slept_app tr1 tr2 :
  total_slept (tr1 ++ tr2) = (total_slept tr1 + total_slept tr2)%Z.
Proof.
  unfold total_slept. rewrite sleeps_app.
  induction (sleeps tr1) as [| s l IH]; simpl; lia.
Qed.

Section AnyRun.

Variable transport : list event -> Request -> Response + RequestException.
Variable self : FluxAPI.
Variables finetune_id prompt : string.
Variable finetune_strength : spec_float.
Variable endpoint : string.
Variable kwargs : dict.
Variable t : list event.

Local Abbreviation submit :=
  (submit_request self finetune_id prompt finetune_strength endpoint kwargs).
Local Abbreviation run :=
  (generate_image transport self finetune_id prompt finetune_strength endpoint kwargs).

(** What [generate_image] does on the network and the clock, for every
    service: it submits; then either it stops there, or it polls one job in
    rounds of "poll, sleep 2" and stops on a poll before the thirtieth round
    is over, or it completes thirty rounds and times out. *)
Lemma generate_image_shape :
  (snd (run t) = t ++ [Sent submit] /\ fst (run t) <> Raise timed_out) \/
  exists inference_id : value,
    run t = (Raise timed_out,
             t ++ Sent submit :: waiting_rounds (poll_request self inference_id) 30) \/
    exists k : nat,
      (k < 30)%nat /\
      snd (run t)
      = t ++ Sent submit :: waiting_rounds (poll_request self inference_id) k
          ++ [Sent (poll_request self inference_id)] /\
      fst (run t) <> Raise timed_out.
Proof.
  pose proof (make_request_sends_once transport self "POST" endpoint
                {[ "json" := VDict (generation_payload finetune_id prompt
                                      finetune_strength kwargs) ]} t) as Hsent.
  pose proof (make_request_never_times_out transport self "POST" endpoint
                {[ "json" := VDict (generation_payload finetune_id prompt
                                      finetune_strength kwargs) ]} t) as Hnot.
  fold submit in Hsent.
  destruct (_make_request transport self "POST" endpoint _ t) as [[resp | e |] t1]
    eqn:Hreq; simpl in Hsent, Hnot; subst t1.
  - destruct resp as [| b | n | x | s | items | fields].
    1-6: left; unfold generate_image;
      rewrite reraise_as_flux_snd, reraise_as_flux_timed_out;
      erewrite !bind_Return by exact Hreq;
      unfold mbind, M_bind, py_get, raise, timed_out; simpl; split; congruence.
    destruct (fields !! "id") as [inference_id |] eqn:Hid.
    + destruct (truthy inference_id) eqn:Htruthy.
      * right. exists inference_id.
        rewrite (generate_image_enters_loop transport self finetune_id prompt
                   finetune_strength endpoint kwargs t inference_id)
          by (exists fields; auto).
        change (S (Z.to_nat max_attempts)) with 31%nat.
        destruct (loop_shape transport self inference_id 30 0 (t ++ [Sent submit]))
          as [Hout | (k & Hk & Hsnd & Hfst & _)]; [unfold max_attempts; lia | |].
        -- left. unfold reraise_as_flux. rewrite Hout. unfold timed_out.
           change (Z.to_nat (max_attempts - 0)) with 30%nat.
           now rewrite <- app_assoc.
        -- right. exists k. split; [exact Hk |].
           rewrite reraise_as_flux_snd, reraise_as_flux_timed_out.
           split; [| exact Hfst].
           rewrite Hsnd. now rewrite <- app_assoc.
      * left. unfold generate_image.
        rewrite reraise_as_flux_snd, reraise_as_flux_timed_out.
        erewrite !bind_Return by exact Hreq.
        erewrite !bind_Return by apply py_get_dict.
        rewrite Hid. change (default VNone (Some inference_id)) with inference_id.
        rewrite Htruthy. unfold timed_out. simpl. split; congruence.
    + left. unfold generate_image.
      rewrite reraise_as_flux_snd, reraise_as_flux_timed_out.
      erewrite !bind_Return by exact Hreq.
      erewrite !bind_Return by apply py_get_dict.
      rewrite Hid. unfold timed_out. simpl. split; congruence.
  - left. unfold generate_image.
    rewrite reraise_as_flux_snd, reraise_as_flux_timed_out.
    erewrite !bind_Raise by exact Hreq. simpl. split; congruence.
  - left. unfold generate_image.
    rewrite reraise_as_flux_snd, reraise_as_flux_timed_out.
    unfold mbind, M_bind. rewrite Hreq. simpl. split; congruence.
Qed.

(** For every service, after the submission [generate_image] sends nothing
    but polls, at most 30 of them; every sleep is of 2 seconds and the call
    sleeps 60 seconds at most. *)
Theorem generate_image_stays_within_budget :
  exists tail : list event,
    snd (run t) = t ++ Sent submit :: tail /\
    (polls tail <= 30)%nat /\
    requests_sent tail = polls tail /\
    (forall s : Z, s ∈ sleeps tail -> s = 2%Z) /\
    (total_slept tail <= 60)%Z.
Proof.
  destruct generate_image_shape as [[Hsnd _] | (id & [Hrun | (k & Hk & Hsnd & _)])].
  - exists []. split; [exact Hsnd |].
    split; [unfold polls; simpl; lia |]. split; [reflexivity |].
    split; [| unfold total_slept; simpl; lia].
    intros s Hs. simpl in Hs. now apply elem_of_nil in Hs.
  - exists (waiting_rounds (poll_request self id) 30).
    split; [now rewrite Hrun |].
    rewrite polls_waiting_rounds, requests_sent_waiting_rounds,
      total_slept_waiting_rounds, sleeps_waiting_rounds.
    split; [lia |]. split; [reflexivity |]. split; [| lia].
    intros s Hs. now apply elem_of_replicate in Hs.
  - exists (waiting_rounds (poll_request self id) k ++ [Sent (poll_request self id)]).
    split; [exact Hsnd |].
    rewrite polls_app, requests_sent_app, total_slept_app, sleeps_app,
      polls_waiting_rounds, requests_sent_waiting_rounds,
      total_slept_waiting_rounds, sleeps_waiting_rounds.
    change (polls [Sent (poll_request self id)]) with 1%nat.
    change (requests_sent [Sent (poll_request self id)]) with 1%nat.
    change (total_slept [Sent (poll_request self id)]) with 0%Z.
    change (sleeps [Sent (poll_request self id)]) with (@nil Z).
    split; [lia |]. split; [reflexivity |]. split; [| lia].
    intros s Hs. rewrite app_nil_r in Hs. now apply elem_of_replicate in Hs.
Qed.

(** [generate_image] raises "Image generation timed out" only after thirty
    complete rounds: thirty polls of one job, each followed by a sleep of 2,
    and nothing else after the submission. *)
Theorem time_out_takes_thirty_rounds :
  fst (run t) = Raise timed_out ->
  exists inference_id : value,
    snd (run t)
    = t ++ Sent submit :: waiting_rounds (poll_request self inference_id) 30.
Proof.
  intros Hout.
  destruct generate_image_shape as [[_ Hnot] | (id & [Hrun | (k & _ & _ & Hnot)])];
    [contradiction | | contradiction].
  exists id. now rewrite Hrun.
Qed.

(** When the answer to the submission is an object without a job id (no
    ['id'], or one that Python takes as false), [generate_image] raises
    [FluxAPIError] "No inference ID in response" and never polls. *)
Theorem generate_image_without_job_id (fields : dict) :
  fst (_make_request transport self "POST" endpoint
         {[ "json" := VDict (generation_payload finetune_id prompt
                               finetune_strength kwargs) ]} t)
  = Return (VDict fields) ->
  truthy (default VNone (fields !! "id")) = false ->
  run t = (Raise (FluxAPIError
                    [Lit "No inference ID in response: "; Str (VDict fields)] None),
           t ++ [Sent submit]).
Proof.
  intros Hfst Hid.
  pose proof (make_request_sends_once transport self "POST" endpoint
                {[ "json" := VDict (generation_payload finetune_id prompt
                                      finetune_strength kwargs) ]} t) as Hsent.
  fold submit in Hsent.
  destruct (_make_request transport self "POST" endpoint _ t) as [out t1] eqn:Hreq.
  simpl in Hfst, Hsent. subst out t1.
  unfold generate_image, reraise_as_flux.
  erewrite bind_Return by exact Hreq.
  erewrite bind_Return by apply py_get_dict.
  now rewrite Hid.
Qed.

End AnyRun.

Lemma reraise_as_flux_never_builtin {A : Type} prefix (body : M A) t e :
  fst (reraise_as_flux prefix body t) <> Raise (Builtin e).
Proof.
  unfold reraise_as_flux.
  destruct (body t) as [[a | [msg r | e'] |] t']; simpl; congruence.
Qed.

(** No built-in exception leaves [request_finetuning] or [generate_image]:
    whatever the service does and whatever goes wrong in between, what they
    raise is a [FluxAPIError]. *)
Theorem wrapped_methods_raise_only_FluxAPIError
    (transport : list event -> Request -> Response + RequestException) (self : FluxAPI)
    (file_data finetune_comment trigger_word mode : string) (iterations : Z)
    (learning_rate : spec_float) (captioning : bool)
    (priority finetune_type : string) (lora_rank : Z)
    (finetune_id prompt : string) (finetune_strength : spec_float)
    (endpoint : string) (kwargs : dict) (t : list event) (e : builtin_exn) :
  fst (request_finetuning transport self file_data finetune_comment trigger_word mode
         iterations learning_rate captioning priority finetune_type lora_rank t)
  <> Raise (Builtin e) /\
  fst (generate_image transport self finetune_id prompt finetune_strength endpoint
         kwargs t)
  <> Raise (Builtin e).
Proof.
  split; [unfold request_finetuning | unfold generate_image];
    apply reraise_as_flux_never_builtin.
Qed.

Section PollingFailure.

Variable transport : list event -> Request -> Response + RequestException.
Variable self : FluxAPI.
Variables finetune_id prompt : string.
Variable finetune_strength : spec_float.
Variable endpoint : string.
Variable kwargs : dict.
Variable t : list event.
Variable inference_id : value.

Local Abbreviation submit :=
  (submit_request self finetune_id prompt finetune_strength endpoint kwargs).
Local Abbreviation poll := (poll_request self inference_id).
Local Abbreviation run :=
  (generate_image transport self finetune_id prompt finetune_strength endpoint kwargs).

(** A poll that fails in transport is not retried: after [k] polls that did
    not end the loop, a [RequestException] on the next poll ends
    [generate_image] with [FluxAPIError] "Request failed: ..."; that poll is
    the last event of the call. *)
Theorem polling_does_not_retry_a_failed_poll (k : nat) (e : RequestException) :
  (k < 30)%nat ->
  submission_returns transport self finetune_id prompt finetune_strength endpoint
    kwargs t inference_id ->
  still_waiting transport self finetune_id prompt finetune_strength endpoint kwargs t
    inference_id k ->
  transport (t ++ Sent submit :: waiting_rounds poll k) poll = inr e ->
  run t = (Raise (FluxAPIError
                    ([Lit "Request failed: "; Lit (exc_str e)] ++
                     match exc_response e with
                     | Some r => [Lit (newline +:+ "Response: "); Lit (text r)]
                     | None => []
                     end)
                    (exc_response e)),
           t ++ Sent submit :: waiting_rounds poll k ++ [Sent poll]).
Proof.
  intros Hk Hsub Hwait Hdown.
  rewrite (generate_image_after_waiting transport self finetune_id prompt
             finetune_strength endpoint kwargs t inference_id k);
    [| lia | exact Hsub | exact Hwait].
  unfold reraise_as_flux. cbn [poll_for_results].
  replace (Z.of_nat k <? max_attempts)%Z with true
    by (symmetry; apply Z.ltb_lt; unfold max_attempts; lia).
  assert (get_progress transport self inference_id
            (t ++ Sent submit :: waiting_rounds poll k)
          = (Raise (FluxAPIError
                      ([Lit "Request failed: "; Lit (exc_str e)] ++
                       match exc_response e with
                       | Some r => [Lit (newline +:+ "Response: "); Lit (text r)]
                       | None => []
                       end)
                      (exc_response e)),
             (t ++ Sent submit :: waiting_rounds poll k) ++ [Sent poll])) as Hpoll.
  { unfold get_progress, _make_request, requests_request, mbind, M_bind.
    fold (request_for self "GET" "get_result" {[ "params" := VDict {[ "id" := inference_id ]} ]}).
    fold poll. now rewrite Hdown. }
  erewrite bind_Raise by exact Hpoll.
  now rewrite (app_comm_cons _ _ (Sent submit)), app_assoc.
Qed.

End PollingFailure.

Lemma time_out_takes_thirty_rounds_witness :
  exists inference_id : value,
    snd (generate_image
           (Script.scripted (Script.created "id" "inf-1") [] (Script.status_reply "Pending"))
           Mock.self "ft-1" "a photo of TOK" Script.strength_1_2 Script.endpoint ∅ [])
    = [] ++ Sent (submit_request Mock.self "ft-1" "a photo of TOK" Script.strength_1_2
                    Script.endpoint ∅)
         :: waiting_rounds (poll_request Mock.self inference_id) 30.
Proof.
  apply (time_out_takes_thirty_rounds
           (Script.scripted (Script.created "id" "inf-1") [] (Script.status_reply "Pending"))
           Mock.self "ft-1" "a photo of TOK" Script.strength_1_2 Script.endpoint ∅ []).
  vm_compute. reflexivity.
Defined.

Lemma generate_image_without_job_id_witness :
  generate_image (Mock.replies Script.empty_body) Mock.self "ft-1" "a photo of TOK"
    Script.strength_1_2 Script.endpoint ∅ []
  = (Raise (FluxAPIError [Lit "No inference ID in response: "; Str (VDict ∅)] None),
     [] ++ [Sent (submit_request Mock.self "ft-1" "a photo of TOK" Script.strength_1_2
                    Script.endpoint ∅)]).
Proof.
  apply (generate_image_without_job_id (Mock.replies Script.empty_body) Mock.self
           "ft-1" "a photo of TOK" Script.strength_1_2 Script.endpoint ∅ [] ∅);
    reflexivity.
Defined.

Lemma polling_does_not_retry_a_failed_poll_witness :
  generate_image
    (Script.scripted_then_failing (Script.created "id" "inf-1")
       [Script.status_reply "Pending"] Script.connection_reset)
    Mock.self "ft-1" "a photo of TOK" Script.strength_1_2 Script.endpoint ∅ []
  = (Raise (FluxAPIError
              ([Lit "Request failed: "; Lit (exc_str Script.connection_reset)] ++
               match exc_response Script.connection_reset with
               | Some r => [Lit (newline +:+ "Response: "); Lit (text r)]
               | None => []
               end)
              (exc_response Script.connection_reset)),
     [] ++ Sent (submit_request Mock.self "ft-1" "a photo of TOK" Script.strength_1_2
                   Script.endpoint ∅)
        :: waiting_rounds (poll_request Mock.self (VStr "inf-1")) 1
           ++ [Sent (poll_request Mock.self (VStr "inf-1"))]).
Proof.
  apply (polling_does_not_retry_a_failed_poll
           (Script.scripted_then_failing (Script.created "id" "inf-1")
              [Script.status_reply "Pending"] Script.connection_reset)
           Mock.self "ft-1" "a photo of TOK" Script.strength_1_2 Script.endpoint ∅ []
           (VStr "inf-1") 1 Script.connection_reset).
  - lia.
  - exists {[ "id" := VStr "inf-1" ]}. split; [reflexivity | split; reflexivity].
  - intros j Hj. assert (j = 0%nat) as -> by lia.
    exists {[ "status" := VStr "Pending" ]}. split; [| reflexivity].
    exists (Script.status_reply "Pending"). split; [reflexivity | split; reflexivity].
  - reflexivity.
Defined.

(** ** The handlers of the interface *)

Lemma settles_ret {A : Type} (a : A) : settles (mret a).
Proof. intros ui t. discriminate. Qed.

Lemma settles_fail {A : Type} e : settles (@fail A e).
Proof. intros ui t. discriminate. Qed.

Lemma settles_bind {A B : Type} (m : UM A) (k : A -> UM B) :
  settles m -> (forall a, settles (k a)) -> settles (m ≫= k).
Proof.
  intros Hm Hk ui t. unfold mbind, UM_bind. specialize (Hm ui t).
  destruct (m ui t) as [[[a | e |] ui'] t']; simpl in *;
    [apply Hk | discriminate | congruence].
Qed.

Lemma settles_lift {A : Type} (m : M A) : terminates m -> settles (lift m).
Proof.
  intros Hm ui t. unfold lift. specialize (Hm t).
  destruct (m t) as [[a | e |] t']; simpl in *; congruence.
Qed.

Lemma settles_if {A : Type} (b : bool) (m1 m2 : UM A) :
  settles m1 -> settles m2 -> settles (if b then m1 else m2).
Proof. now destruct b. Qed.

Lemma settles_try_except {A : Type} (body : UM A) on_flux on_exception :
  settles body -> (forall msg, settles (on_flux msg)) ->
  (forall msg, settles (on_exception msg)) ->
  settles (try_except body on_flux on_exception).
Proof.
  intros Hb Hf He ui t. unfold try_except. specialize (Hb ui t).
  destruct (body ui t) as [[[a | [[msg r | b] | n | msg] |] ui'] t']; simpl in *;
    solve [discriminate | congruence | apply Hf | apply He].
Qed.

Lemma settles_try_except_any {A : Type} (body : UM A) on_exception :
  settles body -> (forall msg, settles (on_exception msg)) ->
  settles (try_except_any body on_exception).
Proof.
  intros Hb He ui t. unfold try_except_any. specialize (Hb ui t).
  destruct (body ui t) as [[[a | e |] ui'] t']; simpl in *;
    solve [discriminate | congruence | apply He].
Qed.

Lemma settles_get_self : settles get_self.
Proof. intros ui t. discriminate. Qed.

Lemma settles_set_api a : settles (set_api a).
Proof. intros ui t. discriminate. Qed.

Lemma settles_in_auto_refresh_states status : settles (in_auto_refresh_states status).
Proof. intros ui t. destruct status; discriminate. Qed.

#[local] Hint Resolve settles_ret settles_fail settles_bind settles_lift settles_if
  settles_try_except settles_try_except_any settles_get_self settles_set_api
  settles_in_auto_refresh_states : client.

(** A [try] whose handlers all return gives a result whenever its body
    cannot run out of fuel. *)
Lemma try_except_always_done {A : Type} (body : UM A) on_flux on_exception :
  settles body ->
  (forall msg, always_done (on_flux msg)) ->
  (forall msg, always_done (on_exception msg)) ->
  always_done (try_except body on_flux on_exception).
Proof.
  intros Hb Hf He ui t. unfold try_except. specialize (Hb ui t).
  destruct (body ui t) as [[[a | [[msg r | b] | n | msg] |] ui'] t']; simpl in *;
    solve [eauto | congruence | apply Hf | apply He].
Qed.

Lemma always_done_ret {A : Type} (a : A) : always_done (mret a).
Proof. intros ui t. now exists a, ui, t. Qed.

Lemma terminates_init environ arg : terminates (__init__ environ arg).
Proof.
  intros t. unfold __init__.
  repeat case_match; discriminate.
Qed.

Lemma terminates_request_finetuning transport self file_data finetune_comment trigger_word
    mode iterations learning_rate captioning priority finetune_type lora_rank :
  terminates (request_finetuning transport self file_data finetune_comment trigger_word
                mode iterations learning_rate captioning priority finetune_type lora_rank).
Proof.
  unfold request_finetuning. apply terminates_reraise.
  apply terminates_bind; [apply terminates_make_request |]. intros response.
  destruct response; auto 8 with client.
Qed.

Section Handlers.

Variable transport : list event -> Request -> Response + RequestException.
Variable environ : gmap string string.
Variable getsize : string -> Z + string.
Variable zip_base64 : list UploadedFile -> string + string.
Variable keys_in_order : dict -> list string.

Lemma settles_get_api api_key : settles (_get_api environ api_key).
Proof.
  unfold _get_api. apply settles_bind; [apply settles_get_self |]. intros self.
  assert (settles (a ← lift (__init__ environ (Some api_key)); _ ← set_api a; mret a))
    as Hrenew.
  { apply settles_bind; [apply settles_lift, terminates_init |]. intros a.
    auto with client. }
  destruct (api self) as [[cached_key] |]; [| exact Hrenew].
  apply settles_if; [exact Hrenew | apply settles_ret].
Qed.

Lemma settles_sum_sizes files : settles (sum_sizes getsize files).
Proof.
  induction files as [| f rest IH]; simpl; [apply settles_ret |].
  destruct (getsize (file_name f)); auto with client.
Qed.

Lemma settles_create_zip_from_files files :
  settles (create_zip_from_files getsize zip_base64 files).
Proof.
  unfold create_zip_from_files.
  destruct files as [[| f rest] |]; try apply settles_fail.
  apply settles_bind; [apply settles_sum_sizes |]. intros total.
  apply settles_if; [apply settles_fail |].
  destruct (zip_base64 _); auto with client.
Qed.

Lemma terminates_get_finetune_details_of self finetune_id :
  terminates (get_finetune_details_of transport self finetune_id).
Proof.
  unfold get_finetune_details_of.
  apply terminates_bind; [apply terminates_make_request |]. intros response.
  destruct response; apply terminates_ret.
Qed.

Lemma terminates_finetune_id_of ft dflt : terminates (finetune_id_of ft dflt).
Proof. destruct ft; solve [apply terminates_ret | apply terminates_py_get]. Qed.

Lemma terminates_py_iter v : terminates (py_iter keys_in_order v).
Proof. destruct v; solve [apply terminates_ret | apply terminates_raise]. Qed.

Lemma settles_list_rows api finetunes :
  forall rows, settles (list_rows transport api finetunes rows).
Proof.
  induction finetunes as [| ft rest IH]; intros rows; simpl; [apply settles_ret |].
  apply settles_bind; [| intros rows'; apply IH].
  apply settles_try_except_any.
  - apply settles_bind; [apply settles_lift, terminates_finetune_id_of |]. intros ft_id.
    apply settles_if; [apply settles_ret |].
    apply settles_bind; [apply settles_lift, terminates_get_finetune_details_of |].
    intros details.
    destruct details; auto 10 using terminates_py_get with client.
  - intros _.
    apply settles_bind; [apply settles_lift, terminates_finetune_id_of |]. intros ft_id.
    apply settles_ret.
Qed.

(** In a run in which every request comes back, each handler behind the
    buttons returns what to show. *)
Lemma handlers_return :
  (forall finetune_id api_key auto_refresh last_status,
     always_done (check_progress_with_state transport environ finetune_id api_key
                    auto_refresh last_status)) /\
  (forall api_key, always_done (ui_list_finetunes transport environ keys_in_order api_key)) /\
  (forall finetune_id api_key,
     always_done (ui_delete_finetune transport environ finetune_id api_key)) /\
  (forall files finetune_comment trigger_word mode iterations learning_rate captioning
          priority finetune_type lora_rank api_key,
     always_done (_handle_training transport environ getsize zip_base64 files
                    finetune_comment trigger_word mode iterations learning_rate
                    captioning priority finetune_type lora_rank api_key)) /\
  (forall finetune_id prompt finetune_strength endpoint api_key,
     always_done (_handle_generation transport environ finetune_id prompt
                    finetune_strength endpoint api_key)).
Proof.
  split; [| split; [| split; [| split]]]; intros.
  - apply try_except_always_done; try (intros; apply always_done_ret).
    apply settles_if; [apply settles_ret |].
    apply settles_bind; [apply settles_get_api |]. intros a.
    apply settles_bind; [apply settles_lift, terminates_make_request |]. intros result.
    apply settles_bind; [apply settles_lift, terminates_py_getitem |]. intros status.
    apply settles_bind; [apply settles_lift, terminates_py_get |]. intros progress.
    auto 12 with client.
  - apply try_except_always_done; try (intros; apply always_done_ret).
    apply settles_bind; [apply settles_get_api |]. intros a.
    apply settles_bind; [apply settles_lift, terminates_make_request |]. intros response.
    apply settles_bind; [apply settles_lift, terminates_py_get |]. intros finetunes.
    apply settles_bind; [apply settles_lift, terminates_py_len |]. intros _.
    apply settles_bind; [apply settles_lift, terminates_py_iter |]. intros items.
    apply settles_bind; [apply settles_list_rows |]. intros rows.
    destruct rows; apply settles_ret.
  - apply try_except_always_done; try (intros; apply always_done_ret).
    apply settles_if; [apply settles_ret |].
    apply settles_bind; [apply settles_get_api |]. intros a.
    apply settles_bind; [apply settles_lift, terminates_make_request |]. intros _.
    apply settles_ret.
  - apply try_except_always_done; try (intros; apply always_done_ret).
    destruct files as [[| f rest] |]; try apply settles_ret.
    apply settles_if; [apply settles_ret |].
    apply settles_if; [apply settles_ret |].
    apply settles_bind; [apply settles_get_api |]. intros a.
    apply settles_bind.
    + apply settles_try_except_any; [| intros; apply settles_ret].
      apply settles_bind; [apply settles_create_zip_from_files |]. intros z.
      apply settles_ret.
    + intros [[zip_data total_size] | early]; [| apply settles_ret].
      apply settles_bind; [apply settles_lift, terminates_request_finetuning |].
      intros response.
      apply settles_bind; [apply settles_lift, terminates_py_getitem |]. intros id.
      apply settles_ret.
  - apply try_except_always_done; try (intros; apply always_done_ret).
    apply settles_if; [apply settles_ret |].
    apply settles_if; [apply settles_ret |].
    apply settles_bind; [apply settles_get_api |]. intros a.
    apply settles_bind.
    + apply settles_lift. unfold generate_image. apply terminates_reraise.
      apply terminates_bind; [apply terminates_make_request |]. intros response.
      apply terminates_bind; [apply terminates_py_get |]. intros inference_id.
      apply terminates_if; [apply terminates_raise |].
      apply terminates_poll_for_results.
      change (Z.of_nat (Z.to_nat max_attempts)) with max_attempts. lia.
    + intros result.
      apply settles_bind; [apply settles_lift, terminates_py_getitem |]. intros sample.
      apply settles_ret.
Qed.

(** No exception leaves a handler behind the buttons: whatever the inputs,
    the state of the interface, the file system and the answers of the
    service, neither an error of the client, nor one of the preparation of
    the files, nor one raised on a malformed answer gets past the [except]
    branches of [check_progress_with_state], [list_finetunes],
    [delete_finetune], [_handle_training] and [_handle_generation]. *)
Theorem handlers_never_raise :
  (forall finetune_id api_key auto_refresh last_status,
     never_raises (check_progress_with_state transport environ finetune_id api_key
                     auto_refresh last_status)) /\
  (forall api_key, never_raises (ui_list_finetunes transport environ keys_in_order api_key)) /\
  (forall finetune_id api_key,
     never_raises (ui_delete_finetune transport environ finetune_id api_key)) /\
  (forall files finetune_comment trigger_word mode iterations learning_rate captioning
          priority finetune_type lora_rank api_key,
     never_raises (_handle_training transport environ getsize zip_base64 files
                     finetune_comment trigger_word mode iterations learning_rate
                     captioning priority finetune_type lora_rank api_key)) /\
  (forall finetune_id prompt finetune_strength endpoint api_key,
     never_raises (_handle_generation transport environ finetune_id prompt
                     finetune_strength endpoint api_key)).
Proof.
  assert (forall (A : Type) (m : UM A), always_done m -> never_raises m) as Hdone.
  { intros A m Hm ui t e. destruct (Hm ui t) as (a & ui' & t' & ->). discriminate. }
  destruct handlers_return as (Hprogress & Hlist & Hdelete & Htraining & Hgeneration).
  split; [| split; [| split; [| split]]]; intros; apply Hdone; auto.
Qed.

End Handlers.

(** ** What [generate_image] returns *)

Section Returned.

Variable transport : list event -> Request -> Response + RequestException.
Variable self : FluxAPI.

Lemma poll_for_results_returns_a_sample inference_id fuel :
  forall attempt h v h',
    poll_for_results transport fuel self inference_id attempt h = (Return v, h') ->
    has_sample v = true.
Proof.
  induction fuel as [| fuel IH]; intros attempt h v h'; cbn [poll_for_results];
    [discriminate |].
  destruct (attempt <? max_attempts)%Z; [| discriminate].
  unfold mbind at 1. unfold M_bind at 1.
  destruct (get_progress transport self inference_id h) as [[result | e |] h1];
    [| discriminate | discriminate].
  destruct result as [| b | n | x | s | items | d]; try discriminate.
  erewrite bind_Return by apply py_get_dict.
  destruct (eq_str (default VNone (d !! "status")) "Ready").
  - unfold mbind, M_bind, py_in, py_getitem, mret, M_ret, raise.
    destruct (d !! "result") as [nested |] eqn:Hres; simpl; [| discriminate].
    destruct nested as [| b | n | x | s | items | nested]; simpl; try discriminate.
    + destruct (is_substring "sample" s) eqn:Hin; [| discriminate].
      intros [= <- _]. exact Hin.
    + destruct (existsb _ items) eqn:Hin; [| discriminate].
      intros [= <- _]. exact Hin.
    + destruct (bool_decide (is_Some (nested !! "sample"))) eqn:Hin; [| discriminate].
      intros [= <- _]. exact Hin.
  - erewrite bind_Return by apply py_get_dict.
    destruct (in_strs (default VNone (d !! "status")) ["Failed"; "Error"]);
      [discriminate |].
    unfold mbind, M_bind, time_sleep. apply IH.
Qed.

(** Whatever [generate_image] returns has passed the test ["sample" in ...]:
    a returned object has the key ['sample'] (a returned list holds the item
    "sample", a returned string contains it); [None], numbers and booleans
    are never returned. *)
Theorem generate_image_returns_a_sample finetune_id prompt finetune_strength endpoint
    kwargs t (v : value) :
  fst (generate_image transport self finetune_id prompt finetune_strength endpoint
         kwargs t) = Return v ->
  has_sample v = true.
Proof.
  unfold generate_image, reraise_as_flux.
  match goal with |- context [let (_, _) := ?body t in _] =>
    destruct (body t) as [[v' | [msg r | e] |] t'] eqn:Hbody end;
    simpl; try discriminate.
  intros [= ->]. revert Hbody.
  unfold mbind at 1. unfold M_bind at 1.
  destruct (_make_request transport self "POST" endpoint _ t) as [[resp | e |] t1];
    try discriminate.
  unfold mbind, M_bind.
  destruct (py_get resp "id" VNone t1) as [[id | e |] t2]; try discriminate.
  destruct (negb (truthy id)); [discriminate |].
  apply poll_for_results_returns_a_sample.
Qed.

End Returned.

Lemma generate_image_returns_a_sample_witness :
  has_sample (VDict {[ "sample" := VStr "https://example.org/sample.jpg" ]}) = true.
Proof.
  apply (generate_image_returns_a_sample
           (Script.scripted (Script.created "id" "inf-1")
              [Script.ready_reply "https://example.org/sample.jpg"]
              (Script.status_reply "Pending"))
           Mock.self "ft-1" "a photo of TOK" Script.strength_1_2 Script.endpoint ∅ []).
  reflexivity.
Defined.

(** ** What the handlers do *)

Lemma UM_bind_Done {A B : Type} (m : UM A) (f : A -> UM B) ui t a ui' t' :
  m ui t = (Done a, ui', t') -> (m ≫= f) ui t = f a ui' t'.
Proof. intros H. unfold mbind, UM_bind. now rewrite H. Qed.

Lemma UM_bind_Failed {A B : Type} (m : UM A) (f : A -> UM B) ui t e ui' t' :
  m ui t = (Failed e, ui', t') -> (m ≫= f) ui t = (Failed e, ui', t').
Proof. intros H. unfold mbind, UM_bind. now rewrite H. Qed.

Lemma lift_Return {A : Type} (m : M A) ui t a t' :
  m t = (Return a, t') -> lift m ui t = (Done a, ui, t').
Proof. intros H. unfold lift. now rewrite H. Qed.

Lemma lift_Raise {A : Type} (m : M A) ui t e t' :
  m t = (Raise e, t') -> lift m ui t = (Failed (Client e), ui, t').
Proof. intros H. unfold lift. now rewrite H. Qed.

Section GetApi.

Variable environ : gmap string string.

Lemma init_with_key (key : string) t :
  key <> "" -> __init__ environ (Some key) t = (Return {| api_key := key |}, t).
Proof.
  intros Hk. unfold __init__.
  apply String.eqb_neq in Hk. rewrite Hk. simpl. now rewrite Hk.
Qed.

Lemma init_from_environment (k : string) t :
  k <> "" -> environ !! "BFL_API_KEY" = Some k ->
  __init__ environ (Some "") t = (Return {| api_key := k |}, t).
Proof.
  intros Hk Henv. unfold __init__, os_getenv. simpl. rewrite Henv.
  apply String.eqb_neq in Hk. now rewrite Hk.
Qed.

Lemma init_without_credential t :
  no_credential environ ->
  __init__ environ (Some "") t = (Raise (Builtin (ValueError no_api_key)), t).
Proof.
  intros [Henv | Henv]; unfold __init__, os_getenv; simpl; now rewrite Henv.
Qed.

Lemma with_api_cached ui a : api ui = Some a -> with_api ui a = ui.
Proof. destruct ui as [c dk dd]. simpl. now intros ->. Qed.

Lemma get_api_with_key (key : string) ui t :
  key <> "" ->
  _get_api environ key ui t
  = (Done {| api_key := key |}, with_api ui {| api_key := key |}, t).
Proof.
  intros Hk. unfold _get_api.
  erewrite UM_bind_Done by reflexivity.
  assert ((a ← lift (__init__ environ (Some key)); _ ← set_api a; mret a) ui t
          = (Done {| api_key := key |}, with_api ui {| api_key := key |}, t)) as Hrenew.
  { erewrite UM_bind_Done by (apply lift_Return, init_with_key, Hk). reflexivity. }
  destruct (api ui) as [[cached] |] eqn:Hc; [| exact Hrenew].
  destruct (String.eqb cached key) eqn:E; simpl; [| exact Hrenew].
  apply String.eqb_eq in E. subst cached.
  now rewrite (with_api_cached _ _ Hc).
Qed.

Lemma get_api_from_environment (k : string) ui t :
  cache_ok ui -> k <> "" -> environ !! "BFL_API_KEY" = Some k ->
  _get_api environ "" ui t
  = (Done {| api_key := k |}, with_api ui {| api_key := k |}, t).
Proof.
  intros Hc Hk Henv. unfold _get_api.
  erewrite UM_bind_Done by reflexivity.
  assert ((a ← lift (__init__ environ (Some "")); _ ← set_api a; mret a) ui t
          = (Done {| api_key := k |}, with_api ui {| api_key := k |}, t)) as Hrenew.
  { erewrite UM_bind_Done by (eapply lift_Return, init_from_environment; eauto).
    reflexivity. }
  unfold cache_ok in Hc.
  destruct (api ui) as [[cached] |]; [| exact Hrenew].
  simpl in Hc. apply String.eqb_neq in Hc. rewrite Hc. exact Hrenew.
Qed.

Lemma get_api_without_credential ui t :
  cache_ok ui -> no_credential environ ->
  _get_api environ "" ui t = (Failed (Client (Builtin (ValueError no_api_key))), ui, t).
Proof.
  intros Hc Henv. unfold _get_api.
  erewrite UM_bind_Done by reflexivity.
  assert ((a ← lift (__init__ environ (Some "")); _ ← set_api a; mret a) ui t
          = (Failed (Client (Builtin (ValueError no_api_key))), ui, t)) as Hrenew.
  { erewrite UM_bind_Failed by (apply lift_Raise, init_without_credential, Henv).
    reflexivity. }
  unfold cache_ok in Hc.
  destruct (api ui) as [[cached] |]; [| exact Hrenew].
  simpl in Hc. apply String.eqb_neq in Hc. rewrite Hc. exact Hrenew.
Qed.

Lemma init_shape arg t :
  (exists a, __init__ environ arg t = (Return a, t) /\ api_key a <> "") \/
  __init__ environ arg t = (Raise (Builtin (ValueError no_api_key)), t).
Proof.
  unfold __init__.
  destruct (match arg with
            | Some k => if String.eqb k "" then os_getenv environ "BFL_API_KEY" else arg
            | None => os_getenv environ "BFL_API_KEY"
            end) as [k |]; [| now right].
  destruct (String.eqb k "") eqn:E; [now right |].
  left. eexists. split; [reflexivity |]. simpl. now apply String.eqb_neq.
Qed.

(** [_get_api] sends nothing; the client it returns holds a key and is the
    one it leaves in [self.api]. *)
Lemma get_api_shape key ui t :
  cache_ok ui ->
  (exists a, _get_api environ key ui t = (Done a, with_api ui a, t) /\ api_key a <> "") \/
  (exists e, _get_api environ key ui t = (Failed e, ui, t)).
Proof.
  intros Hok. unfold _get_api. erewrite UM_bind_Done by reflexivity.
  assert ((exists a, (a ← lift (__init__ environ (Some key)); _ ← set_api a; mret a) ui t
                     = (Done a, with_api ui a, t) /\ api_key a <> "") \/
          (exists e, (a ← lift (__init__ environ (Some key)); _ ← set_api a; mret a) ui t
                     = (Failed e, ui, t))) as Hrenew.
  { destruct (init_shape (Some key) t) as [(a & Ha & Hkey) | Hraise].
    - left. exists a. split; [| exact Hkey].
      erewrite UM_bind_Done by (apply lift_Return, Ha). reflexivity.
    - right. eexists.
      erewrite UM_bind_Failed by (apply lift_Raise, Hraise). reflexivity. }
  destruct (api ui) as [[cached] |] eqn:Hc; [| exact Hrenew].
  destruct (negb _); [exact Hrenew |].
  left. eexists. rewrite (with_api_cached _ _ Hc). split; [reflexivity |].
  unfold cache_ok in Hok. now rewrite Hc in Hok.
Qed.

Lemma cache_ok_with_api ui a : api_key a <> "" -> cache_ok (with_api ui a).
Proof. intros H. exact H. Qed.

End GetApi.

(** [_get_api] never hands out a client that holds another key than the
    one of this call. With a non-empty key the client returned, and left in
    [self.api], holds exactly that key, whatever was cached before. With an
    empty key the client holds the key of the environment; without one the
    call raises [ValueError] and leaves the cache as it was. Nothing is
    sent. *)
Theorem get_api_holds_the_key_of_the_call (environ : gmap string string)
    (ui : FluxTrainerUI) (t : list event) :
  (forall key : string, key <> "" ->
     _get_api environ key ui t
     = (Done {| api_key := key |}, with_api ui {| api_key := key |}, t)) /\
  (forall k : string, cache_ok ui -> k <> "" -> environ !! "BFL_API_KEY" = Some k ->
     _get_api environ "" ui t
     = (Done {| api_key := k |}, with_api ui {| api_key := k |}, t)) /\
  (cache_ok ui -> no_credential environ ->
     _get_api environ "" ui t
     = (Failed (Client (Builtin (ValueError no_api_key))), ui, t)).
Proof.
  split; [| split].
  - intros key Hk. now apply get_api_with_key.
  - intros k Hc Hk Henv. now apply get_api_from_environment.
  - intros Hc Henv. now apply get_api_without_credential.
Qed.

Lemma get_api_holds_the_key_of_the_call_witness :
  _get_api ∅ "new-key" Desk.stale []
  = (Done {| api_key := "new-key" |}, with_api Desk.stale {| api_key := "new-key" |}, []) /\
  _get_api {[ "BFL_API_KEY" := "from-env" ]} "" Desk.stale []
  = (Done {| api_key := "from-env" |}, with_api Desk.stale {| api_key := "from-env" |}, []) /\
  _get_api ∅ "" Desk.stale []
  = (Failed (Client (Builtin (ValueError no_api_key))), Desk.stale, []).
Proof.
  split; [| split].
  - apply (get_api_holds_the_key_of_the_call ∅ Desk.stale []). discriminate.
  - apply (get_api_holds_the_key_of_the_call {[ "BFL_API_KEY" := "from-env" ]}
             Desk.stale []).
    + simpl. discriminate.
    + discriminate.
    + reflexivity.
  - apply (get_api_holds_the_key_of_the_call ∅ Desk.stale []).
    + simpl. discriminate.
    + left. reflexivity.
Defined.

Section Wired.

Variable transport : list event -> Request -> Response + RequestException.
Variable environ : gmap string string.
Variable getsize : string -> Z + string.
Variable zip_base64 : list UploadedFile -> string + string.
Variable keys_in_order : dict -> list string.

Lemma get_api_key_typed key ui t :
  get_api_key key ui t
  = (Done (if negb (String.eqb key "") then key else default_api_key ui), ui, t).
Proof. reflexivity. Qed.

(** Without a credential nothing leaves the machine: when the key field
    is empty and neither the page nor the environment has a default, every
    wired handler returns a text and sends no request, whatever the other
    inputs; the state of the interface is left as it was. The listing shows
    the message of [FluxAPI.__init__]. *)
Theorem no_credential_no_request (ui : FluxTrainerUI) (t : list event) :
  cache_ok ui ->
  default_api_key ui = "" ->
  no_credential environ ->
  (forall finetune_id auto_refresh last_status,
     exists out, handle_progress_with_key transport environ finetune_id ""
                   auto_refresh last_status ui t = (Done out, ui, t)) /\
  handle_list_finetunes transport environ keys_in_order "" ui t
  = (Done (message_row (Text [Lit "Error: "; ExcStr (ValueError no_api_key)])), ui, t) /\
  (forall finetune_id,
     exists out, handle_delete_finetune transport environ finetune_id "" ui t
                 = (Done out, ui, t)) /\
  (forall finetune_id prompt finetune_strength endpoint,
     exists out, handle_generation_with_key transport environ finetune_id prompt
                   finetune_strength endpoint "" ui t = (Done out, ui, t)) /\
  (forall files finetune_comment trigger_word mode iterations learning_rate captioning
          priority finetune_type lora_rank,
     exists out, handle_training_with_key transport environ getsize zip_base64 files
                   finetune_comment trigger_word mode iterations learning_rate captioning
                   priority finetune_type lora_rank "" ui t = (Done out, ui, t)).
Proof.
  intros Hc Hd Henv.
  pose proof (get_api_without_credential environ ui t Hc Henv) as Hget.
  repeat match goal with |- _ /\ _ => split end.
  - intros finetune_id auto_refresh last_status.
    unfold handle_progress_with_key.
    erewrite UM_bind_Done by apply get_api_key_typed. simpl. rewrite Hd.
    unfold check_progress_with_state, try_except.
    destruct (String.eqb finetune_id ""); [eexists; reflexivity |].
    erewrite UM_bind_Failed by exact Hget. eexists; reflexivity.
  - unfold handle_list_finetunes.
    erewrite UM_bind_Done by apply get_api_key_typed. simpl. rewrite Hd.
    unfold ui_list_finetunes, try_except.
    erewrite UM_bind_Failed by exact Hget. reflexivity.
  - intros finetune_id. unfold handle_delete_finetune.
    erewrite UM_bind_Done by apply get_api_key_typed. simpl. rewrite Hd.
    unfold ui_delete_finetune, try_except.
    destruct (String.eqb finetune_id ""); [eexists; reflexivity |].
    erewrite UM_bind_Failed by exact Hget. eexists; reflexivity.
  - intros finetune_id prompt finetune_strength endpoint.
    unfold handle_generation_with_key.
    erewrite UM_bind_Done by apply get_api_key_typed. simpl. rewrite Hd.
    unfold _handle_generation, try_except.
    destruct (String.eqb finetune_id ""); [eexists; reflexivity |].
    destruct (String.eqb prompt ""); [eexists; reflexivity |].
    erewrite UM_bind_Failed by exact Hget. eexists; reflexivity.
  - intros files finetune_comment trigger_word mode iterations learning_rate captioning
      priority finetune_type lora_rank.
    unfold handle_training_with_key.
    erewrite UM_bind_Done by apply get_api_key_typed. simpl. rewrite Hd.
    unfold _handle_training, try_except.
    destruct files as [[| f rest] |]; try (eexists; reflexivity).
    destruct (20 <? length (f :: rest))%nat; [eexists; reflexivity |].
    destruct (String.eqb finetune_comment ""); [eexists; reflexivity |].
    erewrite UM_bind_Failed by exact Hget. eexists; reflexivity.
Qed.

End Wired.

Lemma no_credential_no_request_witness :
  handle_list_finetunes Mock.unreachable ∅ (fun _ => []) "" Desk.fresh []
  = (Done (message_row (Text [Lit "Error: "; ExcStr (ValueError no_api_key)])),
     Desk.fresh, []).
Proof.
  apply (no_credential_no_request Mock.unreachable ∅ Desk.getsize Desk.zip_base64
           (fun _ => []) Desk.fresh []).
  - exact I.
  - reflexivity.
  - left. reflexivity.
Defined.

Section Training.

Variable transport : list event -> Request -> Response + RequestException.
Variable environ : gmap string string.
Variable getsize : string -> Z + string.
Variable zip_base64 : list UploadedFile -> string + string.

Lemma get_api_trace key ui t : snd (_get_api environ key ui t) = t.
Proof.
  unfold _get_api. erewrite UM_bind_Done by reflexivity.
  assert (snd ((a ← lift (__init__ environ (Some key)); _ ← set_api a; mret a) ui t) = t)
    as Hrenew.
  { destruct (init_shape environ (Some key) t) as [(a & Ha & _) | Hraise].
    - erewrite UM_bind_Done by (apply lift_Return, Ha). reflexivity.
    - erewrite UM_bind_Failed by (apply lift_Raise, Hraise). reflexivity. }
  destruct (api ui) as [[cached] |]; [| exact Hrenew].
  destruct (negb _); [exact Hrenew | reflexivity].
Qed.

(** File sizes are read from the file system only: the sum does not depend
    on the interface or on the trace, and leaves them alone. *)
Lemma sum_sizes_pure files :
  exists o, forall ui t, sum_sizes getsize files ui t = (o, ui, t).
Proof.
  induction files as [| f rest [o IH]]; simpl.
  - now exists (Done 0%Z).
  - destruct (getsize (file_name f)) as [size | msg].
    + exists (match o with
              | Done total => Done (size + total)%Z
              | Failed e => Failed e
              | Stuck => Stuck
              end).
      intros ui t. unfold mbind, UM_bind. rewrite IH. now destruct o.
    + now exists (Failed (OSError msg)).
Qed.

Lemma create_zip_from_files_pure files :
  exists o,
    (forall ui t, create_zip_from_files getsize zip_base64 files ui t = (o, ui, t)) /\
    (forall zip_data total_size, o = Done (zip_data, total_size) ->
       exists uploaded,
         files = Some uploaded /\ uploaded <> [] /\
         (forall ui t, sum_sizes getsize uploaded ui t = (Done total_size, ui, t)) /\
         (total_size <= 100 * 1024 * 1024)%Z /\
         zip_base64 uploaded = inl zip_data).
Proof.
  unfold create_zip_from_files.
  destruct files as [[| f rest] |];
    try (eexists; split; [intros ui t; reflexivity | discriminate]).
  destruct (sum_sizes_pure (f :: rest)) as [o Hsum].
  destruct o as [total | e |].
  - destruct (total >? 100 * 1024 * 1024)%Z eqn:Hlimit.
    + exists (Failed (Client (Builtin (ValueError "Total file size exceeds 100MB limit")))).
      split; [| discriminate].
      intros ui t. erewrite UM_bind_Done by apply Hsum. now rewrite Hlimit.
    + destruct (zip_base64 (f :: rest)) as [zip_data | msg] eqn:Hzip.
      * exists (Done (zip_data, total)). split.
        -- intros ui t. erewrite UM_bind_Done by apply Hsum. now rewrite Hlimit.
        -- intros z total' [= <- <-]. exists (f :: rest).
           repeat split; [discriminate | exact Hsum | lia | exact Hzip].
      * exists (Failed (OSError msg)). split; [| discriminate].
        intros ui t. erewrite UM_bind_Done by apply Hsum. now rewrite Hlimit.
  - exists (Failed e). split; [| discriminate].
    intros ui t. erewrite UM_bind_Failed by apply Hsum. reflexivity.
  - exists Stuck. split; [| discriminate].
    intros ui t. unfold mbind, UM_bind. now rewrite Hsum.
Qed.

Lemma py_getitem_snd obj key t : snd (py_getitem obj key t) = t.
Proof. unfold py_getitem. repeat case_match; reflexivity. Qed.

Lemma lift_snd {A : Type} (m : M A) ui t : snd (lift m ui t) = snd (m t).
Proof. unfold lift. now destruct (m t) as [[a | e |] t']. Qed.

Section Run.

Variables (files : option (list UploadedFile))
          (finetune_comment trigger_word mode : string) (iterations : Z)
          (learning_rate : spec_float) (captioning : bool)
          (priority finetune_type : string) (lora_rank : Z) (key : string).

Local Abbreviation run :=
  (_handle_training transport environ getsize zip_base64 files finetune_comment
     trigger_word mode iterations learning_rate captioning priority finetune_type
     lora_rank key).

(** The training handler sends at most one request, and only for an
    upload that passed every check: between 1 and 20 files, a description,
    a client for the key of the call, file sizes that could be read and add
    up to at most 100 MB, and an archive that could be built. The request is
    the POST of that archive with the values of the form. In every other
    case nothing is sent. *)
Theorem training_posts_only_checked_uploads (ui : FluxTrainerUI) (t : list event) :
  snd (run ui t) = t \/
  exists (uploaded : list UploadedFile) (zip_data : string) (total_size : Z)
         (a : FluxAPI),
    files = Some uploaded /\
    (1 <= length uploaded <= 20)%nat /\
    finetune_comment <> "" /\
    fst (fst (_get_api environ key ui t)) = Done a /\
    (key <> "" -> a = {| api_key := key |}) /\
    (forall ui0 t0, sum_sizes getsize uploaded ui0 t0 = (Done total_size, ui0, t0)) /\
    (total_size <= 100 * 1024 * 1024)%Z /\
    zip_base64 uploaded = inl zip_data /\
    snd (run ui t)
    = t ++ [Sent (finetune_post a zip_data finetune_comment trigger_word mode iterations
                    learning_rate captioning priority finetune_type lora_rank)].
Proof.
  unfold _handle_training, try_except.
  destruct files as [[| f rest] |] eqn:Hfiles; try (now left).
  destruct (20 <? length (f :: rest))%nat eqn:Hmany; [now left |].
  destruct (String.eqb finetune_comment "") eqn:Hcomment; [now left |].
  pose proof (get_api_trace key ui t) as Htrace.
  destruct (_get_api environ key ui t) as [[[a | e |] ui1] t1] eqn:Hget;
    simpl in Htrace; subst t1.
  2: { left. erewrite UM_bind_Failed by exact Hget.
       destruct e as [[msg r | b] | n | msg]; reflexivity. }
  2: { left. unfold mbind at 1. unfold UM_bind at 1. now rewrite Hget. }
  erewrite UM_bind_Done by exact Hget.
  destruct (create_zip_from_files_pure (Some (f :: rest))) as (o & Hzip & Hdone).
  assert (try_except_any
            (z ← create_zip_from_files getsize zip_base64 (Some (f :: rest)); mret (inl z))
            (fun msg => mret (inr (Text (Lit "Error preparing files: " :: msg)))) ui1 t
          = (match o with
             | Done z => Done (inl z)
             | Failed e => Done (inr (Text (Lit "Error preparing files: " :: str_of e)))
             | Stuck => Stuck
             end, ui1, t)) as Htry.
  { unfold try_except_any, mbind, UM_bind. rewrite Hzip. now destruct o. }
  destruct o as [[zip_data total_size] | e |].
  - erewrite UM_bind_Done by exact Htry.
    right. exists (f :: rest), zip_data, total_size, a.
    destruct (Hdone zip_data total_size eq_refl) as (uploaded & [= <-] & _ & Hsum & Hlimit & Hz).
    repeat split.
    + simpl. lia.
    + apply Nat.ltb_ge in Hmany. exact Hmany.
    + now apply String.eqb_neq.
    + intros Hk. rewrite (get_api_with_key environ key ui t Hk) in Hget.
      now inversion Hget.
    + exact Hsum.
    + exact Hlimit.
    + exact Hz.
    + pose proof (request_finetuning_sends_once transport a zip_data finetune_comment
                    trigger_word mode iterations learning_rate captioning priority
                    finetune_type lora_rank t) as Hsent.
      unfold mbind at 1. unfold UM_bind at 1.
      pose proof (lift_snd (request_finetuning transport a zip_data finetune_comment
                    trigger_word mode iterations learning_rate captioning priority
                    finetune_type lora_rank) ui1 t) as Hlift.
      rewrite Hsent in Hlift.
      destruct (lift _ ui1 t) as [[[response | e |] ui2] t2]; simpl in Hlift; subst t2.
      * unfold mbind, UM_bind.
        pose proof (lift_snd (py_getitem response "id") ui2
                      (t ++ [Sent (finetune_post a zip_data finetune_comment trigger_word
                                     mode iterations learning_rate captioning priority
                                     finetune_type lora_rank)])) as Hid.
        rewrite py_getitem_snd in Hid.
        destruct (lift (py_getitem response "id") ui2 _) as [[[id | e |] ui3] t3];
          simpl in Hid; subst t3; [reflexivity | | reflexivity].
        destruct e as [[msg r | b] | n | msg]; reflexivity.
      * destruct e as [[msg r | b] | n | msg]; reflexivity.
      * reflexivity.
  - left. erewrite UM_bind_Done by exact Htry. reflexivity.
  - left. unfold mbind at 1. unfold UM_bind at 1. now rewrite Htry.
Qed.

End Run.

(** A training that goes through shows the job id: for an upload that
    passes the checks, when the service answers the POST with an object that
    holds a job id under ['id'], or under ['finetune_id'] when ['id'] is
    missing or empty, the handler shows "Training started!" with that id,
    has sent that one request, and keeps the client of this key. *)
Theorem training_shows_the_job_id (uploaded : list UploadedFile)
    (finetune_comment trigger_word mode : string) (iterations : Z)
    (learning_rate : spec_float) (captioning : bool)
    (priority finetune_type : string) (lora_rank : Z) (key : string)
    (ui : FluxTrainerUI) (t : list event)
    (zip_data : string) (total_size : Z) (r : Response) (fields : dict) (id : value) :
  let post := finetune_post {| api_key := key |} zip_data finetune_comment trigger_word
                mode iterations learning_rate captioning priority finetune_type
                lora_rank in
  (1 <= length uploaded <= 20)%nat ->
  finetune_comment <> "" ->
  key <> "" ->
  (forall ui0 t0, sum_sizes getsize uploaded ui0 t0 = (Done total_size, ui0, t0)) ->
  (total_size <= 100 * 1024 * 1024)%Z ->
  zip_base64 uploaded = inl zip_data ->
  transport t post = inl r ->
  ok r = true ->
  parse_response r = Decoded (VDict fields) ->
  truthy id = true ->
  fields !! "id" = Some id \/
  (truthy (default VNone (fields !! "id")) = false /\ fields !! "finetune_id" = Some id) ->
  _handle_training transport environ getsize zip_base64 (Some uploaded) finetune_comment
    trigger_word mode iterations learning_rate captioning priority finetune_type
    lora_rank key ui t
  = (Done (Text [Lit ("Training started!" +:+ newline +:+ "Finetune ID: ");
                 Str id;
                 Lit (newline +:+ "Switch to the Progress tab to monitor status.")]),
     with_api ui {| api_key := key |},
     t ++ [Sent post]).
Proof.
  intros post Hlen Hcomment Hkey Hsum Hlimit Hzip Hreply Hok Hparse Hid Hfield.
  unfold _handle_training, try_except.
  destruct uploaded as [| f rest]; [simpl in Hlen; lia |].
  replace (20 <? length (f :: rest))%nat with false
    by (symmetry; apply Nat.ltb_ge; lia).
  apply String.eqb_neq in Hcomment. rewrite Hcomment.
  erewrite UM_bind_Done by (apply get_api_with_key, Hkey).
  assert (try_except_any
            (z ← create_zip_from_files getsize zip_base64 (Some (f :: rest)); mret (inl z))
            (fun msg => mret (inr (Text (Lit "Error preparing files: " :: msg))))
            (with_api ui {| api_key := key |}) t
          = (Done (inl (zip_data, total_size)), with_api ui {| api_key := key |}, t))
    as Htry.
  { unfold try_except_any, create_zip_from_files.
    erewrite UM_bind_Done.
    2: { erewrite UM_bind_Done by apply Hsum.
         replace (total_size >? 100 * 1024 * 1024)%Z with false
           by (symmetry; rewrite Z.gtb_ltb; apply Z.ltb_ge; lia).
         rewrite Hzip. reflexivity. }
    reflexivity. }
  erewrite UM_bind_Done by exact Htry.
  pose proof (request_finetuning_on_object transport {| api_key := key |} zip_data
                finetune_comment trigger_word mode iterations learning_rate captioning
                priority finetune_type lora_rank t r fields Hreply Hok Hparse) as Hrun.
  assert ((let id0 := default VNone (fields !! "id") in
           if truthy id0 then id0 else default VNone (fields !! "finetune_id")) = id)
    as Hcanon.
  { destruct Hfield as [Hfield | [Hempty Hfield]].
    - rewrite Hfield. simpl. now rewrite Hid.
    - simpl. rewrite Hempty, Hfield. reflexivity. }
  simpl in Hrun. simpl in Hcanon. rewrite Hcanon, Hid in Hrun.
  cbv beta iota.
  erewrite UM_bind_Done by (apply lift_Return, Hrun).
  erewrite UM_bind_Done.
  2: { apply lift_Return. unfold py_getitem. rewrite lookup_insert_eq. reflexivity. }
  reflexivity.
Qed.

End Training.

Lemma training_shows_the_job_id_witness :
  _handle_training (Mock.replies (Script.created "finetune_id" "ft-2")) ∅ Desk.getsize
    Desk.zip_base64 (Some [Desk.photo]) "my dog" "TOK" "character" 300
    Script.learning_rate_1e_5 true "quality" "lora" 16 "secret" Desk.stale []
  = (Done (Text [Lit ("Training started!" +:+ newline +:+ "Finetune ID: ");
                 Str (VStr "ft-2");
                 Lit (newline +:+ "Switch to the Progress tab to monitor status.")]),
     with_api Desk.stale {| api_key := "secret" |},
     [] ++ [Sent (finetune_post {| api_key := "secret" |} "UEsDBBQAAAAIAA==" "my dog" "TOK"
                    "character" 300 Script.learning_rate_1e_5 true "quality" "lora" 16)]).
Proof.
  apply (training_shows_the_job_id (Mock.replies (Script.created "finetune_id" "ft-2")) ∅
           Desk.getsize Desk.zip_base64 [Desk.photo] "my dog" "TOK" "character" 300
           Script.learning_rate_1e_5 true "quality" "lora" 16 "secret" Desk.stale []
           "UEsDBBQAAAAIAA==" 1024 (Script.created "finetune_id" "ft-2")
           {[ "finetune_id" := VStr "ft-2" ]} (VStr "ft-2")).
  - simpl. lia.
  - discriminate.
  - discriminate.
  - reflexivity.
  - lia.
  - reflexivity.
  - reflexivity.
  - reflexivity.
  - reflexivity.
  - reflexivity.
  - right. split; reflexivity.
Defined.

Section GenerationDesk.

Variable transport : list event -> Request -> Response + RequestException.
Variable environ : gmap string string.

(** A generation that goes through shows the image: when the
    submission returns a job id, the first [k] polls (k < 30) find the job
    neither ready nor failed, and the next poll answers "Ready" with a
    result that holds ['sample'], the handler returns that sample itself
    (not a text), after exactly k waits of 2 seconds, and keeps the client
    of this key. *)
Theorem generation_shows_the_sample (k : nat) (d nested : dict) (sample : value)
    (finetune_id prompt : string) (finetune_strength : spec_float)
    (endpoint key : string) (ui : FluxTrainerUI) (t : list event)
    (inference_id : value) :
  let a := {| api_key := key |} in
  let submit := submit_request a finetune_id prompt finetune_strength endpoint ∅ in
  let poll := poll_request a inference_id in
  finetune_id <> "" ->
  prompt <> "" ->
  key <> "" ->
  (k < 30)%nat ->
  submission_returns transport a finetune_id prompt finetune_strength endpoint ∅ t
    inference_id ->
  still_waiting transport a finetune_id prompt finetune_strength endpoint ∅ t
    inference_id k ->
  poll_answers transport a inference_id (t ++ Sent submit :: waiting_rounds poll k) d ->
  d !! "status" = Some (VStr "Ready") ->
  d !! "result" = Some (VDict nested) ->
  nested !! "sample" = Some sample ->
  _handle_generation transport environ finetune_id prompt finetune_strength endpoint key
    ui t
  = (Done (Plain sample), with_api ui a,
     t ++ Sent submit :: waiting_rounds poll k ++ [Sent poll]).
Proof.
  intros a submit poll Hid Hprompt Hkey Hk Hsubmit Hwait Hpoll Hstatus Hresult Hsample.
  unfold _handle_generation, try_except.
  apply String.eqb_neq in Hid, Hprompt. rewrite Hid, Hprompt.
  erewrite UM_bind_Done by (apply get_api_with_key, Hkey).
  assert (generate_image transport a finetune_id prompt finetune_strength endpoint ∅ t
          = (Return (VDict nested),
             t ++ Sent submit :: waiting_rounds poll k ++ [Sent poll])) as Hrun.
  { rewrite (generate_image_after_waiting transport a finetune_id prompt finetune_strength
               endpoint ∅ t inference_id k) by (try lia; assumption).
    apply reraise_as_flux_Return.
    rewrite (poll_step_ready transport a inference_id (30 - k) (Z.of_nat k) _ d nested).
    - now rewrite <- app_assoc.
    - unfold max_attempts. lia.
    - exact Hpoll.
    - now apply ready_status.
    - exact Hresult.
    - now rewrite Hsample. }
  erewrite UM_bind_Done by (apply lift_Return, Hrun).
  erewrite UM_bind_Done.
  2: { apply lift_Return. unfold py_getitem. rewrite Hsample. reflexivity. }
  reflexivity.
Qed.

End GenerationDesk.

Lemma generation_shows_the_sample_witness :
  _handle_generation
    (Script.scripted (Script.created "id" "inf-1")
       [Script.status_reply "Pending";
        Script.ready_reply "https://example.org/sample.jpg"]
       (Script.status_reply "Pending"))
    ∅ "ft-1" "a photo of TOK" Script.strength_1_2 Script.endpoint "secret" Desk.fresh []
  = (Done (Plain (VStr "https://example.org/sample.jpg")),
     with_api Desk.fresh {| api_key := "secret" |},
     [] ++ Sent (submit_request {| api_key := "secret" |} "ft-1" "a photo of TOK"
                   Script.strength_1_2 Script.endpoint ∅)
        :: waiting_rounds (poll_request {| api_key := "secret" |} (VStr "inf-1")) 1
           ++ [Sent (poll_request {| api_key := "secret" |} (VStr "inf-1"))]).
Proof.
  apply (generation_shows_the_sample
           (Script.scripted (Script.created "id" "inf-1")
              [Script.status_reply "Pending";
               Script.ready_reply "https://example.org/sample.jpg"]
              (Script.status_reply "Pending"))
           ∅ 1
           {[ "status" := VStr "Ready";
              "result" := VDict {[ "sample" := VStr "https://example.org/sample.jpg" ]} ]}
           {[ "sample" := VStr "https://example.org/sample.jpg" ]}
           (VStr "https://example.org/sample.jpg")
           "ft-1" "a photo of TOK" Script.strength_1_2 Script.endpoint "secret"
           Desk.fresh [] (VStr "inf-1")).
  - discriminate.
  - discriminate.
  - discriminate.
  - lia.
  - exists {[ "id" := VStr "inf-1" ]}. split; [reflexivity | split; reflexivity].
  - intros j Hj. assert (j = 0%nat) as -> by lia.
    exists {[ "status" := VStr "Pending" ]}. split; [| reflexivity].
    exists (Script.status_reply "Pending"). split; [reflexivity | split; reflexivity].
  - exists (Script.ready_reply "https://example.org/sample.jpg").
    split; [reflexivity | split; reflexivity].
  - reflexivity.
  - reflexivity.
  - reflexivity.
Defined.

Section ProgressDesk.

Variable transport : list event -> Request -> Response + RequestException.
Variable environ : gmap string string.

Lemma in_auto_refresh_states_iff (status : value) :
  in_strs status AUTO_REFRESH_STATES = true
  <-> exists s : string, status = VStr s /\ s ∈ AUTO_REFRESH_STATES.
Proof.
  unfold in_strs, AUTO_REFRESH_STATES. split.
  - destruct status as [| b | n | x | s | items | d]; simpl; try discriminate.
    intros H. exists s. split; [reflexivity |].
    repeat (apply orb_prop in H as [H | H];
            [apply String.eqb_eq in H; subst; set_solver |]).
    discriminate.
  - intros (s & -> & Hs). simpl.
    repeat (apply elem_of_cons in Hs as [-> | Hs]; [reflexivity |]).
    now apply elem_of_nil in Hs.
Qed.

Lemma get_progress_snd self finetune_id t :
  snd (get_progress transport self finetune_id t)
  = t ++ [Sent (poll_request self finetune_id)].
Proof. apply make_request_sends_once. Qed.

Section Run.

Variables (finetune_id key : string) (auto_refresh : bool) (last_status : value).

Local Abbreviation run :=
  (check_progress_with_state transport environ finetune_id key auto_refresh last_status).

(** What the [try] block of [check_progress_with_state] gives when it
    returns. *)
Lemma check_progress_returns ui t out flag status ui' t' :
  run ui t = (Done (out, flag, status), ui', t') ->
  (flag = false /\ status = VStr EmptyString) \/
  (flag = in_strs status AUTO_REFRESH_STATES /\
   exists (a : FluxAPI) (progress : value),
     t' = t ++ [Sent (poll_request a (VStr finetune_id))] /\
     out = Text ([Lit "Status: "; Str status; Lit (newline +:+ "Progress: ");
                  Str progress; Lit newline] ++
                 (if eq_str status "Ready" then [Lit STATUS_READY_NOTE]
                  else if in_strs status AUTO_REFRESH_STATES then
                    [Lit STATUS_REFRESH_NOTE_1; Str (VInt REFRESH_INTERVAL);
                     Lit " seconds..."]
                  else if eq_str status "Failed" then [Lit STATUS_FAILED_NOTE]
                  else []))).
Proof.
  unfold check_progress_with_state, try_except.
  destruct (String.eqb finetune_id ""); [intros [= <- <- <- <- <-]; now left |].
  pose proof (get_api_trace environ key ui t) as Htrace.
  destruct (_get_api environ key ui t) as [[[a | e |] ui1] t1] eqn:Hget;
    simpl in Htrace; subst t1.
  2: { erewrite UM_bind_Failed by exact Hget.
       destruct e as [[msg r | b] | n | msg]; intros [= <- <- <- <- <-]; now left. }
  2: { unfold mbind at 1. unfold UM_bind at 1. rewrite Hget. discriminate. }
  erewrite UM_bind_Done by exact Hget.
  pose proof (get_progress_snd a (VStr finetune_id) t) as Hsent.
  destruct (get_progress transport a (VStr finetune_id) t) as [[result | e |] t2] eqn:Hprog;
    simpl in Hsent; subst t2.
  2: { erewrite UM_bind_Failed by (apply lift_Raise, Hprog).
       destruct e as [msg r | b]; intros [= <- <- <- <- <-]; now left. }
  2: { unfold mbind at 1. unfold UM_bind at 1. unfold lift. rewrite Hprog. discriminate. }
  erewrite UM_bind_Done by (apply lift_Return, Hprog).
  destruct result as [| b | n | x | s | items | d];
    try (intros [= <- <- <- <- <-]; now left).
  unfold py_getitem at 1.
  destruct (d !! "status") as [status0 |] eqn:Hstatus;
    [| intros [= <- <- <- <- <-]; now left].
  erewrite UM_bind_Done by (apply lift_Return; reflexivity).
  erewrite UM_bind_Done by (apply lift_Return, py_get_dict).
  destruct status0 as [| b | n | x | s | items | d'];
    try (intros [= <- <- <- <- <-]; now left);
    unfold in_auto_refresh_states;
    (erewrite UM_bind_Done by reflexivity).
  all: try (simpl; intros [= <- <- <- <- <-]; right; split; [reflexivity |];
            eexists _, _; split; reflexivity).
  simpl eq_str.
  destruct (String.eqb s "Ready") eqn:Hready;
    destruct (in_strs (VStr s) AUTO_REFRESH_STATES) eqn:Hin;
    destruct (String.eqb s "Failed") eqn:Hfailed;
    unfold mbind, UM_bind, mret, UM_ret;
    intros [= <- <- <- <- <-]; right; (split; [now rewrite Hin |]);
    eexists _, _; (split; [reflexivity |]);
    simpl eq_str; rewrite ?Hready, ?Hin, ?Hfailed; reflexivity.
Qed.


End Run.

End ProgressDesk.


Section ManageDesk.

Variable transport : list event -> Request -> Response + RequestException.
Variable environ : gmap string string.
Variable keys_in_order : dict -> list string.

Lemma UM_bind_inv {A B : Type} (m : UM A) (f : A -> UM B) ui t b ui' t' :
  (m ≫= f) ui t = (Done b, ui', t') ->
  exists a ui1 t1, m ui t = (Done a, ui1, t1) /\ f a ui1 t1 = (Done b, ui', t').
Proof.
  unfold mbind, UM_bind.
  destruct (m ui t) as [[[a | e |] ui1] t1]; try discriminate.
  intros H. now exists a, ui1, t1.
Qed.

Lemma finetune_id_of_item ft t :
  is_job_item ft = true -> finetune_id_of ft VNone t = (Return (listed_id ft), t).
Proof. destruct ft; try discriminate; reflexivity. Qed.

Lemma finetune_id_of_item_again ft t :
  is_job_item ft = true -> truthy (listed_id ft) = true ->
  finetune_id_of ft (VStr "Unknown") t = (Return (listed_id ft), t).
Proof.
  destruct ft as [| b | n | x | s | items | d]; try discriminate; [reflexivity |].
  intros _. simpl. unfold py_get, mret, M_ret.
  destruct (d !! "id"); [reflexivity | discriminate].
Qed.

Lemma get_finetune_details_of_snd self finetune_id t :
  snd (get_finetune_details_of transport self finetune_id t)
  = t ++ [Sent (details_request_of self finetune_id)].
Proof.
  unfold get_finetune_details_of.
  pose proof (make_request_sends_once transport self "GET" "finetune_details"
                {[ "params" := VDict {[ "finetune_id" := finetune_id ]} ]} t) as Hsent.
  unfold mbind, M_bind.
  destruct (_make_request _ _ _ _ _ t) as [[response | e |] t1]; simpl in *; subst t1;
    [| reflexivity | reflexivity].
  now destruct response.
Qed.

Lemma get_finetune_details_of_returns self finetune_id t details t' :
  get_finetune_details_of transport self finetune_id t = (Return details, t') ->
  exists d : dict, details = VDict d.
Proof.
  unfold get_finetune_details_of, mbind, M_bind.
  destruct (_make_request _ _ _ _ _ t) as [[response | e |] t1]; try discriminate.
  destruct response; intros [= <- _]; eauto.
Qed.

(** One turn of the loop of the listing, for an item that is a [str] or an
    object. *)
Lemma list_rows_step api ft rest rows ui t :
  is_job_item ft = true ->
  list_rows transport api (ft :: rest) rows ui t
  = if truthy (listed_id ft) then
      list_rows transport api rest
        (rows ++ [Plain (listed_id ft) ::
                  match get_finetune_details_of transport api (listed_id ft) t with
                  | (Return (VDict d), _) =>
                      [Plain (default (VStr "N/A") (d !! "finetune_comment"));
                       Plain (default (VStr "N/A") (d !! "status"));
                       Plain (default (VStr "N/A") (d !! "created_at"))]
                  | _ => [Plain (VStr "Error getting details"); Plain (VStr "N/A");
                          Plain (VStr "N/A")]
                  end])
        ui (t ++ [Sent (details_request_of api (listed_id ft))])
    else list_rows transport api rest rows ui t.
Proof.
  intros Hitem. cbn [list_rows].
  unfold mbind at 1. unfold UM_bind at 1.
  unfold try_except_any.
  erewrite UM_bind_Done by (apply lift_Return, finetune_id_of_item, Hitem).
  destruct (truthy (listed_id ft)) eqn:Htruthy; [| reflexivity].
  change (negb true) with false. cbv iota.
  pose proof (get_finetune_details_of_snd api (listed_id ft) t) as Hsent.
  pose proof (terminates_get_finetune_details_of transport api (listed_id ft) t) as Hfuel.
  destruct (get_finetune_details_of transport api (listed_id ft) t)
    as [[details | e |] t1] eqn:Hdetails; simpl in Hsent, Hfuel; subst t1;
    [| | congruence].
  - destruct (get_finetune_details_of_returns _ _ _ _ _ Hdetails) as [d ->].
    erewrite UM_bind_Done by (apply lift_Return, Hdetails).
    reflexivity.
  - erewrite UM_bind_Failed by (apply lift_Raise, Hdetails).
    erewrite UM_bind_Done
      by (apply lift_Return, finetune_id_of_item_again; assumption).
    reflexivity.
Qed.

Lemma listed_ids_cons ft rest :
  listed_ids (ft :: rest)
  = if truthy (listed_id ft) then listed_id ft :: listed_ids rest else listed_ids rest.
Proof. reflexivity. Qed.

Lemma list_rows_of_items api items :
  Forall (fun ft => is_job_item ft = true) items ->
  forall rows ui t, exists new,
    list_rows transport api items rows ui t
    = (Done (rows ++ new), ui,
       t ++ (Sent ∘ details_request_of api <$> listed_ids items)) /\
    head <$> new = (Some ∘ Plain) <$> listed_ids items /\
    Forall (fun row => length row = 4%nat) new.
Proof.
  induction 1 as [| ft rest Hitem _ IH]; intros rows ui t.
  - exists []. simpl. rewrite !app_nil_r. repeat split. constructor.
  - rewrite list_rows_step by exact Hitem. rewrite listed_ids_cons.
    destruct (truthy (listed_id ft)); [| apply IH].
    match goal with |- context [list_rows _ _ _ (rows ++ [?r]) _ ?t1] =>
      destruct (IH (rows ++ [r]) ui t1) as (new & Hrun & Hids & Hshape);
      exists (r :: new) end.
    split; [| split].
    + rewrite Hrun. rewrite <- !app_assoc. reflexivity.
    + rewrite !fmap_cons, Hids. reflexivity.
    + constructor; [| exact Hshape].
      now destruct (get_finetune_details_of _ _ _ _) as [[[| | | | | | d] | |] ?].
Qed.

(** The listing has one row for every job of the answer, whatever
    happens to the requests for details. When the service answers the listing
    with an object whose ['finetunes'] is a list of ids and of objects, the
    handler asks the details of every id Python takes as true, once each and
    in the order of the list, and the table has one row of four cells for
    each of these ids, in that order, with the id as first cell. A list
    without such an id gives the row "No finetunes found". *)
Theorem listing_has_a_row_for_every_job (key : string) (ui : FluxTrainerUI)
    (t : list event) (r : Response) (fields : dict) (items : list value) :
  let a := {| api_key := key |} in
  key <> "" ->
  transport t (request_for a "GET" "my_finetunes" ∅) = inl r ->
  ok r = true ->
  parse_response r = Decoded (VDict fields) ->
  fields !! "finetunes" = Some (VList items) ->
  Forall (fun ft => is_job_item ft = true) items ->
  exists rows : list (list shown),
    ui_list_finetunes transport environ keys_in_order key ui t
    = (Done rows, with_api ui a,
       t ++ Sent (request_for a "GET" "my_finetunes" ∅)
         :: (Sent ∘ details_request_of a <$> listed_ids items)) /\
    Forall (fun row => length row = 4%nat) rows /\
    match listed_ids items with
    | [] => rows = message_row (Plain (VStr "No finetunes found"))
    | ids => head <$> rows = (Some ∘ Plain) <$> ids
    end.
Proof.
  intros a Hkey Hreply Hok Hparse Hfinetunes Hitems.
  unfold ui_list_finetunes, try_except.
  erewrite UM_bind_Done by (apply get_api_with_key, Hkey).
  erewrite UM_bind_Done.
  2: { apply lift_Return. unfold list_finetunes.
       apply (make_request_returns transport a "GET" "my_finetunes" ∅ t r (VDict fields));
         [exact Hreply | | exact Hparse | exact Hok].
       intros t'. now apply log_request_details_no_json. }
  erewrite UM_bind_Done by (apply lift_Return, py_get_dict).
  rewrite Hfinetunes. simpl default.
  erewrite UM_bind_Done by (apply lift_Return; reflexivity).
  erewrite UM_bind_Done by (apply lift_Return; reflexivity).
  destruct (list_rows_of_items a items Hitems [] (with_api ui a)
              (t ++ [Sent (request_for a "GET" "my_finetunes" ∅)]))
    as (new & Hrun & Hids & Hshape).
  erewrite UM_bind_Done by exact Hrun.
  rewrite <- app_assoc. simpl app.
  destruct new as [| row new].
  - exists (message_row (Plain (VStr "No finetunes found"))).
    split; [reflexivity |]. split; [repeat constructor |].
    destruct (listed_ids items); [reflexivity | discriminate].
  - exists (row :: new). split; [reflexivity |]. split; [exact Hshape |].
    destruct (listed_ids items); [discriminate | exact Hids].
Qed.

Lemma list_rows_turn api ft rows ui t rows1 ui1 t1 :
  try_except_any (
      ft_id ← lift (finetune_id_of ft VNone);
      if negb (truthy ft_id) then mret rows
      else
        details ← lift (get_finetune_details_of transport api ft_id);
        match details with
        | VDict _ =>
            comment ← lift (py_get details "finetune_comment" (VStr "N/A"));
            status ← lift (py_get details "status" (VStr "N/A"));
            created ← lift (py_get details "created_at" (VStr "N/A"));
            mret (rows ++ [[Plain ft_id; Plain comment; Plain status; Plain created]])
        | _ =>
            mret (rows ++ [[Plain ft_id; Plain (VStr "Error: Invalid details format");
                            Plain (VStr "N/A"); Plain (VStr "N/A")]])
        end)
    (fun _ =>
       ft_id ← lift (finetune_id_of ft (VStr "Unknown"));
       mret (rows ++ [[Plain ft_id; Plain (VStr "Error getting details");
                       Plain (VStr "N/A"); Plain (VStr "N/A")]]))
    ui t = (Done rows1, ui1, t1) ->
  rows1 = rows \/ exists row, length row = 4%nat /\ rows1 = rows ++ [row].
Proof.
  unfold try_except_any, mbind, UM_bind, lift, mret, UM_ret.
  destruct (finetune_id_of ft VNone t) as [[ft_id | e |] t2].
  - destruct (negb (truthy ft_id)); [intros [= <- _ _]; now left |].
    destruct (get_finetune_details_of transport api ft_id t2) as [[details | e |] t3].
    + destruct details; simpl; intros [= <- _ _]; right; eexists;
        (split; [| reflexivity]); reflexivity.
    + destruct (finetune_id_of ft (VStr "Unknown") t3) as [[id | e' |] t4];
        try discriminate.
      intros [= <- _ _]. right. eexists. split; [| reflexivity]. reflexivity.
    + discriminate.
  - destruct (finetune_id_of ft (VStr "Unknown") t2) as [[id | e' |] t4];
      try discriminate.
    intros [= <- _ _]. right. eexists. split; [| reflexivity]. reflexivity.
  - discriminate.
Qed.

Lemma list_rows_keeps_the_shape api items :
  forall rows ui t rows' ui' t',
    list_rows transport api items rows ui t = (Done rows', ui', t') ->
    Forall (fun row => length row = 4%nat) rows ->
    Forall (fun row => length row = 4%nat) rows'.
Proof.
  induction items as [| ft rest IH]; intros rows ui t rows' ui' t'.
  - intros [= <- _ _]. auto.
  - cbn [list_rows]. intros Hrun Hshape.
    apply UM_bind_inv in Hrun as (rows1 & ui1 & t1 & Hturn & Hrest).
    apply (IH _ _ _ _ _ _ Hrest).
    apply list_rows_turn in Hturn as [-> | (row & Hrow & ->)]; [exact Hshape |].
    apply Forall_app. split; [exact Hshape |]. now constructor.
Qed.

Lemma ui_list_finetunes_always_done key :
  always_done (ui_list_finetunes transport environ keys_in_order key).
Proof.
  apply try_except_always_done; try (intros; apply always_done_ret).
  apply settles_bind; [apply settles_get_api |]. intros a.
  apply settles_bind; [apply settles_lift, terminates_make_request |]. intros response.
  apply settles_bind; [apply settles_lift, terminates_py_get |]. intros finetunes.
  apply settles_bind; [apply settles_lift, terminates_py_len |]. intros _.
  apply settles_bind; [apply settles_lift, terminates_py_iter |]. intros items.
  apply settles_bind; [apply settles_list_rows |]. intros rows.
  destruct rows; apply settles_ret.
Qed.

Lemma message_row_is_table message : is_table (message_row message).
Proof. split; [discriminate | repeat constructor]. Qed.

(** What the listing gives is always a table: for every key, every
    state of the interface and every service, the handler returns at least
    one row, and every row has the four cells of the headers. Since the
    handler never raises, the periodic refresh gives the same table: its
    [except] branch, which would clear the table, is never taken. *)
Theorem listing_is_always_a_table (key : string) (ui : FluxTrainerUI) (t : list event) :
  exists (rows : list (list shown)) (ui' : FluxTrainerUI) (t' : list event),
    ui_list_finetunes transport environ keys_in_order key ui t = (Done rows, ui', t') /\
    is_table rows /\
    auto_refresh_list transport environ keys_in_order key ui t
    = ui_list_finetunes transport environ keys_in_order
        (if negb (String.eqb key "") then key else default_api_key ui) ui t.
Proof.
  destruct (ui_list_finetunes_always_done key ui t) as (rows & ui' & t' & Hrun).
  exists rows, ui', t'. split; [exact Hrun |]. split.
  - revert Hrun. unfold ui_list_finetunes, try_except.
    match goal with |- context [let '(_, _) := ?body ui t in _] =>
      destruct (body ui t) as [[[rows0 | e |] ui1] t1] eqn:Hbody end.
    + intros [= <- _ _].
      apply UM_bind_inv in Hbody as (a & ? & ? & _ & Hbody).
      apply UM_bind_inv in Hbody as (response & ? & ? & _ & Hbody).
      apply UM_bind_inv in Hbody as (finetunes & ? & ? & _ & Hbody).
      apply UM_bind_inv in Hbody as (n & ? & ? & _ & Hbody).
      apply UM_bind_inv in Hbody as (items & ? & ? & _ & Hbody).
      apply UM_bind_inv in Hbody as (rows1 & ? & ? & Hrows & Hbody).
      apply list_rows_keeps_the_shape in Hrows; [| constructor].
      destruct rows1 as [| row rows1]; revert Hbody; intros [= <-].
      * apply message_row_is_table.
      * split; [discriminate | exact Hrows].
    + destruct e as [[msg r | b] | n | msg]; intros [= <- _ _];
        apply message_row_is_table.
    + discriminate.
  - unfold auto_refresh_list. erewrite UM_bind_Done by reflexivity.
    unfold try_except_any.
    destruct (ui_list_finetunes_always_done
                (if negb (String.eqb key "") then key else default_api_key ui) ui t)
      as (rows2 & ui2 & t2 & Hrun2).
    now rewrite Hrun2.
Qed.

End ManageDesk.

Lemma listing_has_a_row_for_every_job_witness :
  exists rows : list (list shown),
    ui_list_finetunes Desk.listing_only ∅ (fun _ => []) "secret" Desk.fresh []
    = (Done rows, with_api Desk.fresh {| api_key := "secret" |},
       [] ++ Sent (request_for {| api_key := "secret" |} "GET" "my_finetunes" ∅)
          :: (Sent ∘ details_request_of {| api_key := "secret" |}
                <$> listed_ids [VStr "ft-1"; VDict {[ "id" := VStr "ft-2" ]}; VDict ∅])) /\
    Forall (fun row => length row = 4%nat) rows /\
    head <$> rows = (Some ∘ Plain) <$> [VStr "ft-1"; VStr "ft-2"].
Proof.
  refine (listing_has_a_row_for_every_job Desk.listing_only ∅ (fun _ => []) "secret"
            Desk.fresh [] Desk.jobs
            {[ "finetunes" := VList [VStr "ft-1"; VDict {[ "id" := VStr "ft-2" ]}; VDict ∅] ]}
            [VStr "ft-1"; VDict {[ "id" := VStr "ft-2" ]}; VDict ∅] _ _ _ _ _ _).
  - discriminate.
  - reflexivity.
  - reflexivity.
  - reflexivity.
  - reflexivity.
  - repeat constructor.
Defined.

(** ** What the client returns comes from the service *)

Section Postconditions.

Variable transport : list event -> Request -> Response + RequestException.
Variable self : FluxAPI.

Lemma log_request_details_snd kwargs t : snd (log_request_details kwargs t) = t.
Proof.
  unfold log_request_details.
  destruct (kwargs !! "json") as [[| b | n | x | s | items | payload] |]; try reflexivity.
  destruct (truthy (VDict payload)); [| reflexivity].
  destruct (payload !! "file_data") as [file_data |]; [| reflexivity].
  unfold mbind, M_bind, py_len. now destruct file_data.
Qed.

(** [_make_request] returns only what an [ok] response decodes to. *)
Lemma make_request_Return_inv method endpoint kwargs t v t' :
  _make_request transport self method endpoint kwargs t = (Return v, t') ->
  exists r : Response,
    transport t (request_for self method endpoint kwargs) = inl r /\
    ok r = true /\
    parse_response r = Decoded v /\
    t' = t ++ [Sent (request_for self method endpoint kwargs)].
Proof.
  unfold _make_request, requests_request.
  unfold mbind at 1. unfold M_bind at 1.
  fold (request_for self method endpoint kwargs).
  destruct (transport t (request_for self method endpoint kwargs)) as [r | e] eqn:Hr;
    [| discriminate].
  unfold mbind at 1. unfold M_bind at 1.
  pose proof (log_request_details_snd kwargs
                (t ++ [Sent (request_for self method endpoint kwargs)])) as Hlog.
  destruct (log_request_details kwargs _) as [[[] | e |] t1]; simpl in Hlog; subst t1;
    try discriminate.
  destruct (parse_response r) as [json | msg] eqn:Hparse; [| discriminate].
  destruct (ok r) eqn:Hok; simpl.
  - intros [= <- <-]. now exists r.
  - unfold mbind, M_bind, py_get. repeat case_match; simplify_eq; discriminate.
Qed.

Lemma truthy_default_lookup (d : dict) key :
  truthy (default VNone (d !! key)) = true ->
  exists v, d !! key = Some v /\ truthy v = true.
Proof. destruct (d !! key) as [v |]; [eauto | discriminate]. Qed.

Lemma ready_status_inv (d : dict) :
  eq_str (default VNone (d !! "status")) "Ready" = true ->
  d !! "status" = Some (VStr "Ready").
Proof.
  destruct (d !! "status") as [[| b | n | x | s | items | d'] |]; try discriminate.
  simpl. intros H. apply String.eqb_eq in H. now subst.
Qed.

Lemma poll_for_results_Return_inv inference_id fuel :
  forall attempt h v h',
    poll_for_results transport fuel self inference_id attempt h = (Return v, h') ->
    exists (rest : list event) (r : Response) (d : dict),
      h' = (h ++ rest) ++ [Sent (poll_request self inference_id)] /\
      transport (h ++ rest) (poll_request self inference_id) = inl r /\
      ok r = true /\
      parse_response r = Decoded (VDict d) /\
      d !! "status" = Some (VStr "Ready") /\
      d !! "result" = Some v.
Proof.
  induction fuel as [| fuel IH]; intros attempt h v h'; cbn [poll_for_results];
    [discriminate |].
  destruct (attempt <? max_attempts)%Z; [| discriminate].
  unfold mbind at 1. unfold M_bind at 1.
  destruct (get_progress transport self inference_id h) as [[result | e |] h1] eqn:Hprog;
    [| discriminate | discriminate].
  apply make_request_Return_inv in Hprog as (r & Hr & Hok & Hparse & ->).
  fold (poll_request self inference_id) in *.
  destruct result as [| b | n | x | s | items | d]; try discriminate.
  erewrite bind_Return by apply py_get_dict.
  destruct (eq_str (default VNone (d !! "status")) "Ready") eqn:Hready.
  - apply ready_status_inv in Hready.
    unfold mbind, M_bind, py_in, py_getitem, mret, M_ret, raise.
    destruct (d !! "result") as [nested |] eqn:Hres; simpl; [| discriminate].
    intros Hrun. exists [], r, d. rewrite app_nil_r.
    assert (v = nested /\ h' = h ++ [Sent (poll_request self inference_id)]) as [-> ->].
    { revert Hrun. repeat case_match; simplify_eq; try discriminate;
        intros [= <- <-]; now split. }
    repeat split; assumption.
  - erewrite bind_Return by apply py_get_dict.
    destruct (in_strs (default VNone (d !! "status")) ["Failed"; "Error"]);
      [discriminate |].
    unfold mbind, M_bind, time_sleep. intros Hrun.
    apply IH in Hrun as (rest & r' & d' & -> & Hr' & Hok' & Hparse' & Hstatus & Hres).
    exists ([Sent (poll_request self inference_id)] ++ [Slept 2] ++ rest), r', d'.
    rewrite <- !app_assoc in *. simpl in *.
    repeat split; assumption.
Qed.

(** [generate_image] returns only what the service declared ready:
    whenever it returns a value, the last event of the call is a poll that
    the service answered with an [ok] response decoding to an object whose
    ['status'] is "Ready" and whose ['result'] is the value returned. *)
Theorem generate_image_returns_only_a_ready_result (finetune_id prompt : string)
    (finetune_strength : spec_float) (endpoint : string) (kwargs : dict)
    (t : list event) (v : value) (t' : list event) :
  generate_image transport self finetune_id prompt finetune_strength endpoint kwargs t
  = (Return v, t') ->
  exists (h : list event) (inference_id : value) (r : Response) (d : dict),
    t' = h ++ [Sent (poll_request self inference_id)] /\
    transport h (poll_request self inference_id) = inl r /\
    ok r = true /\
    parse_response r = Decoded (VDict d) /\
    d !! "status" = Some (VStr "Ready") /\
    d !! "result" = Some v.
Proof.
  unfold generate_image, reraise_as_flux.
  match goal with |- context [let (_, _) := ?body t in _] =>
    destruct (body t) as [[v' | [msg r | e] |] t1] eqn:Hbody end;
    simpl; try discriminate.
  intros [= -> ->]. revert Hbody.
  unfold mbind at 1. unfold M_bind at 1.
  destruct (_make_request transport self "POST" endpoint _ t) as [[resp | e |] t2];
    try discriminate.
  unfold mbind, M_bind.
  destruct (py_get resp "id" VNone t2) as [[inference_id | e |] t3]; try discriminate.
  destruct (negb (truthy inference_id)); [discriminate |].
  intros Hloop.
  apply poll_for_results_Return_inv in Hloop as (rest & r & d & -> & H).
  now exists (t3 ++ rest), inference_id, r, d.
Qed.

(** [request_finetuning] returns only an object with a job id: whenever
    it returns, the service answered the one POST with an [ok] response
    decoding to an object, and the value returned is that object with ['id']
    set to a value Python takes as true, which the service gave under ['id']
    or under ['finetune_id']. So [response['id']] is safe on what it
    returns. *)
Theorem request_finetuning_returns_a_job_id
    (file_data finetune_comment trigger_word mode : string) (iterations : Z)
    (learning_rate : spec_float) (captioning : bool)
    (priority finetune_type : string) (lora_rank : Z)
    (t : list event) (v : value) (t' : list event) :
  let post := finetune_post self file_data finetune_comment trigger_word mode iterations
                learning_rate captioning priority finetune_type lora_rank in
  request_finetuning transport self file_data finetune_comment trigger_word mode
    iterations learning_rate captioning priority finetune_type lora_rank t
  = (Return v, t') ->
  exists (r : Response) (fields : dict) (id : value),
    transport t post = inl r /\
    ok r = true /\
    parse_response r = Decoded (VDict fields) /\
    (fields !! "id" = Some id \/ fields !! "finetune_id" = Some id) /\
    truthy id = true /\
    v = VDict (<["id" := id]> fields) /\
    t' = t ++ [Sent post].
Proof.
  intros post. unfold request_finetuning, reraise_as_flux.
  match goal with |- context [let (_, _) := ?body t in _] =>
    destruct (body t) as [[v' | [msg r | e] |] t1] eqn:Hbody end;
    simpl; try discriminate.
  intros [= -> ->]. revert Hbody.
  unfold mbind at 1. unfold M_bind at 1.
  destruct (_make_request transport self "POST" "finetune" _ t) as [[resp | e |] t2] eqn:Hreq;
    try discriminate.
  apply make_request_Return_inv in Hreq as (r & Hr & Hok & Hparse & ->).
  destruct resp as [| b | n | x | s | items | fields]; try discriminate.
  erewrite bind_Return by apply py_get_dict.
  destruct (truthy (default VNone (fields !! "id"))) eqn:Hid.
  - erewrite bind_Return by reflexivity. rewrite Hid. simpl.
    intros [= <- <-].
    apply truthy_default_lookup in Hid as (id & Hlookup & Htruthy).
    exists r, fields, id. rewrite Hlookup. simpl.
    repeat split; solve [assumption | now left].
  - erewrite bind_Return by apply py_get_dict.
    destruct (truthy (default VNone (fields !! "finetune_id"))) eqn:Hid2; simpl;
      [| discriminate].
    intros [= <- <-].
    apply truthy_default_lookup in Hid2 as (id & Hlookup & Htruthy).
    exists r, fields, id. rewrite Hlookup. simpl.
    repeat split; solve [assumption | now right].
Qed.

End Postconditions.

Lemma generate_image_returns_only_a_ready_result_witness :
  exists (h : list event) (inference_id : value) (r : Response) (d : dict),
    [Sent (submit_request Mock.self "ft-1" "a photo of TOK" Script.strength_1_2
             Script.endpoint ∅);
     Sent (poll_request Mock.self (VStr "inf-1"))]
    = h ++ [Sent (poll_request Mock.self inference_id)] /\
    Script.scripted (Script.created "id" "inf-1")
      [Script.ready_reply "https://example.org/sample.jpg"]
      (Script.status_reply "Pending") h (poll_request Mock.self inference_id) = inl r /\
    ok r = true /\
    parse_response r = Decoded (VDict d) /\
    d !! "status" = Some (VStr "Ready") /\
    d !! "result" = Some (VDict {[ "sample" := VStr "https://example.org/sample.jpg" ]}).
Proof.
  apply (generate_image_returns_only_a_ready_result
           (Script.scripted (Script.created "id" "inf-1")
              [Script.ready_reply "https://example.org/sample.jpg"]
              (Script.status_reply "Pending"))
           Mock.self "ft-1" "a photo of TOK" Script.strength_1_2 Script.endpoint ∅ []).
  reflexivity.
Defined.

Lemma request_finetuning_returns_a_job_id_witness :
  exists (r : Response) (fields : dict) (id : value),
    Mock.replies (Script.created "finetune_id" "ft-2") []
      (finetune_post Mock.self "UEsDBBQAAAAIAA==" "my dog" "TOK" "character" 300
         Script.learning_rate_1e_5 true "quality" "lora" 16) = inl r /\
    ok r = true /\
    parse_response r = Decoded (VDict fields) /\
    (fields !! "id" = Some id \/ fields !! "finetune_id" = Some id) /\
    truthy id = true /\
    VDict (<["id" := VStr "ft-2"]> {[ "finetune_id" := VStr "ft-2" ]})
    = VDict (<["id" := id]> fields) /\
    [Sent (finetune_post Mock.self "UEsDBBQAAAAIAA==" "my dog" "TOK" "character" 300
             Script.learning_rate_1e_5 true "quality" "lora" 16)]
    = [] ++ [Sent (finetune_post Mock.self "UEsDBBQAAAAIAA==" "my dog" "TOK" "character"
                     300 Script.learning_rate_1e_5 true "quality" "lora" 16)].
Proof.
  apply (request_finetuning_returns_a_job_id
           (Mock.replies (Script.created "finetune_id" "ft-2")) Mock.self
           "UEsDBBQAAAAIAA==" "my dog" "TOK" "character" 300 Script.learning_rate_1e_5
           true "quality" "lora" 16 []).
  reflexivity.
Defined.

(** ** When a built-in exception leaves the request layer *)

Section Escapes.

Variable transport : list event -> Request -> Response + RequestException.
Variable self : FluxAPI.

(** What the logging of the payload raises: [len] of a ['file_data'] that has
    no length. *)
Lemma log_request_details_Raise_inv kw t e t' :
  log_request_details kw t = (Raise e, t') ->
  exists (payload : dict) (file_data : value),
    kw !! "json" = Some (VDict payload) /\
    payload !! "file_data" = Some file_data /\
    is_container file_data = false /\
    e = Builtin (TypeError no_len file_data).
Proof.
  unfold log_request_details.
  destruct (kw !! "json") as [[| b | n | x | s | items | payload] |]; try discriminate.
  destruct (truthy (VDict payload)); [| discriminate].
  destruct (payload !! "file_data") as [file_data |] eqn:Hdata; [| discriminate].
  unfold mbind, M_bind, py_len.
  destruct file_data; try discriminate; intros [= <- _];
    eexists payload, _; (split; [reflexivity |]); (split; [exact Hdata |]);
    split; reflexivity.
Qed.

Lemma log_request_details_outcome kw t :
  (exists e, log_request_details kw t = (Raise e, t)) \/
  log_request_details kw t = (Return tt, t).
Proof.
  pose proof (log_request_details_snd kw t) as Hsnd.
  pose proof (terminates_log_request_details kw t) as Hfuel.
  destruct (log_request_details kw t) as [[[] | e |] t1]; simpl in *; subst t1;
    [now right | left; now exists e | congruence].
Qed.


End Escapes.


(** ** Deleting a job *)

Section DeleteDesk.

Variable transport : list event -> Request -> Response + RequestException.
Variable environ : gmap string string.

(** The handler [delete_finetune] reports a success only when the service
    confirmed the request: if it shows "Successfully deleted finetune: <id>",
    then the id is not empty and the one event of the call is the POST to
    [delete_finetune] for exactly this id, with the client [_get_api] gave
    (holding the key of the call when that is not empty), which the service
    answered with an [ok] response whose body decodes. *)
Theorem delete_reports_success_only_when_confirmed (finetune_id key : string)
    (ui : FluxTrainerUI) (t : list event) (ui' : FluxTrainerUI) (t' : list event) :
  ui_delete_finetune transport environ finetune_id key ui t
  = (Done (Text [Lit "Successfully deleted finetune: "; Str (VStr finetune_id)]), ui', t') ->
  finetune_id <> "" /\
  exists (a : FluxAPI) (r : Response) (v : value),
    fst (fst (_get_api environ key ui t)) = Done a /\
    (key <> "" -> a = {| api_key := key |}) /\
    transport t (request_for a "POST" "delete_finetune"
                   {[ "json" := VDict {[ "finetune_id" := VStr finetune_id ]} ]}) = inl r /\
    ok r = true /\
    parse_response r = Decoded v /\
    t' = t ++ [Sent (request_for a "POST" "delete_finetune"
                       {[ "json" := VDict {[ "finetune_id" := VStr finetune_id ]} ]})].
Proof.
  unfold ui_delete_finetune, try_except.
  destruct (String.eqb finetune_id "") eqn:Hid; [discriminate |].
  apply String.eqb_neq in Hid.
  pose proof (get_api_trace environ key ui t) as Htrace.
  destruct (_get_api environ key ui t) as [[[a | e |] ui1] t1] eqn:Hget;
    simpl in Htrace; subst t1.
  2: { erewrite UM_bind_Failed by exact Hget.
       destruct e as [[msg r | b] | n | msg]; discriminate. }
  2: { unfold mbind at 1. unfold UM_bind at 1. rewrite Hget. discriminate. }
  erewrite UM_bind_Done by exact Hget.
  unfold mbind, UM_bind, lift, delete_finetune.
  destruct (_make_request transport a "POST" "delete_finetune" _ t)
    as [[v | e |] t2] eqn:Hreq.
  - apply make_request_Return_inv in Hreq as (r & Hr & Hok & Hparse & ->).
    intros [= <- <-]. split; [exact Hid |].
    exists a, r, v. repeat split; try assumption.
    intros Hk. rewrite (get_api_with_key environ key ui t Hk) in Hget.
    now inversion Hget.
  - destruct e as [msg r | b]; discriminate.
  - discriminate.
Qed.

End DeleteDesk.

Lemma delete_reports_success_only_when_confirmed_witness :
  "ft-1" <> "" /\
  exists (a : FluxAPI) (r : Response) (v : value),
    fst (fst (_get_api ∅ "secret" Desk.fresh [])) = Done a /\
    ("secret" <> "" -> a = {| api_key := "secret" |}) /\
    Mock.replies Script.empty_object []
      (request_for a "POST" "delete_finetune"
         {[ "json" := VDict {[ "finetune_id" := VStr "ft-1" ]} ]}) = inl r /\
    ok r = true /\
    parse_response r = Decoded v /\
    [Sent (request_for {| api_key := "secret" |} "POST" "delete_finetune"
             {[ "json" := VDict {[ "finetune_id" := VStr "ft-1" ]} ]})]
    = [] ++ [Sent (request_for a "POST" "delete_finetune"
                     {[ "json" := VDict {[ "finetune_id" := VStr "ft-1" ]} ]})].
Proof.
  apply (delete_reports_success_only_when_confirmed (Mock.replies Script.empty_object) ∅
           "ft-1" "secret" Desk.fresh [] (with_api Desk.fresh {| api_key := "secret" |})).
  reflexivity.
Defined.

(** ** The key on the wire *)

Lemma sends_with_quiet key {A : Type} (m : M A) :
  (forall t, snd (m t) = t) -> sends_with key m.
Proof. intros H t. exists []. rewrite H, app_nil_r. now split. Qed.

Lemma sends_with_ret key {A : Type} (a : A) : sends_with key (mret a).
Proof. now apply sends_with_quiet. Qed.

Lemma sends_with_raise key {A : Type} e : sends_with key (@raise A e).
Proof. now apply sends_with_quiet. Qed.

Lemma sends_with_bind key {A B : Type} (m : M A) (k : A -> M B) :
  sends_with key m -> (forall a, sends_with key (k a)) -> sends_with key (m ≫= k).
Proof.
  intros Hm Hk t. unfold mbind, M_bind.
  destruct (Hm t) as (new & Ht & Hnew).
  destruct (m t) as [[a | e |] t1]; simpl in Ht; subst t1; try (now exists new).
  destruct (Hk a (t ++ new)) as (new' & Ht' & Hnew').
  exists (new ++ new'). rewrite Ht', app_assoc. split; [reflexivity |].
  now apply Forall_app.
Qed.

Lemma sends_with_if key {A : Type} (b : bool) (m1 m2 : M A) :
  sends_with key m1 -> sends_with key m2 -> sends_with key (if b then m1 else m2).
Proof. now destruct b. Qed.

Lemma sends_with_reraise key {A : Type} prefix (m : M A) :
  sends_with key m -> sends_with key (reraise_as_flux prefix m).
Proof. intros Hm t. rewrite reraise_as_flux_snd. apply Hm. Qed.

Lemma sends_with_py_get key obj k dflt : sends_with key (py_get obj k dflt).
Proof. apply sends_with_quiet, py_get_snd. Qed.

Lemma sends_with_py_getitem key obj k : sends_with key (py_getitem obj k).
Proof. apply sends_with_quiet, py_getitem_snd. Qed.

Lemma sends_with_py_in key k container : sends_with key (py_in k container).
Proof. apply sends_with_quiet. intros t. unfold py_in. now repeat case_match. Qed.

Lemma sends_with_py_len key v : sends_with key (py_len v).
Proof. apply sends_with_quiet. intros t. now destruct v. Qed.

Lemma sends_with_time_sleep key s : sends_with key (time_sleep s).
Proof. intros t. exists [Slept s]. split; [reflexivity |]. now repeat constructor. Qed.

#[local] Hint Resolve sends_with_ret sends_with_raise sends_with_bind sends_with_if
  sends_with_reraise sends_with_py_get sends_with_py_getitem sends_with_py_in
  sends_with_py_len sends_with_time_sleep : client.

Section OnTheWire.

Variable transport : list event -> Request -> Response + RequestException.

Lemma sends_with_make_request self method endpoint kwargs :
  sends_with (api_key self) (_make_request transport self method endpoint kwargs).
Proof.
  intros t. exists [Sent (request_for self method endpoint kwargs)].
  split; [apply make_request_sends_once |].
  repeat constructor.
Qed.

Lemma sends_with_poll_for_results self inference_id fuel :
  forall attempt,
    sends_with (api_key self) (poll_for_results transport fuel self inference_id attempt).
Proof.
  induction fuel as [| fuel IH]; intros attempt; cbn [poll_for_results].
  - now apply sends_with_quiet.
  - apply sends_with_if; [| apply sends_with_raise].
    apply sends_with_bind; [apply sends_with_make_request |]. intros result.
    apply sends_with_bind; [apply sends_with_py_get |]. intros status.
    apply sends_with_if.
    + apply sends_with_bind; [apply sends_with_py_in |]. intros has_result.
      apply sends_with_bind.
      * destruct has_result; auto with client.
      * intros has_sample. destruct has_sample; auto with client.
    + apply sends_with_bind; [apply sends_with_py_get |]. intros status'.
      apply sends_with_if; [auto with client |].
      apply sends_with_bind; [apply sends_with_time_sleep |]. intros _. apply IH.
Qed.

Lemma sends_with_generate_image self finetune_id prompt finetune_strength endpoint kwargs :
  sends_with (api_key self)
    (generate_image transport self finetune_id prompt finetune_strength endpoint kwargs).
Proof.
  unfold generate_image. apply sends_with_reraise.
  apply sends_with_bind; [apply sends_with_make_request |]. intros response.
  apply sends_with_bind; [apply sends_with_py_get |]. intros inference_id.
  apply sends_with_if; [apply sends_with_raise | apply sends_with_poll_for_results].
Qed.

Lemma sends_with_request_finetuning self file_data finetune_comment trigger_word mode
    iterations learning_rate captioning priority finetune_type lora_rank :
  sends_with (api_key self)
    (request_finetuning transport self file_data finetune_comment trigger_word mode
       iterations learning_rate captioning priority finetune_type lora_rank).
Proof.
  unfold request_finetuning. apply sends_with_reraise.
  apply sends_with_bind; [apply sends_with_make_request |]. intros response.
  destruct response; auto 8 with client.
Qed.

Lemma sends_with_get_finetune_details_of self finetune_id :
  sends_with (api_key self) (get_finetune_details_of transport self finetune_id).
Proof.
  unfold get_finetune_details_of.
  apply sends_with_bind; [apply sends_with_make_request |]. intros response.
  destruct response; apply sends_with_ret.
Qed.

Lemma sends_with_finetune_id_of key ft dflt : sends_with key (finetune_id_of ft dflt).
Proof. destruct ft; simpl; auto with client. Qed.

Lemma sends_with_py_iter key keys_in_order v : sends_with key (py_iter keys_in_order v).
Proof. destruct v; simpl; auto with client. Qed.

(** The same, for the code of the handlers. *)

Lemma ui_sends_with_quiet key {A : Type} (m : UM A) :
  (forall ui t, snd (m ui t) = t) -> ui_sends_with key m.
Proof. intros H ui t. exists []. rewrite H, app_nil_r. now split. Qed.

Lemma ui_sends_with_ret key {A : Type} (a : A) : ui_sends_with key (mret a).
Proof. now apply ui_sends_with_quiet. Qed.

Lemma ui_sends_with_fail key {A : Type} e : ui_sends_with key (@fail A e).
Proof. now apply ui_sends_with_quiet. Qed.

Lemma ui_sends_with_lift key {A : Type} (m : M A) :
  sends_with key m -> ui_sends_with key (lift m).
Proof. intros Hm ui t. rewrite lift_snd. apply Hm. Qed.

(** Sequencing, when what the first part returns is known to satisfy [P]. *)
Lemma ui_sends_with_bind_post key {A B : Type} (P : A -> Prop) (m : UM A) (k : A -> UM B) :
  ui_sends_with key m ->
  (forall ui t a ui' t', m ui t = (Done a, ui', t') -> P a) ->
  (forall a, P a -> ui_sends_with key (k a)) ->
  ui_sends_with key (m ≫= k).
Proof.
  intros Hm HP Hk ui t. unfold mbind, UM_bind.
  destruct (Hm ui t) as (new & Ht & Hnew).
  destruct (m ui t) as [[[a | e |] ui1] t1] eqn:Hrun; simpl in Ht; subst t1;
    try (now exists new).
  destruct (Hk a (HP _ _ _ _ _ Hrun) ui1 (t ++ new)) as (new' & Ht' & Hnew').
  exists (new ++ new'). rewrite Ht', app_assoc. split; [reflexivity |].
  now apply Forall_app.
Qed.

Lemma ui_sends_with_bind key {A B : Type} (m : UM A) (k : A -> UM B) :
  ui_sends_with key m -> (forall a, ui_sends_with key (k a)) ->
  ui_sends_with key (m ≫= k).
Proof.
  intros Hm Hk. apply (ui_sends_with_bind_post key (fun _ => True)); auto.
Qed.

Lemma ui_sends_with_if key {A : Type} (b : bool) (m1 m2 : UM A) :
  ui_sends_with key m1 -> ui_sends_with key m2 ->
  ui_sends_with key (if b then m1 else m2).
Proof. now destruct b. Qed.

Lemma ui_sends_with_try_except key {A : Type} (body : UM A) on_flux on_exception :
  ui_sends_with key body ->
  (forall msg, ui_sends_with key (on_flux msg)) ->
  (forall msg, ui_sends_with key (on_exception msg)) ->
  ui_sends_with key (try_except body on_flux on_exception).
Proof.
  intros Hb Hf He ui t. unfold try_except.
  destruct (Hb ui t) as (new & Ht & Hnew).
  destruct (body ui t) as [[[a | e |] ui1] t1]; simpl in Ht; subst t1;
    try (now exists new).
  assert (forall (h : list fragment -> UM A), (forall msg, ui_sends_with key (h msg)) ->
            forall msg, exists new0, snd (h msg ui1 (t ++ new)) = t ++ new0 /\
                                     Forall (carries key) new0) as Hhandler.
  { intros h Hh msg. destruct (Hh msg ui1 (t ++ new)) as (new' & Ht' & Hnew').
    exists (new ++ new'). rewrite Ht', app_assoc. split; [reflexivity |].
    now apply Forall_app. }
  destruct e as [[msg r | b] | n | msg]; now apply Hhandler.
Qed.

Lemma ui_sends_with_try_except_any key {A : Type} (body : UM A) on_exception :
  ui_sends_with key body ->
  (forall msg, ui_sends_with key (on_exception msg)) ->
  ui_sends_with key (try_except_any body on_exception).
Proof.
  intros Hb He ui t. unfold try_except_any.
  destruct (Hb ui t) as (new & Ht & Hnew).
  destruct (body ui t) as [[[a | e |] ui1] t1]; simpl in Ht; subst t1;
    try (now exists new).
  destruct (He (str_of e) ui1 (t ++ new)) as (new' & Ht' & Hnew').
  exists (new ++ new'). rewrite Ht', app_assoc. split; [reflexivity |].
  now apply Forall_app.
Qed.

Lemma ui_sends_with_in_auto_refresh_states key status :
  ui_sends_with key (in_auto_refresh_states status).
Proof. apply ui_sends_with_quiet. intros ui t. now destruct status. Qed.

Section Handlers.

Variable environ : gmap string string.
Variable getsize : string -> Z + string.
Variable zip_base64 : list UploadedFile -> string + string.
Variable keys_in_order : dict -> list string.
Variable key : string.

Lemma ui_sends_with_get_api : ui_sends_with key (_get_api environ key).
Proof. apply ui_sends_with_quiet, get_api_trace. Qed.

Lemma get_api_gives_the_key ui t a ui' t' :
  key <> "" -> _get_api environ key ui t = (Done a, ui', t') -> api_key a = key.
Proof.
  intros Hkey. rewrite (get_api_with_key environ key ui t Hkey). now intros [= <- _ _].
Qed.

Lemma ui_sends_with_create_zip_from_files files :
  ui_sends_with key (create_zip_from_files getsize zip_base64 files).
Proof.
  apply ui_sends_with_quiet. intros ui t.
  destruct (create_zip_from_files_pure getsize zip_base64 files) as (o & Ho & _).
  now rewrite Ho.
Qed.

Lemma ui_sends_with_list_rows a finetunes :
  api_key a = key ->
  forall rows, ui_sends_with key (list_rows transport a finetunes rows).
Proof.
  intros Ha. induction finetunes as [| ft rest IH]; intros rows; cbn [list_rows].
  - apply ui_sends_with_ret.
  - apply ui_sends_with_bind; [| exact IH].
    apply ui_sends_with_try_except_any.
    + apply ui_sends_with_bind;
        [apply ui_sends_with_lift, sends_with_finetune_id_of |]. intros ft_id.
      apply ui_sends_with_if; [apply ui_sends_with_ret |].
      apply ui_sends_with_bind.
      * apply ui_sends_with_lift. rewrite <- Ha.
        apply sends_with_get_finetune_details_of.
      * intros details.
        destruct details; apply ui_sends_with_ret.
    + intros _.
      apply ui_sends_with_bind;
        [apply ui_sends_with_lift, sends_with_finetune_id_of |]. intros ft_id.
      apply ui_sends_with_ret.
Qed.

(** Whatever client was cached, a handler called with a key sends requests
    under that key only: for a non-empty key, everything the five handlers
    add to the trace comes after what was there, and every request in it
    carries this key in its [X-Key] header. This holds for every service,
    every input and every state of the interface. *)
Theorem handlers_send_only_the_key_of_the_call :
  key <> "" ->
  (forall finetune_id auto_refresh last_status,
     ui_sends_with key (check_progress_with_state transport environ finetune_id key
                          auto_refresh last_status)) /\
  ui_sends_with key (ui_list_finetunes transport environ keys_in_order key) /\
  (forall finetune_id,
     ui_sends_with key (ui_delete_finetune transport environ finetune_id key)) /\
  (forall files finetune_comment trigger_word mode iterations learning_rate captioning
          priority finetune_type lora_rank,
     ui_sends_with key (_handle_training transport environ getsize zip_base64 files
                          finetune_comment trigger_word mode iterations learning_rate
                          captioning priority finetune_type lora_rank key)) /\
  (forall finetune_id prompt finetune_strength endpoint,
     ui_sends_with key (_handle_generation transport environ finetune_id prompt
                          finetune_strength endpoint key)).
Proof.
  intros Hkey.
  assert (forall ui t a ui' t',
            _get_api environ key ui t = (Done a, ui', t') -> api_key a = key) as Hget
    by (intros ui t a ui' t' H; exact (get_api_gives_the_key ui t a ui' t' Hkey H)).
  split; [| split; [| split; [| split]]]; intros.
  - apply ui_sends_with_try_except; try (intros; apply ui_sends_with_ret).
    apply ui_sends_with_if; [apply ui_sends_with_ret |].
    apply (ui_sends_with_bind_post key (fun a => api_key a = key));
      [apply ui_sends_with_get_api | exact Hget |]. intros a Ha.
    apply ui_sends_with_bind.
    { apply ui_sends_with_lift. rewrite <- Ha. apply sends_with_make_request. }
    intros result.
    apply ui_sends_with_bind; [apply ui_sends_with_lift, sends_with_py_getitem |].
    intros status.
    apply ui_sends_with_bind; [apply ui_sends_with_lift, sends_with_py_get |].
    intros progress.
    apply ui_sends_with_bind; [apply ui_sends_with_in_auto_refresh_states |].
    intros should_refresh.
    apply ui_sends_with_bind; [| intros; apply ui_sends_with_ret].
    apply ui_sends_with_if; [apply ui_sends_with_ret |].
    apply ui_sends_with_bind; [apply ui_sends_with_in_auto_refresh_states |].
    intros refreshing. destruct refreshing; [apply ui_sends_with_ret |].
    apply ui_sends_with_if; apply ui_sends_with_ret.
  - apply ui_sends_with_try_except; try (intros; apply ui_sends_with_ret).
    apply (ui_sends_with_bind_post key (fun a => api_key a = key));
      [apply ui_sends_with_get_api | exact Hget |]. intros a Ha.
    apply ui_sends_with_bind.
    { apply ui_sends_with_lift. rewrite <- Ha. apply sends_with_make_request. }
    intros response.
    apply ui_sends_with_bind; [apply ui_sends_with_lift, sends_with_py_get |].
    intros finetunes.
    apply ui_sends_with_bind; [apply ui_sends_with_lift, sends_with_py_len |].
    intros _.
    apply ui_sends_with_bind; [apply ui_sends_with_lift, sends_with_py_iter |].
    intros items.
    apply ui_sends_with_bind; [now apply ui_sends_with_list_rows |].
    intros rows. destruct rows; apply ui_sends_with_ret.
  - apply ui_sends_with_try_except; try (intros; apply ui_sends_with_ret).
    apply ui_sends_with_if; [apply ui_sends_with_ret |].
    apply (ui_sends_with_bind_post key (fun a => api_key a = key));
      [apply ui_sends_with_get_api | exact Hget |]. intros a Ha.
    apply ui_sends_with_bind; [| intros; apply ui_sends_with_ret].
    apply ui_sends_with_lift. rewrite <- Ha. apply sends_with_make_request.
  - apply ui_sends_with_try_except; try (intros; apply ui_sends_with_ret).
    destruct files as [[| f rest] |]; try apply ui_sends_with_ret.
    apply ui_sends_with_if; [apply ui_sends_with_ret |].
    apply ui_sends_with_if; [apply ui_sends_with_ret |].
    apply (ui_sends_with_bind_post key (fun a => api_key a = key));
      [apply ui_sends_with_get_api | exact Hget |]. intros a Ha.
    apply ui_sends_with_bind.
    + apply ui_sends_with_try_except_any; [| intros; apply ui_sends_with_ret].
      apply ui_sends_with_bind; [apply ui_sends_with_create_zip_from_files |].
      intros z. apply ui_sends_with_ret.
    + intros [[zip_data total_size] | early]; [| apply ui_sends_with_ret].
      apply ui_sends_with_bind.
      { apply ui_sends_with_lift. rewrite <- Ha. apply sends_with_request_finetuning. }
      intros response.
      apply ui_sends_with_bind; [apply ui_sends_with_lift, sends_with_py_getitem |].
      intros id. apply ui_sends_with_ret.
  - apply ui_sends_with_try_except; try (intros; apply ui_sends_with_ret).
    apply ui_sends_with_if; [apply ui_sends_with_ret |].
    apply ui_sends_with_if; [apply ui_sends_with_ret |].
    apply (ui_sends_with_bind_post key (fun a => api_key a = key));
      [apply ui_sends_with_get_api | exact Hget |]. intros a Ha.
    apply ui_sends_with_bind.
    { apply ui_sends_with_lift. rewrite <- Ha. apply sends_with_generate_image. }
    intros result.
    apply ui_sends_with_bind; [apply ui_sends_with_lift, sends_with_py_getitem |].
    intros sample. apply ui_sends_with_ret.
Qed.

End Handlers.

End OnTheWire.

Lemma handlers_send_only_the_key_of_the_call_witness :
  ui_sends_with "new-key"
    (ui_delete_finetune (Mock.replies Script.empty_object) ∅ "ft-1" "new-key").
Proof.
  apply (handlers_send_only_the_key_of_the_call (Mock.replies Script.empty_object) ∅
           Desk.getsize Desk.zip_base64 (fun _ => []) "new-key").
  discriminate.
Defined.
